(** * quantum-launcher: the acquisition and command-synthesis pipeline of main.cpp

    A shallow embedding of [src/main.cpp]: the JSON document model the
    program reads through rapidjson, the file system it probes and writes
    through <filesystem> and <fstream>, the transport behind [curlGet], the
    std::regex substitution of [replacePlaceholders], and [main] itself up
    to the classpath clause of the command line (lines 43-179).

    Conventions of the model.
    - A [std::string] is a [string]; [GetString()] hands a JSON string over
      as it is (texts are taken free of NUL characters).
    - A failed RAPIDJSON_ASSERT (a member that is absent, an index out of
      range, a value of the wrong type) and an exception nobody catches end
      the run: this is the outcome [Crash].
    - Console output ([std::cout], [std::cerr]) is not part of the state.
    - A path names a file-system entry through its components; the
      components "." and ".." are names like any other, links, permissions
      and a full disk do not exist. *)

From Stdlib Require Import Ascii String.
From stdpp Require Import base option list strings gmap.

Local Open Scope string_scope.
Local Open Scope list_scope.

(** ** Platform *)

(** The [#ifdef _WIN32] of the source: one constant [os] per build. *)
Inductive platform := Windows | Linux.

Definition os (plat : platform) : string :=
  match plat with
  | Windows => "windows"
  | Linux => "linux"
  end.

(** The separator appended after every classpath entry. *)
Definition classPathSeparator (plat : platform) : string :=
  match plat with
  | Windows => ";"
  | Linux => ":"
  end.

(** ** Strings *)

Definition ascii_eqb (a b : ascii) : bool := Ascii.eqb a b.

Definition backslash : ascii := Ascii.ascii_of_nat 92.
Definition slash : ascii := "/"%char.
Definition dollar : ascii := "$"%char.

(** Does the character occur in the text? *)
Fixpoint occurs (c : ascii) (s : string) : bool :=
  match s with
  | EmptyString => false
  | String d rest => ascii_eqb c d || occurs c rest
  end.

(** The texts of a list, one after the other. *)
Definition concat_all (l : list string) : string := foldr String.append EmptyString l.

(** [s.substr(pos, n)]; the program only calls it with [pos = 0], where
    it never throws. *)
Definition substr (s : string) (pos n : nat) : string := String.substring pos n s.

(** ** The JSON document model *)

(** An object keeps its members in document order and may repeat a name:
    [FindMember] returns the first one. *)
#[warnings="-register-all"]
Inductive json :=
| JNull
| JBool (b : bool)
| JNumber (z : Z)
| JString (s : string)
| JArray (items : list json)
| JObject (members : list (string * json)).

Fixpoint FindMember (members : list (string * json)) (name : string) : option json :=
  match members with
  | [] => None
  | (k, v) :: rest => if String.eqb k name then Some v else FindMember rest name
  end.

(** [v[name]]: asserts that [v] is an object and has the member. *)
Definition member (name : string) (v : json) : option json :=
  match v with
  | JObject members => FindMember members name
  | _ => None
  end.

(** [v[i]]: asserts that [v] is an array and [i] is in range. *)
Definition element (i : nat) (v : json) : option json :=
  match v with
  | JArray items => items !! i
  | _ => None
  end.

(** [v.GetString()]: asserts that [v] is a string. *)
Definition GetString (v : json) : option string :=
  match v with
  | JString s => Some s
  | _ => None
  end.

(** [v.HasMember(name)]: asserts that [v] is an object. *)
Definition HasMember (name : string) (v : json) : option bool :=
  match v with
  | JObject members => Some (bool_decide (is_Some (FindMember members name)))
  | _ => None
  end.

(** The items of an array, for the loops that run [i] from 0 to [Size()]. *)
Definition GetArray (v : json) : option (list json) :=
  match v with
  | JArray items => Some items
  | _ => None
  end.

(** The members of an object, for [MemberBegin() .. MemberEnd()]. *)
Definition GetObject (v : json) : option (list (string * json)) :=
  match v with
  | JObject members => Some members
  | _ => None
  end.

Definition IsString (v : json) : bool := match v with JString _ => true | _ => false end.
Definition IsArray (v : json) : bool := match v with JArray _ => true | _ => false end.
Definition IsObject (v : json) : bool := match v with JObject _ => true | _ => false end.

(** ** The file system *)

Inductive node :=
| File (content : string)
| Dir.

Definition is_sep (plat : platform) (c : ascii) : bool :=
  ascii_eqb c slash ||
  match plat with
  | Windows => ascii_eqb c backslash
  | Linux => false
  end.

(** The components of a path text; [cur] is the component being read.
    Empty components (doubled or trailing separators) are dropped. *)
Fixpoint components_from (plat : platform) (cur : string) (s : string) : list string :=
  match s with
  | EmptyString => if String.eqb cur "" then [] else [cur]
  | String c rest =>
      if is_sep plat c
      then (if String.eqb cur "" then components_from plat "" rest
            else cur :: components_from plat "" rest)
      else components_from plat (cur +:+ String c "") rest
  end.

Definition components (plat : platform) (s : string) : list string :=
  components_from plat "" s.

(** Does the text end in a separator (so that it can only name a directory)? *)
Fixpoint ends_with_sep (plat : platform) (s : string) : bool :=
  match s with
  | EmptyString => false
  | String c EmptyString => is_sep plat c
  | String _ rest => ends_with_sep plat rest
  end.

Definition lookup_path (f : gmap (list string) node) (p : list string) : option node :=
  match p with
  | [] => Some Dir
  | _ => f !! p
  end.

(** What [stat] finds under a path text. *)
Definition stat (plat : platform) (f : gmap (list string) node) (s : string) : option node :=
  if String.eqb s "" then None
  else match lookup_path f (components plat s) with
       | Some (File c) => if ends_with_sep plat s then None else Some (File c)
       | r => r
       end.

(** [std::filesystem::create_directories]: every missing prefix of the
    path becomes a directory; a regular file in the way is an error
    (the overload used throws). *)
Fixpoint create_directories_from (pre rest : list string) (f : gmap (list string) node)
  : option (gmap (list string) node) :=
  match rest with
  | [] => Some f
  | c :: rest' =>
      let q := pre ++ [c] in
      match f !! q with
      | Some (File _) => None
      | Some Dir => create_directories_from q rest' f
      | None => create_directories_from q rest' (<[q := Dir]> f)
      end
  end.

Definition create_directories (p : list string) (f : gmap (list string) node)
  : option (gmap (list string) node) :=
  create_directories_from [] p f.

(** Opening a path for writing ([std::ofstream], [std::fstream] with
    [ios::out]): the file is created or truncated when its directory
    exists and the path does not name a directory. *)
Definition open_for_writing (plat : platform) (f : gmap (list string) node) (s : string)
  : option (list string) :=
  let p := components plat s in
  if String.eqb s "" || ends_with_sep plat s then None
  else match p with
       | [] => None
       | _ =>
           match lookup_path f (removelast p), f !! p with
           | Some Dir, Some Dir => None
           | Some Dir, _ => Some p
           | _, _ => None
           end
       end.

(** [std::filesystem::path(s).parent_path()] as a text: the path up to
    the separators before its last file name.  The scan keeps the text
    read so far as [done +:+ seps +:+ name]: a finished prefix, the run
    of separators after it, and the file name being read. *)
Fixpoint parent_path_from (plat : platform) (done seps name : string) (s : string) : string :=
  match s with
  | EmptyString => if String.eqb done "" then seps else done
  | String c rest =>
      if is_sep plat c
      then (if String.eqb name ""
            then parent_path_from plat done (seps +:+ String c "") "" rest
            else parent_path_from plat (done +:+ seps +:+ name) (String c "") "" rest)
      else parent_path_from plat done seps (name +:+ String c "") rest
  end.

Definition parent_path (plat : platform) (s : string) : string :=
  parent_path_from plat "" "" "" s.

(** ** The state of a run and its outcomes *)

(** The files on disk and the URLs requested so far, oldest first. *)
Record state := mkState {
  files : gmap (list string) node;
  fetched : list string
}.

Definition set_files (f : gmap (list string) node) (s : state) : state :=
  {| files := f; fetched := fetched s |}.

Inductive outcome (A : Type) :=
| Done (a : A) (s : state)
| Crash (s : state).

Arguments Done {A} a s.
Arguments Crash {A} s.

(** The state a run ends in, whichever way it ends. *)
Definition final {A : Type} (o : outcome A) : state :=
  match o with
  | Done _ s => s
  | Crash s => s
  end.

Definition M (A : Type) : Type := state -> outcome A.

Definition ret {A : Type} (a : A) : M A := fun s => Done a s.

Definition bind {A B : Type} (c : M A) (k : A -> M B) : M B :=
  fun s => match c s with
           | Done a s' => k a s'
           | Crash s' => Crash s'
           end.

Definition crash {A : Type} : M A := fun s => Crash s.

(** A look at the state. *)
Definition read {A : Type} (f : state -> A) : M A := fun s => Done (f s) s.

(** A read of the document that asserts: the run ends when it fails. *)
Definition checked {A : Type} (o : option A) : M A :=
  match o with
  | Some a => ret a
  | None => crash
  end.

#[global] Instance M_ret : MRet M := @ret.
#[global] Instance M_bind : MBind M := fun A B k c => bind c k.

(** ** std::regex, as far as [replacePlaceholders] needs it *)

Module Regex.

(** The patterns modelled: sequences of characters that stand for
    themselves, escaped punctuation, and the wildcard. *)
Inductive atom :=
| Lit (c : ascii)
| AnyChar.

(** The characters with a meaning of their own in an ECMAScript pattern;
    the NUL character is kept apart from the ordinary ones as well. *)
Definition special_chars : string := "^$\.*+?()[]{}|".

Definition special (c : ascii) : bool :=
  occurs c special_chars || ascii_eqb c Ascii.zero.

(** [std::regex pattern(p)].  [None]: the pattern uses more of the
    pattern language than is modelled here, or is no pattern at all
    (the constructor throws [std::regex_error]). *)
Fixpoint compile (p : string) : option (list atom) :=
  match p with
  | EmptyString => Some []
  | String c rest =>
      if ascii_eqb c backslash then
        match rest with
        | String d rest' =>
            if occurs d special_chars then cons (Lit d) <$> compile rest' else None
        | EmptyString => None
        end
      else if ascii_eqb c "."%char then cons AnyChar <$> compile rest
      else if special c then None
      else cons (Lit c) <$> compile rest
  end.

Definition line_terminator (c : ascii) : bool :=
  ascii_eqb c (Ascii.ascii_of_nat 10) || ascii_eqb c (Ascii.ascii_of_nat 13).

Definition atom_matches (a : atom) (c : ascii) : bool :=
  match a with
  | Lit d => ascii_eqb c d
  | AnyChar => negb (line_terminator c)
  end.

(** Does the pattern match at the start of [s]?  The text matched and
    what follows it. *)
Fixpoint match_here (re : list atom) (s : string) : option (string * string) :=
  match re with
  | [] => Some (EmptyString, s)
  | a :: re' =>
      match s with
      | EmptyString => None
      | String c s' =>
          if atom_matches a c
          then (fun mr => (String c (fst mr), snd mr)) <$> match_here re' s'
          else None
      end
  end.

Definition is_digit (c : ascii) : bool :=
  (48 <=? Ascii.nat_of_ascii c)%nat && (Ascii.nat_of_ascii c <=? 57)%nat.

(** [match_results::format] with the ECMAScript rules, for a pattern
    without groups: "$$" is a dollar sign, "$&" the match, "$`" the text
    before it (since the previous match) and "$'" the text after it; a
    dollar sign before anything else stands for itself.  [None]: a
    dollar sign before a digit, which standard libraries read differently. *)
Fixpoint format (fmt : string) (pre m suf : string) : option string :=
  match fmt with
  | EmptyString => Some EmptyString
  | String c rest =>
      if ascii_eqb c dollar then
        match rest with
        | EmptyString => Some (String dollar EmptyString)
        | String d rest' =>
            if ascii_eqb d dollar then String dollar <$> format rest' pre m suf
            else if ascii_eqb d "&"%char then String.append m <$> format rest' pre m suf
            else if ascii_eqb d "`"%char then String.append pre <$> format rest' pre m suf
            else if ascii_eqb d "'"%char then String.append suf <$> format rest' pre m suf
            else if is_digit d then None
            else String dollar <$> format rest pre m suf
        end
      else String c <$> format rest pre m suf
  end.

(** [std::regex_replace(s, re, fmt)] for a pattern that matches no empty
    text: the matches are found from left to right, none overlapping the
    one before; the text between them is copied.  [gap] is the text
    since the previous match, [skip] the number of characters of the
    current match still to pass over. *)
Fixpoint replace_from (re : list atom) (fmt : string) (gap : string) (skip : nat)
    (s : string) : option string :=
  match s with
  | EmptyString => Some EmptyString
  | String c s' =>
      match skip with
      | S k => replace_from re fmt EmptyString k s'
      | O =>
          match match_here re s with
          | Some (m, suf) =>
              out ← format fmt gap m suf;
              String.append out <$> replace_from re fmt EmptyString (String.length m - 1) s'
          | None => String c <$> replace_from re fmt (gap +:+ String c EmptyString) 0 s'
          end
      end
  end.

Definition regex_replace (s : string) (re : list atom) (fmt : string) : option string :=
  match re with
  | [] => None
  | _ => replace_from re fmt EmptyString 0 s
  end.

(** The pattern of a text whose characters stand for themselves. *)
Fixpoint lits (t : string) : list atom :=
  match t with
  | EmptyString => []
  | String c rest => Lit c :: lits rest
  end.

(** A text none of whose characters has a meaning in a pattern. *)
Fixpoint plain (t : string) : bool :=
  match t with
  | EmptyString => true
  | String c rest => negb (special c) && plain rest
  end.

End Regex.

(** [v[n1][n2]...]: a chain of member reads. *)
Fixpoint at_path (names : list string) (v : json) : option json :=
  match names with
  | [] => Some v
  | name :: rest => member name v ≫= at_path rest
  end.

(** [v[n1][n2]....GetString()]. *)
Definition string_at (names : list string) (v : json) : option string :=
  at_path names v ≫= GetString.

(** The fields of a library read by the library pass and the classpath loop. *)
Definition artifactPath (lib : json) : option string :=
  string_at ["downloads"; "artifact"; "path"] lib.

Definition artifactUrl (lib : json) : option string :=
  string_at ["downloads"; "artifact"; "url"] lib.

(** [v[name]] read as an array. *)
Definition array_at (name : string) (v : json) : option (list json) :=
  member name v ≫= GetArray.

(** [v[name]] read as an object. *)
Definition object_at (name : string) (v : json) : option (list (string * json)) :=
  member name v ≫= GetObject.

(** ** The functions of main.cpp *)

Definition dquote : string := String (Ascii.ascii_of_nat 34) EmptyString.

Fixpoint backslashesToForwardslashes (input : string) : string :=
  match input with
  | EmptyString => EmptyString
  | String ch rest =>
      if ascii_eqb ch backslash
      then String slash (backslashesToForwardslashes rest)
      else String ch (backslashesToForwardslashes rest)
  end.

(** The branch that would double a colon is commented out in the source:
    every character is appended as it is. *)
Fixpoint escapeColon (input : string) : string :=
  match input with
  | EmptyString => EmptyString
  | String ch rest => String ch (escapeColon rest)
  end.

(** The pattern is the placeholder between an escaped "${" and an escaped
    "}"; the placeholder itself goes into the pattern as it is. *)
Definition replacePlaceholders (input placeholder replacement : string) : option string :=
  pattern ← Regex.compile ("\$\{" +:+ placeholder +:+ "\}");
  Regex.regex_replace input pattern replacement.

(** The classpath loop of [main] over the full paths of the libraries. *)
Definition appendEntry (plat : platform) (present : string -> bool)
    (classPath fullPath : string) : string :=
  if present fullPath
  then (classPath +:+ escapeColon (backslashesToForwardslashes fullPath))
         +:+ classPathSeparator plat
  else classPath.

Definition classPathOf (plat : platform) (present : string -> bool)
    (fullPaths : list string) (jar : string) : string :=
  fold_left (appendEntry plat present) fullPaths EmptyString
    +:+ escapeColon (backslashesToForwardslashes jar).

Section Launcher.

(** The build ([_WIN32] or not) and the world around the program. *)
Variable plat : platform.
(** [curl_easy_perform]: the body answered for a URL, "" when it fails. *)
Variable net : string -> string.
(** [Document::Parse] and the [Writer]; a text that is no JSON parses to
    the null document. *)
Variable parse : string -> json.
Variable serialize : json -> string.
(** [std::getenv("HOME")] and the result of [GetProgramDirectory()]. *)
Variable HOME : option string.
Variable programDirectory : string.
(** The version requested ([main] fixes it, see [main] below). *)
Variable version : string.

Definition exists_ (path : string) (s : state) : bool :=
  bool_decide (is_Some (stat plat (files s) path)).

Definition DirectoryExists (directoryPath : string) (s : state) : bool :=
  match stat plat (files s) directoryPath with
  | Some Dir => true
  | _ => false
  end.

Definition CreateDirectoryIfNotExists (directoryPath : string) : M unit :=
  fun s =>
    if DirectoryExists directoryPath s then Done tt s
    else if String.eqb directoryPath "" then Crash s
    else match create_directories (components plat directoryPath) (files s) with
         | Some f => Done tt (set_files f s)
         | None => Crash s
         end.

Definition FileExists (filePath : string) (s : state) : bool :=
  match stat plat (files s) filePath with
  | Some (File _) => true
  | _ => false
  end.

(** Open [path] for writing and put [content] there; nothing happens
    when the file cannot be opened. *)
Definition write_file (content path : string) : M unit :=
  fun s =>
    match open_for_writing plat (files s) path with
    | Some p => Done tt (set_files (<[p := File content]> (files s)) s)
    | None => Done tt s
    end.

Definition CreateFileIfNotExists (filePath : string) : M unit :=
  fun s =>
    if FileExists filePath s then Done tt s
    else write_file "" filePath s.

Definition curlGet (curlurl : string) : M string :=
  fun s => Done (net curlurl) {| files := files s; fetched := fetched s ++ [curlurl] |}.

Definition saveJsonToFile (savedJson : json) (jsonSavePath : string) : M unit :=
  CreateFileIfNotExists jsonSavePath;;
  write_file (serialize savedJson) jsonSavePath.

Definition saveStringToFile (savedString stringSavePath : string) : M unit :=
  write_file savedString stringSavePath.

Definition readFileContents (filePath : string) : M string :=
  fun s =>
    match stat plat (files s) filePath with
    | Some (File content) => Done content s
    | _ => Done "" s
    end.

(** *** Lines 46-53: the manifest *)

Definition manifestUrl : string :=
  "https://launchermeta.mojang.com/mc/game/version_manifest.json".

(** With an empty answer the branch holds a comment only
    ("read from manifest_cache.json"): the document stays null. *)
Definition fetchManifest : M json :=
  documentString ← curlGet manifestUrl;
  if String.eqb documentString ""
  then mret JNull
  else
    let document := parse documentString in
    saveJsonToFile document (programDirectory +:+ "/manifest_cache.json");;
    mret document.

(** *** Lines 95-102: the descriptor of the version *)

Definition versionDir : string := (programDirectory +:+ "/versions/") +:+ version.

(** [versionJson] starts as the null document and is parsed from the
    answer for the first entry whose id is the version. *)
Fixpoint findVersionFrom (entries : list json) : M json :=
  match entries with
  | [] => mret JNull
  | entry :: rest =>
      id ← checked (string_at ["id"] entry);
      if String.eqb id version
      then
        url ← checked (string_at ["url"] entry);
        body ← curlGet url;
        mret (parse body)
      else findVersionFrom rest
  end.

Definition findVersion (document : json) : M json :=
  entries ← checked (array_at "versions" document);
  findVersionFrom entries.

(** *** Lines 116-144: the library pass *)

Definition libBase : string := versionDir +:+ "/libraries/".

(** Lines 131-136. *)
Definition allowed (lib : json) : option bool :=
  hasRules ← HasMember "rules" lib;
  if negb hasRules then Some true
  else
    rules ← member "rules" lib;
    rule ← element 0 rules;
    name ← string_at ["os"; "name"] rule;
    Some (String.eqb name (os plat)).

Definition libraryStep (lib : json) : M unit :=
  path ← checked (artifactPath lib);
  let libName := libBase +:+ path in
  let libPath := parent_path plat libName in
  libUrl ← checked (artifactUrl lib);
  present ← read (FileExists libName);
  if negb (String.eqb libName (libBase +:+ "/null")) && negb present
  then
    ok ← checked (allowed lib);
    if ok : bool
    then
      CreateDirectoryIfNotExists libPath;;
      CreateFileIfNotExists libName;;
      body ← curlGet libUrl;
      saveStringToFile body libName
    else mret tt
  else mret tt.

Fixpoint libraryPassFrom (libs : list json) : M unit :=
  match libs with
  | [] => mret tt
  | lib :: rest => libraryStep lib;; libraryPassFrom rest
  end.

Definition libraryPass (versionJson : json) : M unit :=
  libs ← checked (array_at "libraries" versionJson);
  libraryPassFrom libs.

(** *** Lines 145-160: the asset pass *)

Definition resourcesUrl : string := "https://resources.download.minecraft.net/".

Definition objFolder (objHash : string) : string :=
  ((programDirectory +:+ "/assets/objects/") +:+ substr objHash 0 2) +:+ "/".

Definition objFile (objHash : string) : string := objFolder objHash +:+ objHash.

Definition assetStep (obj : json) : M unit :=
  objHash ← checked (string_at ["hash"] obj);
  let id := substr objHash 0 2 in
  CreateDirectoryIfNotExists (objFolder objHash);;
  CreateFileIfNotExists (objFile objHash);;
  body ← curlGet (((resourcesUrl +:+ id) +:+ "/") +:+ objHash);
  saveStringToFile body (objFile objHash).

Fixpoint assetPassFrom (objects : list (string * json)) : M unit :=
  match objects with
  | [] => mret tt
  | (_, obj) :: rest => assetStep obj;; assetPassFrom rest
  end.

Definition assetPass (assetJson : json) : M unit :=
  present ← read (DirectoryExists (programDirectory +:+ "/assets"));
  if negb present
  then
    CreateDirectoryIfNotExists (programDirectory +:+ "/assets");;
    objects ← checked (object_at "objects" assetJson);
    assetPassFrom objects
  else mret tt.

(** The two passes together. *)
Definition acquire (versionJson assetJson : json) : M unit :=
  libraryPass versionJson;;
  assetPass assetJson.

(** *** Lines 90-160: the branch taken without the marker file *)

Definition markerFile : string := ((versionDir +:+ "/") +:+ version) +:+ ".config".
Definition versionJsonFile : string := ((versionDir +:+ "/") +:+ version) +:+ ".json".
Definition versionJar : string := ((versionDir +:+ "/") +:+ version) +:+ ".jar".

(** Lines 91-113: the descriptor, the asset index, the logging
    configuration and the jar of the version. *)
Definition prepareVersion (document : json) : M (json * json) :=
  CreateFileIfNotExists markerFile;;
  versionJson ← findVersion document;
  assetUrl ← checked (string_at ["assetIndex"; "url"] versionJson);
  assetBody ← curlGet assetUrl;
  let assetJson := parse assetBody in
  assetsId ← checked (string_at ["assets"] versionJson);
  saveJsonToFile assetJson (((programDirectory +:+ "/assets/indexes/") +:+ assetsId) +:+ ".json");;
  saveJsonToFile versionJson versionJsonFile;;
  loggingId ← checked (string_at ["logging"; "client"; "file"; "id"] versionJson);
  let tempPath := ((versionDir +:+ "/") +:+ "logging-") +:+ loggingId in
  CreateFileIfNotExists tempPath;;
  loggingUrl ← checked (string_at ["logging"; "client"; "file"; "url"] versionJson);
  loggingBody ← curlGet loggingUrl;
  saveStringToFile loggingBody tempPath;;
  clientUrl ← checked (string_at ["downloads"; "client"; "url"] versionJson);
  clientBody ← curlGet clientUrl;
  saveStringToFile clientBody versionJar;;
  mret (versionJson, assetJson).

Definition downloadVersion (document : json) : M json :=
  documents ← prepareVersion document;
  acquire (fst documents) (snd documents);;
  mret (fst documents).

(** Lines 85-161. *)
Definition loadVersion (document : json) : M json :=
  cached ← read (FileExists markerFile);
  if cached : bool
  then text ← readFileContents versionJsonFile; mret (parse text)
  else downloadVersion document.

(** *** Lines 163-179: the classpath *)

Definition libraryFullPath (lib : json) : option string :=
  path ← artifactPath lib;
  let artifactPath := "libraries/" +:+ path in
  Some ((versionDir +:+ "/") +:+ artifactPath).

Definition buildClassPath (versionJson : json) : M string :=
  libraries ← checked (array_at "libraries" versionJson);
  fullPaths ← checked (mapM libraryFullPath libraries);
  classPath ← read (fun s => classPathOf plat (fun p => exists_ p s) fullPaths versionJar);
  mret (((" -cp " +:+ dquote) +:+ classPath) +:+ (dquote +:+ " ")).

(** *** Lines 62-65 and 81-83: the directories of the program *)

Definition setup : M unit :=
  CreateDirectoryIfNotExists (programDirectory +:+ "/profiles");;
  CreateDirectoryIfNotExists (programDirectory +:+ "/assets/indexes");;
  CreateDirectoryIfNotExists (programDirectory +:+ "/assets/objects");;
  CreateDirectoryIfNotExists (programDirectory +:+ "/versions");;
  CreateDirectoryIfNotExists versionDir;;
  CreateDirectoryIfNotExists (versionDir +:+ "/libraries");;
  CreateDirectoryIfNotExists ((programDirectory +:+ "/profiles/") +:+ version).

(** *** [main], up to the classpath clause.  [None]: [return -1]. *)
Definition launcher : M (option string) :=
  document ← fetchManifest;
  (if String.eqb (os plat) "linux"
   then home ← checked HOME; CreateFileIfNotExists (home +:+ "/.config/alsoft.conf")
   else mret tt);;
  _ ← checked (string_at ["latest"; "release"] document);
  if negb (String.eqb programDirectory "")
  then
    setup;;
    versionJson ← loadVersion document;
    classPath ← buildClassPath versionJson;
    mret (Some classPath)
  else mret None.

End Launcher.

(** [main] asks for no version: the line reading it is commented out and
    the version is "1.19.4". *)
Definition main (plat : platform) (net : string -> string) (parse : string -> json)
    (serialize : json -> string) (HOME : option string) (programDirectory : string)
  : M (option string) :=
  launcher plat net parse serialize HOME programDirectory "1.19.4".

(** ** The rest of main.cpp *)

(** *** Lines 324-346: [GetProgramDirectory], the branch for linux *)

(** [strrchr(path, '/')] and the cut there: the text before the last
    slash; [None] without a slash. *)
Fixpoint before_last_slash (path : string) : option string :=
  match path with
  | EmptyString => None
  | String c rest =>
      match before_last_slash rest with
      | Some dir => Some (String c dir)
      | None => if ascii_eqb c slash then Some EmptyString else None
      end
  end.

(** [exe] is what /proc/self/exe links to ([None]: [readlink] fails);
    [readlink] fills at most [PATH_MAX] bytes of the buffer of that size.
    The result [None] is the write of the closing NUL past the buffer,
    when the link fills it. *)
Definition GetProgramDirectory (PATH_MAX : nat) (exe : option string) : option string :=
  match exe with
  | None => Some EmptyString
  | Some target =>
      let count := Nat.min (String.length target) PATH_MAX in
      if Nat.eqb count PATH_MAX then None
      else match before_last_slash target with
           | Some dir => Some dir
           | None => Some EmptyString
           end
  end.

(** *** Lines 181-193: the template of the game arguments *)

(** The loop over [arguments.game]: an entry that is an object is passed
    over, any other entry is read as a string. *)
Fixpoint appendGameArguments (entries : list json) (gameArgs : string) : option string :=
  match entries with
  | [] => Some gameArgs
  | entry :: rest =>
      if negb (IsObject entry)
      then text ← GetString entry; appendGameArguments rest (gameArgs +:+ (text +:+ " "))
      else appendGameArguments rest gameArgs
  end.

(** [None]: an assertion of the document fails. *)
Definition gameArgsTemplate (versionJson : json) : option string :=
  let gameArgs := " " in
  hasLegacy ← HasMember "minecraftArguments" versionJson;
  legacy ← (if hasLegacy : bool
            then IsString <$> member "minecraftArguments" versionJson
            else Some false);
  if legacy : bool
  then string_at ["minecraftArguments"] versionJson
  else
    hasArguments ← HasMember "arguments" versionJson;
    if hasArguments : bool
    then
      arguments ← member "arguments" versionJson;
      hasGame ← HasMember "game" arguments;
      if hasGame : bool
      then
        game ← member "game" arguments;
        if IsArray game
        then entries ← GetArray game; appendGameArguments entries gameArgs
        else Some gameArgs
      else Some gameArgs
    else Some gameArgs.

(** *** Lines 194-204: the placeholders of the game arguments *)

(** The eleven substitutions, in the order of the source.  [None]: the
    descriptor has no [assetIndex.id], or a substitution is outside what
    [replacePlaceholders] models. *)
Definition expandGameArgs (programDirectory version username : string)
    (versionJson : json) (gameArgs : string) : option string :=
  gameArgs ← replacePlaceholders gameArgs "auth_player_name" username;
  gameArgs ← replacePlaceholders gameArgs "version_name" version;
  gameArgs ← replacePlaceholders gameArgs "game_directory"
               (((dquote +:+ backslashesToForwardslashes programDirectory) +:+ "/profiles/")
                  +:+ version +:+ dquote);
  gameArgs ← replacePlaceholders gameArgs "assets_root"
               ((dquote +:+ backslashesToForwardslashes programDirectory) +:+ "/assets/" +:+ dquote);
  gameArgs ← replacePlaceholders gameArgs "auth_xuid" "0";
  gameArgs ← replacePlaceholders gameArgs "auth_uuid" "0";
  gameArgs ← replacePlaceholders gameArgs "auth_access_token" "0";
  gameArgs ← replacePlaceholders gameArgs "clientid" "0";
  gameArgs ← replacePlaceholders gameArgs "user_type" "legacy";
  gameArgs ← replacePlaceholders gameArgs "version_type" "release";
  assetsIndexName ← string_at ["assetIndex"; "id"] versionJson;
  replacePlaceholders gameArgs "assets_index_name" assetsIndexName.

(** *** Lines 220-229: the options of the virtual machine *)

(** [None]: the descriptor has no [logging.client.argument] or no
    [logging.client.file.id], or the substitution is outside what
    [replacePlaceholders] models. *)
Definition cmdOpts (programDirectory version : string) (versionJson : json)
  : option string :=
  argument ← string_at ["logging"; "client"; "argument"] versionJson;
  loggingId ← string_at ["logging"; "client"; "file"; "id"] versionJson;
  logging ← replacePlaceholders argument "path"
              ((((((dquote +:+ programDirectory) +:+ "/versions/") +:+ version)
                   +:+ "/logging-") +:+ loggingId) +:+ dquote);
  Some ((((((" -Xss1M -Djava.library.path=" +:+ version) +:+ "-natives")
             +:+ " -Dminecraft.launcher.brand=minecraft-launcher")
            +:+ " -Dminecraft.launcher.version=2.1.1349 ")
           +:+ logging)
          +:+ " -Xmx2G -XX:+UnlockExperimentalVMOptions -XX:+UseG1GC -XX:G1NewSizePercent=20 -XX:G1ReservePercent=20 -XX:MaxGCPauseMillis=50 -XX:G1HeapRegionSize=32M").

(** * The vocabulary of the properties *)

(** The substitution as the specification words it: every occurrence of
    the token, from left to right, gives way to the value ([skip] counts
    the characters of the occurrence still to pass over). *)
Fixpoint replace_all_from (token value : string) (skip : nat) (s : string) : string :=
  match s with
  | EmptyString => EmptyString
  | String c s' =>
      match skip with
      | S k => replace_all_from token value k s'
      | O =>
          if String.prefix token s
          then value +:+ replace_all_from token value (String.length token - 1) s'
          else String c (replace_all_from token value 0 s')
      end
  end.

Definition substitute_spec (template key value : string) : string :=
  replace_all_from ("${" +:+ key +:+ "}") value 0 template.

(** The entry of a full path in the classpath. *)
Definition entryOf (plat : platform) (fullPath : string) : string :=
  backslashesToForwardslashes fullPath +:+ classPathSeparator plat.

(** On a disk in good shape whatever lies above an entry is a directory. *)
Definition well_formed (f : gmap (list string) node) : Prop :=
  forall p q n, f !! (p ++ q) = Some n -> p <> [] -> q <> [] -> f !! p = Some Dir.

(** The same, as a test on the entries of the disk. *)
Definition well_formed_entry (f : gmap (list string) node) (p : list string) : bool :=
  forallb (fun k => match take k p with
                    | [] => true
                    | q => match f !! q with Some Dir => true | _ => false end
                    end)
          (seq 0 (length p)).

Definition well_formedb (f : gmap (list string) node) : bool :=
  forallb (fun e => well_formed_entry f (fst e)) (map_to_list f).

(** Nothing is left to do for a library: it is the "/null" artifact, or
    its file is on disk, or its first rule names another platform. *)
Definition settled (plat : platform) (programDirectory version : string)
    (lib : json) (s : state) : Prop :=
  exists path url,
    artifactPath lib = Some path /\ artifactUrl lib = Some url
    /\ (libBase programDirectory version +:+ path = libBase programDirectory version +:+ "/null"
        \/ FileExists plat (libBase programDirectory version +:+ path) s = true
        \/ allowed plat lib = Some false).

(** The tree is fully populated for a descriptor and an asset index: the
    disk is in good shape, every library is settled and the file of every
    asset object is on disk. *)
Definition populated (plat : platform) (programDirectory version : string)
    (versionJson assetJson : json) (s : state) : Prop :=
  well_formed (files s)
  /\ (forall libs lib,
         array_at "libraries" versionJson = Some libs -> In lib libs ->
         settled plat programDirectory version lib s)
  /\ (forall objects name obj,
         object_at "objects" assetJson = Some objects ->
         In (name, obj) objects ->
         exists objHash, string_at ["hash"] obj = Some objHash
                         /\ FileExists plat (objFile programDirectory objHash) s = true).

(** A file name of one component: [dir +:+ "/" +:+ name] lies in [dir]. *)
Definition file_name (plat : platform) (name : string) : Prop :=
  components plat name = [name] /\ ends_with_sep plat name = false.

(** An operation keeps the directories that are there when it starts. *)
Definition keeps_directories {A : Type} (c : M A) : Prop :=
  forall s p, files s !! p = Some Dir -> files (final (c s)) !! p = Some Dir.

(** ** Paths that a real disk takes as the model does *)

(** The disk of the model has no limits on names, "." and ".." are names
    like any other, and a directory reads as the empty text.  On linux
    [stat] fails with ENAMETOOLONG for a name of more than [name_max]
    bytes and for a path text of [path_max] bytes or more (then
    [std::filesystem::exists] throws), [create_directories] of the GNU
    library gives up beyond [depth_max] missing names, a text ends at its
    first NUL, "." and ".." are resolved, and the first read of a
    directory throws.  The properties that depend on one of these say
    so. *)
Definition name_max : nat := 255.
Definition path_max : nat := 4096.
Definition depth_max : nat := 1000.
Definition nul : ascii := Ascii.zero.

Definition plain_name (name : string) : bool :=
  negb (String.eqb name ".") && negb (String.eqb name "..").

(** No component of the path is "." or "..". *)
Definition plain_names (plat : platform) (path : string) : bool :=
  forallb plain_name (components plat path).

(** A path on which the file system of linux answers as the model does. *)
Definition ordinary (path : string) : bool :=
  negb (occurs nul path)
  && Nat.ltb (String.length path) path_max
  && Nat.leb (length (components Linux path)) depth_max
  && forallb (fun name => Nat.leb (String.length name) name_max) (components Linux path)
  && plain_names Linux path.

(** [s] without its first [n] characters. *)
Fixpoint drop_chars (n : nat) (s : string) : string :=
  match n, s with
  | S k, String _ rest => drop_chars k rest
  | _, _ => s
  end.

(** Two entries of the same kind: two files, or two directories. *)
Definition same_kind (n n' : node) : Prop :=
  match n, n' with
  | File _, File _ => True
  | Dir, Dir => True
  | _, _ => False
  end.

(** An operation removes no entry and leaves every entry its kind. *)
Definition keeps_entries {A : Type} (c : M A) : Prop :=
  forall s p n, files s !! p = Some n ->
                exists n', files (final (c s)) !! p = Some n' /\ same_kind n n'.

(** An operation leaves a disk in good shape in good shape. *)
Definition keeps_shape {A : Type} (c : M A) : Prop :=
  forall s, well_formed (files s) -> well_formed (files (final (c s))).

(** An operation leaves the content of every file as it is. *)
Definition keeps_files {A : Type} (c : M A) : Prop :=
  forall s p content, files s !! p = Some (File content) ->
                      files (final (c s)) !! p = Some (File content).

(** An operation removes nothing and keeps the disk in good shape. *)
Definition tidy {A : Type} (c : M A) : Prop := keeps_entries c /\ keeps_shape c.

(** A template in pieces: texts, and placeholders by their keys. *)
Inductive segment :=
| Text (t : string)
| Hole (key : string).

Definition render_segment (seg : segment) : string :=
  match seg with
  | Text t => t
  | Hole key => "${" +:+ key +:+ "}"
  end.

Definition render (segs : list segment) : string :=
  concat_all (map render_segment segs).

(** The pieces after the placeholder [key] has been given [value]. *)
Definition fill (key value : string) (seg : segment) : segment :=
  match seg with
  | Text t => Text t
  | Hole k => if String.eqb k key then Text value else Hole k
  end.

(** The texts hold no dollar sign and the keys are plain. *)
Definition segment_ok (seg : segment) : Prop :=
  match seg with
  | Text t => occurs dollar t = false
  | Hole key => Regex.plain key = true
  end.

(** The URL from which the object with a hash is requested. *)
Definition objectUrl (objHash : string) : string :=
  ((resourcesUrl +:+ substr objHash 0 2) +:+ "/") +:+ objHash.

(** The hashes of the objects of an asset index, in the order of the
    document. *)
Definition objectHashes (objects : list (string * json)) : option (list string) :=
  mapM (fun member => string_at ["hash"] (snd member)) objects.

(** The value that lines 194-204 give to a key; [None] for every other
    key. *)
Definition gameValue (programDirectory version username assetsIndexName : string)
    (key : string) : option string :=
  if String.eqb key "auth_player_name" then Some username
  else if String.eqb key "version_name" then Some version
  else if String.eqb key "game_directory"
       then Some (((dquote +:+ backslashesToForwardslashes programDirectory) +:+ "/profiles/")
                    +:+ version +:+ dquote)
  else if String.eqb key "assets_root"
       then Some ((dquote +:+ backslashesToForwardslashes programDirectory)
                    +:+ "/assets/" +:+ dquote)
  else if String.eqb key "auth_xuid" then Some "0"
  else if String.eqb key "auth_uuid" then Some "0"
  else if String.eqb key "auth_access_token" then Some "0"
  else if String.eqb key "clientid" then Some "0"
  else if String.eqb key "user_type" then Some "legacy"
  else if String.eqb key "version_type" then Some "release"
  else if String.eqb key "assets_index_name" then Some assetsIndexName
  else None.

(** A piece of a template with its placeholder filled, if it is one of
    the eleven. *)
Definition fillGame (programDirectory version username assetsIndexName : string)
    (seg : segment) : segment :=
  match seg with
  | Text t => Text t
  | Hole key =>
      match gameValue programDirectory version username assetsIndexName key with
      | Some value => Text value
      | None => Hole key
      end
  end.

(** The texts of the entries of [arguments.game] that are no objects. *)
Definition argumentTexts (entries : list json) : list string :=
  omap (fun entry => if IsObject entry then None else GetString entry) entries.

(** * Examples of documents, networks and disks *)

(** Libraries with and without rules. *)
Module AllowedExamples.
Definition artifact (path : string) : string * json :=
  ("downloads", JObject [("artifact", JObject [("path", JString path);
                                                 ("url", JString "https://libraries/" )])]).
Definition ruleFor (name : string) : string * json :=
  ("rules", JArray [JObject [("action", JString "allow"); ("os", JObject [("name", JString name)])]]).
Definition unconditional : json := JObject [artifact "a.jar"].
Definition forLinux : json := JObject [artifact "b-natives-linux.jar"; ruleFor "linux"].
Definition forOsx : json := JObject [artifact "c-natives-macos.jar"; ruleFor "osx"].
End AllowedExamples.

(** One object of an asset index. *)
Module AssetExample.
Definition object : json := JObject [("hash", JString "abcdef123"); ("size", JNumber 412)].
Definition url : string := "https://resources.download.minecraft.net/ab/abcdef123".
(** The program lives in /opt/ql; the directory of the objects is there. *)
Definition disk : state :=
  {| files := list_to_map [(["opt"], Dir); (["opt"; "ql"], Dir); (["opt"; "ql"; "assets"], Dir);
                           (["opt"; "ql"; "assets"; "objects"], Dir)];
     fetched := [] |}.
End AssetExample.

(** The manifest lists "1.19.4"; its descriptor has one library without
    rules and an asset index with one object; the program lives in
    /opt/ql and nothing has been downloaded yet. *)
Module Scenario.

Definition manifest : json :=
  JObject [("latest", JObject [("release", JString "1.20.1")]);
           ("versions",
            JArray [JObject [("id", JString "1.20.1"); ("url", JString "https://meta/1.20.1.json")];
                    JObject [("id", JString "1.19.4"); ("url", JString "https://meta/1.19.4.json")]])].

Definition library : json :=
  JObject [("downloads",
            JObject [("artifact", JObject [("path", JString "com/example/lib.jar");
                                           ("url", JString "https://libs/com/example/lib.jar")])]);
           ("name", JString "com.example:lib:1.0")].

Definition descriptor : json :=
  JObject [("assetIndex", JObject [("id", JString "3"); ("url", JString "https://meta/assets/3.json")]);
           ("assets", JString "3");
           ("downloads", JObject [("client", JObject [("url", JString "https://meta/client.jar")])]);
           ("libraries", JArray [library]);
           ("logging",
            JObject [("client",
                      JObject [("argument", JString "-Dlog4j.configurationFile=${path}");
                               ("file", JObject [("id", JString "client-1.12.xml");
                                                 ("url", JString "https://meta/log4j.xml")])])]);
           ("mainClass", JString "net.minecraft.client.main.Main")].

Definition assetIndex : json :=
  JObject [("objects",
            JObject [("icons/icon.png", JObject [("hash", JString "aa11bb22"); ("size", JNumber 10)])])].

Definition assetUrl : string := "https://resources.download.minecraft.net/aa/aa11bb22".

Definition net (url : string) : string :=
  if String.eqb url manifestUrl then "MANIFEST"
  else if String.eqb url "https://meta/1.19.4.json" then "DESCRIPTOR"
  else if String.eqb url "https://meta/assets/3.json" then "ASSETINDEX"
  else if String.eqb url "https://libs/com/example/lib.jar" then "LIBRARY"
  else if String.eqb url "https://meta/log4j.xml" then "LOGGING"
  else if String.eqb url "https://meta/client.jar" then "CLIENT"
  else if String.eqb url assetUrl then "ASSET"
  else "".

(** The three documents stand for their own texts. *)
Definition parse (text : string) : json :=
  if String.eqb text "MANIFEST" then manifest
  else if String.eqb text "DESCRIPTOR" then descriptor
  else if String.eqb text "ASSETINDEX" then assetIndex
  else JNull.

Definition serialize (v : json) : string :=
  match v with
  | JObject (("latest", _) :: _) => "MANIFEST"
  | JObject (("assetIndex", _) :: _) => "DESCRIPTOR"
  | JObject (("objects", _) :: _) => "ASSETINDEX"
  | _ => "null"
  end.

Definition home : option string := Some "/home/player".

Definition fresh : state :=
  {| files := list_to_map [(["opt"], Dir); (["opt"; "ql"], Dir); (["home"], Dir);
                           (["home"; "player"], Dir); (["home"; "player"; ".config"], Dir)];
     fetched := [] |}.

Definition run (s : state) : outcome (option string) :=
  main Linux net parse serialize home "/opt/ql" s.

(** The disk after the first run, and the same with the asset object
    put there by hand. *)
Definition installed : state := mkState (files (final (run fresh))) [].

Definition complete : state :=
  set_files (<[["opt"; "ql"; "assets"; "objects"; "aa"; "aa11bb22"] := File "ASSET"]>
               (<[["opt"; "ql"; "assets"; "objects"; "aa"] := Dir]> (files installed)))
            installed.

End Scenario.

(** The manifest of the day lists 1.20.1 and 1.20 only. *)
Module Unlisted.

Definition manifest : json :=
  JObject [("latest", JObject [("release", JString "1.20.1")]);
           ("versions",
            JArray [JObject [("id", JString "1.20.1"); ("url", JString "https://meta/1.20.1.json")];
                    JObject [("id", JString "1.20"); ("url", JString "https://meta/1.20.json")]])].

Definition net (url : string) : string :=
  if String.eqb url manifestUrl then "MANIFEST" else "".

Definition parse (text : string) : json :=
  if String.eqb text "MANIFEST" then manifest else JNull.

Definition run (s : state) : outcome (option string) :=
  main Linux net parse Scenario.serialize Scenario.home "/opt/ql" s.

End Unlisted.

(** No network, and the manifest of an earlier run in the cache file. *)
Module Offline.

Definition net (url : string) : string := "".

Definition disk : state :=
  {| files := <[["opt"; "ql"; "manifest_cache.json"] := File "MANIFEST"]> (files Scenario.fresh);
     fetched := [] |}.

Definition run (s : state) : outcome (option string) :=
  main Linux net Scenario.parse Scenario.serialize Scenario.home "/opt/ql" s.

End Offline.

(** A descriptor whose library has the path "null". *)
Module NullArtifact.

Definition library : json :=
  JObject [("downloads",
            JObject [("artifact", JObject [("path", JString "null");
                                           ("url", JString "https://libs/null")])]);
           ("name", JString "com.example:nothing:1.0")].

(** The same library with a first rule that names no platform. *)
Definition ruled : json :=
  JObject [("downloads",
            JObject [("artifact", JObject [("path", JString "null");
                                           ("url", JString "https://libs/null")])]);
           ("rules", JArray [JObject [("action", JString "allow")]])].

Definition net (url : string) : string :=
  if String.eqb url "https://libs/null" then "NOTHING" else "".

(** The directories of the version are there, as [main] makes them. *)
Definition disk : state :=
  {| files := list_to_map [(["opt"], Dir); (["opt"; "ql"], Dir); (["opt"; "ql"; "versions"], Dir);
                           (["opt"; "ql"; "versions"; "1.19.4"], Dir);
                           (["opt"; "ql"; "versions"; "1.19.4"; "libraries"], Dir)];
     fetched := [] |}.

End NullArtifact.

(** An asset index that lists one hash under two names, and the disk of
    the first installation. *)
Module Duplicates.

Definition assetIndex : json :=
  JObject [("objects",
            JObject [("minecraft/sounds/a.ogg", JObject [("hash", JString "aa11bb22")]);
                     ("minecraft/sounds/b.ogg", JObject [("hash", JString "aa11bb22")])])].

End Duplicates.

(** Game arguments as new and as old descriptors have them. *)
Module Arguments.

Definition structured : json :=
  JObject [("arguments",
            JObject [("game",
                      JArray [JString "--username"; JString "${auth_player_name}";
                              JObject [("rules", JArray []); ("value", JString "--demo")];
                              JString "--version"; JString "${version_name}"])]);
           ("assetIndex", JObject [("id", JString "3")])].

Definition legacy : json :=
  JObject [("minecraftArguments", JString "--username ${auth_player_name} --gameDir ${game_directory}");
           ("assetIndex", JObject [("id", JString "legacy")])].

(** "--username ${auth_player_name} --width ${resolution_width}" in pieces. *)
Definition template : list segment :=
  [Text "--username "; Hole "auth_player_name"; Text " --width "; Hole "resolution_width"].

End Arguments.

(** A library as the descriptors have them for every platform but one:
    the first rule allows and names no platform. *)
Module EverywhereButOsx.

Definition library : json :=
  JObject [("downloads",
            JObject [("artifact",
                      JObject [("path", JString "org/lwjgl/lwjgl.jar");
                               ("url", JString "https://libs/org/lwjgl/lwjgl.jar")])]);
           ("rules",
            JArray [JObject [("action", JString "allow")];
                    JObject [("action", JString "disallow");
                             ("os", JObject [("name", JString "osx")])]])].

End EverywhereButOsx.

(** A disk on which a directory lies at the path of the library of
    [Scenario.descriptor]. *)
Module DirectoryArtifact.

Definition disk : state :=
  {| files := list_to_map
                [(["opt"], Dir); (["opt"; "ql"], Dir); (["opt"; "ql"; "versions"], Dir);
                 (["opt"; "ql"; "versions"; "1.19.4"], Dir);
                 (["opt"; "ql"; "versions"; "1.19.4"; "libraries"], Dir);
                 (["opt"; "ql"; "versions"; "1.19.4"; "libraries"; "com"], Dir);
                 (["opt"; "ql"; "versions"; "1.19.4"; "libraries"; "com"; "example"], Dir);
                 (["opt"; "ql"; "versions"; "1.19.4"; "libraries"; "com"; "example"; "lib.jar"],
                  Dir)];
     fetched := [] |}.

End DirectoryArtifact.

(** The disk after the directories are made and the files of the version
    are stored, before the library pass. *)
Module BeforeLibraries.

Definition disk : state :=
  final (prepareVersion Linux Scenario.net Scenario.parse Scenario.serialize
           "/opt/ql" "1.19.4" Scenario.manifest
           (final (setup Linux "/opt/ql" "1.19.4" Scenario.fresh))).

End BeforeLibraries.

(** * Properties *)

Example parent_path_ex :
  parent_path Linux "/opt/ql/a/b.jar" = "/opt/ql/a"
  /\ parent_path Linux "/opt/ql/a/" = "/opt/ql/a"
  /\ parent_path Linux "/b.jar" = "/"
  /\ parent_path Linux "b.jar" = ""
  /\ parent_path Linux "a//b" = "a"
  /\ parent_path Windows "C:\ql\a/b.jar" = "C:\ql\a".
Proof. vm_compute. auto 10. Qed.

Example components_ex :
  components Linux "/opt/ql/versions//1.19.4/libraries/" = ["opt"; "ql"; "versions"; "1.19.4"; "libraries"]
  /\ components Windows "C:\ql/versions" = ["C:"; "ql"; "versions"].
Proof. vm_compute. auto. Qed.

Example create_directories_ex :
  (create_directories ["opt"; "ql"; "assets"; "indexes"] ∅) ≫= (fun f => f !! ["opt"; "ql"; "assets"]) = Some Dir.
Proof. vm_compute. reflexivity. Qed.

(** ** Texts *)

Lemma append_cons (c : ascii) (s t : string) : String c s +:+ t = String c (s +:+ t).
Proof. reflexivity. Qed.

Lemma append_nil_l (s : string) : "" +:+ s = s.
Proof. reflexivity. Qed.

Lemma append_nil_r (s : string) : s +:+ "" = s.
Proof. induction s as [|c s IH]; [reflexivity|]. rewrite append_cons. by f_equal. Qed.

Lemma append_assoc (s t u : string) : (s +:+ t) +:+ u = s +:+ (t +:+ u).
Proof.
  induction s as [|c s IH]; [reflexivity|].
  rewrite !append_cons. by f_equal.
Qed.

Lemma ascii_eqb_eq (a b : ascii) : ascii_eqb a b = true <-> a = b.
Proof. apply Ascii.eqb_eq. Qed.

Lemma ascii_eqb_refl (a : ascii) : ascii_eqb a a = true.
Proof. apply Ascii.eqb_refl. Qed.

Lemma escapeColon_unchanged (input : string) : escapeColon input = input.
Proof. induction input as [|ch rest IH]; simpl; [reflexivity|]. by rewrite IH. Qed.

Lemma backslashesToForwardslashes_unchanged (input : string) :
  occurs backslash input = false -> backslashesToForwardslashes input = input.
Proof.
  induction input as [|ch rest IH]; cbn [occurs backslashesToForwardslashes]; [reflexivity|].
  intros H. apply orb_false_iff in H as [Hch Hrest].
  unfold ascii_eqb in *. rewrite Ascii.eqb_sym in Hch. rewrite Hch.
  by rewrite IH.
Qed.

Lemma occurs_app (c : ascii) (s t : string) :
  occurs c (s +:+ t) = occurs c s || occurs c t.
Proof.
  induction s as [|d s IH]; [reflexivity|].
  rewrite append_cons. cbn [occurs]. by rewrite IH, orb_assoc.
Qed.

Lemma backslashesToForwardslashes_clean (input : string) :
  occurs backslash (backslashesToForwardslashes input) = false.
Proof.
  induction input as [|c rest IH]; [reflexivity|].
  cbn [backslashesToForwardslashes].
  destruct (ascii_eqb c backslash) eqn:Hc; cbn [occurs]; rewrite IH.
  - reflexivity.
  - unfold ascii_eqb in *. rewrite Ascii.eqb_sym, Hc. reflexivity.
Qed.

(** ** The classpath *)

Lemma classPath_loop (plat : platform) (present : string -> bool)
    (fullPaths : list string) (acc : string) :
  fold_left (appendEntry plat present) fullPaths acc
  = acc +:+ concat_all (map (entryOf plat) (List.filter present fullPaths)).
Proof.
  revert acc. induction fullPaths as [|p rest IH]; intros acc; simpl.
  - by rewrite append_nil_r.
  - rewrite IH. unfold appendEntry. destruct (present p); simpl; [|reflexivity].
    rewrite escapeColon_unchanged. unfold entryOf. by rewrite !append_assoc.
Qed.


Lemma backslashesToForwardslashes_get (input : string) (n : nat) :
  String.get n (backslashesToForwardslashes input)
  = (fun ch => if ascii_eqb ch backslash then slash else ch) <$> String.get n input.
Proof.
  revert n. induction input as [|ch rest IH]; intros n; [reflexivity|].
  cbn [backslashesToForwardslashes].
  destruct n as [|n].
  - destruct (ascii_eqb ch backslash) eqn:E; cbn; by rewrite E.
  - destruct (ascii_eqb ch backslash); cbn [String.get]; apply IH.
Qed.

Lemma classPathSeparator_clean (plat : platform) :
  occurs backslash (classPathSeparator plat) = false.
Proof. by destruct plat. Qed.

Lemma exists_kinds (plat : platform) (path : string) (s : state) :
  exists_ plat path s = FileExists plat path s || DirectoryExists plat path s.
Proof.
  unfold exists_, FileExists, DirectoryExists.
  by destruct (stat plat (files s) path) as [[content|]|].
Qed.

(** C5, amended.  The classpath is the entries of the
    libraries whose path [std::filesystem::exists] finds on disk (a regular
    file or a directory), in the order of the descriptor, each one its
    full path with the backslashes turned into slashes and the separator of
    the platform after it (";" on windows, ":" otherwise), and then the
    jar of the version with no separator after it.  Turning the
    backslashes into slashes changes these characters and no other, so no
    backslash is left in the classpath.  With the full paths "A.jar" and
    "B.jar" on disk and the jar "V.jar" this is "A.jar:B.jar:V.jar" off
    windows.  [buildClassPath] reads the paths from the descriptor, tests
    them on the disk of the current state and wraps the result in the -cp
    clause. *)
Theorem classpath_of_libraries_on_disk :
  (forall plat present fullPaths jar,
      classPathOf plat present fullPaths jar
      = concat_all (map (fun p => backslashesToForwardslashes p +:+ classPathSeparator plat)
                        (List.filter present fullPaths))
        +:+ backslashesToForwardslashes jar)
  /\ classPathSeparator Windows = ";" /\ classPathSeparator Linux = ":"
  /\ classPathOf Linux (fun _ => true) ["A.jar"; "B.jar"] "V.jar" = "A.jar:B.jar:V.jar"
  /\ classPathOf Linux (fun p => String.eqb p "B.jar") ["A.jar"; "B.jar"] "V.jar" = "B.jar:V.jar"
  /\ (forall plat programDirectory version versionJson s,
        buildClassPath plat programDirectory version versionJson s
        = match array_at "libraries" versionJson
                  ≫= mapM (libraryFullPath programDirectory version) with
          | Some fullPaths =>
              Done (" -cp " +:+ dquote
                      +:+ classPathOf plat (fun p => exists_ plat p s) fullPaths
                            (versionJar programDirectory version)
                      +:+ dquote +:+ " ") s
          | None => Crash s
          end)
  /\ (forall path n,
        String.get n (backslashesToForwardslashes path)
        = (fun ch => if ascii_eqb ch backslash then slash else ch) <$> String.get n path)
  /\ (forall plat present fullPaths jar,
        occurs backslash (classPathOf plat present fullPaths jar) = false)
  /\ classPathOf Windows (fun _ => true) ["C:\ql\libraries\a.jar"; "C:\ql/libraries/b.jar"]
       "C:\ql\v.jar"
     = "C:/ql/libraries/a.jar;C:/ql/libraries/b.jar;C:/ql/v.jar"
  /\ (forall plat path s,
        exists_ plat path s = FileExists plat path s || DirectoryExists plat path s).
Proof.
  assert (forall plat present fullPaths jar,
             classPathOf plat present fullPaths jar
             = concat_all (map (fun p => backslashesToForwardslashes p
                                         +:+ classPathSeparator plat)
                               (List.filter present fullPaths))
               +:+ backslashesToForwardslashes jar) as Hshape.
  { intros plat present fullPaths jar. unfold classPathOf.
    by rewrite classPath_loop, append_nil_l, escapeColon_unchanged. }
  split; [exact Hshape|].
  split; [reflexivity|split; [reflexivity|split; [reflexivity|split; [reflexivity|]]]].
  split; [|split; [exact backslashesToForwardslashes_get|split; [|split; [reflexivity|]]]].
  - intros plat programDirectory version versionJson s.
    unfold buildClassPath, mbind, M_bind, bind, checked, read, mret, M_ret, ret, crash.
    destruct (array_at "libraries" versionJson) as [libs|]; simpl; [|reflexivity].
    destruct (mapM _ libs) as [fullPaths|]; simpl; [|reflexivity].
    by rewrite !append_assoc.
  - intros plat present fullPaths jar. rewrite Hshape, occurs_app.
    rewrite backslashesToForwardslashes_clean, orb_false_r.
    induction (List.filter present fullPaths) as [|p l IH]; [reflexivity|].
    cbn [map concat_all foldr]. rewrite !occurs_app.
    rewrite backslashesToForwardslashes_clean, classPathSeparator_clean. exact IH.
  - exact exists_kinds.
Qed.

(** C5 fails as it is written where the path of a library is a
    directory: no artifact file is there ([FileExists], the test of the
    library pass, finds none), and yet the path stands in the classpath;
    the classpath over the libraries whose file exists would be the jar
    of the version alone. *)
Lemma classpath_holds_a_directory :
  FileExists Linux "/opt/ql/versions/1.19.4/libraries/com/example/lib.jar"
    DirectoryArtifact.disk = false
  /\ buildClassPath Linux "/opt/ql" "1.19.4" Scenario.descriptor DirectoryArtifact.disk
     = Done (((" -cp " +:+ dquote)
                +:+ "/opt/ql/versions/1.19.4/libraries/com/example/lib.jar:/opt/ql/versions/1.19.4/1.19.4.jar")
               +:+ (dquote +:+ " "))
         DirectoryArtifact.disk
  /\ classPathOf Linux (fun p => FileExists Linux p DirectoryArtifact.disk)
       ["/opt/ql/versions/1.19.4/libraries/com/example/lib.jar"]
       "/opt/ql/versions/1.19.4/1.19.4.jar"
     = "/opt/ql/versions/1.19.4/1.19.4.jar"
  /\ classPathOf Linux (fun p => exists_ Linux p DirectoryArtifact.disk)
       ["/opt/ql/versions/1.19.4/libraries/com/example/lib.jar"]
       "/opt/ql/versions/1.19.4/1.19.4.jar"
     <> classPathOf Linux (fun p => FileExists Linux p DirectoryArtifact.disk)
          ["/opt/ql/versions/1.19.4/libraries/com/example/lib.jar"]
          "/opt/ql/versions/1.19.4/1.19.4.jar".
Proof.
  split; [vm_compute; reflexivity|].
  split; [vm_compute; reflexivity|].
  split; [vm_compute; reflexivity|].
  vm_compute. discriminate.
Qed.



(** ** One library of the library pass *)

Ltac unfold_run :=
  unfold mbind, M_bind, bind, checked, read, mret, M_ret, ret, crash in *.

Section LibraryStep.

Variable plat : platform.
Variable net : string -> string.
Variable programDirectory version : string.

Local Abbreviation libraryStep := (libraryStep plat net programDirectory version).
Local Abbreviation libBase := (libBase programDirectory version).

Lemma write_file_fetched (content path : string) (s : state) :
  exists s', write_file plat content path s = Done tt s' /\ fetched s' = fetched s.
Proof.
  unfold write_file. destruct (open_for_writing _ _ _); eauto.
Qed.

Lemma CreateFileIfNotExists_fetched (path : string) (s : state) :
  exists s', CreateFileIfNotExists plat path s = Done tt s' /\ fetched s' = fetched s.
Proof.
  unfold CreateFileIfNotExists. destruct (FileExists _ _ _); eauto using write_file_fetched.
Qed.

Lemma CreateDirectoryIfNotExists_fetched (path : string) (s : state) :
  fetched (final (CreateDirectoryIfNotExists plat path s)) = fetched s.
Proof.
  unfold CreateDirectoryIfNotExists.
  destruct (DirectoryExists _ _ _); [reflexivity|].
  destruct (String.eqb _ _); [reflexivity|].
  destruct (create_directories _ _); reflexivity.
Qed.

(** A library that is passed over: nothing is read from the network
    and nothing changes on disk. *)
Lemma libraryStep_skipped (lib : json) (path url : string) (s : state) :
  artifactPath lib = Some path ->
  artifactUrl lib = Some url ->
  libBase +:+ path = libBase +:+ "/null" \/ FileExists plat (libBase +:+ path) s = true ->
  libraryStep lib s = Done tt s.
Proof.
  intros Hpath Hurl Hskip. unfold libraryStep. unfold_run.
  rewrite Hpath, Hurl. simpl.
  destruct Hskip as [-> | ->].
  - by rewrite String.eqb_refl.
  - by rewrite andb_false_r.
Qed.

Lemma libraryStep_not_allowed (lib : json) (s : state) :
  allowed plat lib = Some false ->
  final (libraryStep lib s) = s.
Proof.
  intros Hno. unfold libraryStep. unfold_run.
  destruct (artifactPath lib); simpl; [|reflexivity].
  destruct (artifactUrl lib); simpl; [|reflexivity].
  destruct (_ && _); [|reflexivity].
  by rewrite Hno.
Qed.

(** A library that is neither passed over nor turned down is fetched
    once, from its URL, after its directory is there. *)
Lemma libraryStep_fetches (lib : json) (path url : string) (s s1 : state) :
  artifactPath lib = Some path ->
  artifactUrl lib = Some url ->
  libBase +:+ path <> libBase +:+ "/null" ->
  FileExists plat (libBase +:+ path) s = false ->
  allowed plat lib = Some true ->
  CreateDirectoryIfNotExists plat (parent_path plat (libBase +:+ path)) s = Done tt s1 ->
  exists s', libraryStep lib s = Done tt s' /\ fetched s' = fetched s ++ [url].
Proof.
  intros Hpath Hurl Hne Hmissing Hok Hdir. unfold libraryStep. unfold_run.
  rewrite Hpath, Hurl. simpl.
  apply String.eqb_neq in Hne. rewrite Hne, Hmissing, Hok. simpl. rewrite Hdir.
  pose proof (CreateDirectoryIfNotExists_fetched
                (parent_path plat (libBase +:+ path)) s) as Hf.
  rewrite Hdir in Hf. simpl in Hf.
  destruct (CreateFileIfNotExists_fetched (libBase +:+ path) s1) as (s2 & -> & Hf2).
  unfold curlGet, saveStringToFile.
  match goal with
  | |- context [write_file plat ?c ?p ?st] =>
      destruct (write_file_fetched c p st) as (s3 & -> & Hf3)
  end.
  exists s3. split; [reflexivity|]. rewrite Hf3. simpl. by rewrite Hf2, Hf.
Qed.

End LibraryStep.

Lemma allowed_without_platform (plat : platform) (lib rules : json) :
  member "rules" lib = Some rules ->
  (element 0 rules = None
   \/ exists rule, element 0 rules = Some rule /\ string_at ["os"; "name"] rule = None) ->
  allowed plat lib = None.
Proof.
  intros Hrules Hfirst.
  assert (HasMember "rules" lib = Some true) as Hhas.
  { destruct lib; simpl in *; try discriminate. by rewrite Hrules. }
  unfold allowed. rewrite Hhas. simpl. rewrite Hrules. simpl.
  destruct Hfirst as [->|(rule & -> & Hname)]; [reflexivity|].
  simpl. by rewrite Hname.
Qed.

Lemma libraryStep_without_answer (plat : platform) (net : string -> string)
    (programDirectory version : string) (lib : json) (path url : string) (s : state) :
  allowed plat lib = None ->
  artifactPath lib = Some path ->
  artifactUrl lib = Some url ->
  libBase programDirectory version +:+ path <> libBase programDirectory version +:+ "/null" ->
  FileExists plat (libBase programDirectory version +:+ path) s = false ->
  libraryStep plat net programDirectory version lib s = Crash s.
Proof.
  intros Hallowed Hpath Hurl Hne Hmissing. unfold libraryStep. unfold_run.
  rewrite Hpath, Hurl. simpl.
  apply String.eqb_neq in Hne. by rewrite Hne, Hmissing, Hallowed.
Qed.

(** C1, as the code has it.  For a library of the library pass,
    [allowed] is true when the library has no "rules" member; when it has
    one and the first rule records the name of a platform
    (rules[0].os.name), [allowed] is true exactly when that name is the
    platform identifier of the build, and false otherwise.  A library that
    is not allowed leaves the disk and the network alone; one that is
    allowed (and neither the "/null" artifact nor on disk already) is
    fetched from its URL once its directory is there.  But the name is
    read without a test that it is there: when the rules are empty or the
    first rule records no platform, as in the rules "allow; disallow on
    osx" of [EverywhereButOsx.library], [allowed] is neither true nor
    false: the read fails its assertion and the run ends with the library
    pass unfinished. *)
Theorem allowed_by_first_rule (plat : platform) (lib : json) :
  (HasMember "rules" lib = Some false -> allowed plat lib = Some true)
  /\ (forall rules rule name,
         member "rules" lib = Some rules ->
         element 0 rules = Some rule ->
         string_at ["os"; "name"] rule = Some name ->
         HasMember "rules" lib = Some true
         /\ allowed plat lib = Some (bool_decide (name = os plat)))
  /\ (forall net programDirectory version s,
         allowed plat lib = Some false ->
         final (libraryStep plat net programDirectory version lib s) = s)
  /\ (forall net programDirectory version path url s s1,
         artifactPath lib = Some path ->
         artifactUrl lib = Some url ->
         libBase programDirectory version +:+ path
         <> libBase programDirectory version +:+ "/null" ->
         FileExists plat (libBase programDirectory version +:+ path) s = false ->
         allowed plat lib = Some true ->
         CreateDirectoryIfNotExists plat
           (parent_path plat (libBase programDirectory version +:+ path)) s = Done tt s1 ->
         exists s', libraryStep plat net programDirectory version lib s = Done tt s'
                    /\ fetched s' = fetched s ++ [url])
  /\ (forall rules,
         member "rules" lib = Some rules ->
         (element 0 rules = None
          \/ exists rule,
               element 0 rules = Some rule /\ string_at ["os"; "name"] rule = None) ->
         allowed plat lib = None
         /\ forall net programDirectory version path url s,
              artifactPath lib = Some path ->
              artifactUrl lib = Some url ->
              libBase programDirectory version +:+ path
              <> libBase programDirectory version +:+ "/null" ->
              FileExists plat (libBase programDirectory version +:+ path) s = false ->
              libraryStep plat net programDirectory version lib s = Crash s)
  /\ (allowed plat EverywhereButOsx.library = None
      /\ libraryStep plat (fun _ => "") "/opt/ql" "1.19.4" EverywhereButOsx.library
           NullArtifact.disk
         = Crash NullArtifact.disk
      /\ libraryPass plat (fun _ => "") "/opt/ql" "1.19.4"
           (JObject [("libraries", JArray [EverywhereButOsx.library; Scenario.library])])
           NullArtifact.disk
         = Crash NullArtifact.disk).
Proof.
  split; [|split; [|split; [|split; [|split]]]].
  - intros Hno. unfold allowed. by rewrite Hno.
  - intros rules rule name Hrules Hrule Hname.
    assert (HasMember "rules" lib = Some true) as Hhas.
    { destruct lib; simpl in *; try discriminate. by rewrite Hrules. }
    split; [exact Hhas|].
    unfold allowed. rewrite Hhas. simpl. rewrite Hrules. simpl. rewrite Hrule. simpl.
    rewrite Hname. simpl. f_equal.
    destruct (String.eqb_spec name (os plat)) as [->|Hne].
    + by rewrite bool_decide_eq_true_2.
    + by rewrite bool_decide_eq_false_2.
  - intros net programDirectory version s. apply libraryStep_not_allowed.
  - intros net programDirectory version path url s s1. apply libraryStep_fetches.
  - intros rules Hrules Hfirst.
    pose proof (allowed_without_platform plat lib rules Hrules Hfirst) as Hallowed.
    split; [exact Hallowed|].
    intros net programDirectory version path url s. by apply libraryStep_without_answer.
  - destruct plat; vm_compute; auto.
Qed.

Lemma allowed_by_first_rule_witness :
  allowed Linux AllowedExamples.unconditional = Some true
  /\ (HasMember "rules" AllowedExamples.forLinux = Some true
      /\ allowed Linux AllowedExamples.forLinux = Some (bool_decide ("linux" = os Linux)))
  /\ (HasMember "rules" AllowedExamples.forOsx = Some true
      /\ allowed Linux AllowedExamples.forOsx = Some (bool_decide ("osx" = os Linux)))
  /\ final (libraryStep Linux (fun _ => "") "/opt/ql" "1.19.4" AllowedExamples.forOsx
              (mkState ∅ [])) = mkState ∅ []
  /\ (exists s', libraryStep Linux (fun _ => "") "/opt/ql" "1.19.4" AllowedExamples.forLinux
                    NullArtifact.disk = Done tt s'
                  /\ fetched s' = fetched NullArtifact.disk ++ ["https://libraries/"])
  /\ (allowed Linux EverywhereButOsx.library = None
      /\ forall net programDirectory version path url s,
           artifactPath EverywhereButOsx.library = Some path ->
           artifactUrl EverywhereButOsx.library = Some url ->
           libBase programDirectory version +:+ path
           <> libBase programDirectory version +:+ "/null" ->
           FileExists Linux (libBase programDirectory version +:+ path) s = false ->
           libraryStep Linux net programDirectory version EverywhereButOsx.library s
           = Crash s).
Proof.
  split; [|split; [|split; [|split; [|split]]]].
  - apply (proj1 (allowed_by_first_rule Linux AllowedExamples.unconditional)). reflexivity.
  - eapply (proj1 (proj2 (allowed_by_first_rule Linux AllowedExamples.forLinux))); reflexivity.
  - eapply (proj1 (proj2 (allowed_by_first_rule Linux AllowedExamples.forOsx))); reflexivity.
  - apply (proj1 (proj2 (proj2 (allowed_by_first_rule Linux AllowedExamples.forOsx)))).
    reflexivity.
  - apply (proj1 (proj2 (proj2 (proj2 (allowed_by_first_rule Linux AllowedExamples.forLinux))))
             (fun _ => "") "/opt/ql" "1.19.4" "b-natives-linux.jar" "https://libraries/"
             NullArtifact.disk NullArtifact.disk);
      vm_compute; (reflexivity || discriminate).
  - eapply (proj1 (proj2 (proj2 (proj2 (proj2
              (allowed_by_first_rule Linux EverywhereButOsx.library)))))).
    + reflexivity.
    + right. eexists. split; reflexivity.
Defined.

(** ** The place of an asset object *)

(** C9. The place of an asset object on disk is a function of its hash:
    the program directory, then assets/objects/, then the first two
    characters of the hash as the shard directory, then the hash itself.
    For the hash "abcdef123" the shard is "ab" and the file is
    assets/objects/ab/abcdef123; the asset step creates that directory,
    fetches the object and stores it in that file. *)
Theorem asset_path_from_hash :
  (forall programDirectory objHash,
      objFolder programDirectory objHash
      = programDirectory +:+ "/assets/objects/" +:+ substr objHash 0 2 +:+ "/"
      /\ objFile programDirectory objHash
         = programDirectory +:+ "/assets/objects/" +:+ substr objHash 0 2 +:+ "/" +:+ objHash)
  /\ (forall a b rest, substr (String a (String b rest)) 0 2 = String a (String b ""))
  /\ substr "abcdef123" 0 2 = "ab"
  /\ objFile "" "abcdef123" = "/assets/objects/ab/abcdef123"
  /\ (forall net,
        let s' := final (assetStep Linux net "/opt/ql" AssetExample.object AssetExample.disk) in
        files s' !! ["opt"; "ql"; "assets"; "objects"; "ab"] = Some Dir
        /\ files s' !! ["opt"; "ql"; "assets"; "objects"; "ab"; "abcdef123"]
           = Some (File (net AssetExample.url))
        /\ fetched s' = [AssetExample.url]).
Proof.
  split; [|split; [|split; [reflexivity|split; [reflexivity|]]]].
  - intros programDirectory objHash. unfold objFile, objFolder.
    by rewrite !append_assoc.
  - intros a b rest. unfold substr. by destruct rest.
  - intros net. vm_compute. auto.
Qed.

(** ** Paths and the shape of the disk *)

Lemma components_from_app_sep (plat : platform) (c : ascii) (a b cur : string) :
  is_sep plat c = true ->
  components_from plat cur (a +:+ String c b)
  = components_from plat cur a ++ components plat b.
Proof.
  intros Hc. revert cur. induction a as [|d a IH]; intros cur.
  - rewrite append_nil_l. cbn [components_from]. rewrite Hc.
    unfold components. by destruct (String.eqb cur "").
  - rewrite append_cons. cbn [components_from].
    destruct (is_sep plat d).
    + rewrite IH. by destruct (String.eqb cur "").
    + apply IH.
Qed.

Lemma is_sep_slash (plat : platform) : is_sep plat slash = true.
Proof. by destruct plat. Qed.

(** [dir +:+ "/" +:+ rest] names what [rest] names inside [dir]. *)
Lemma components_app_slash (plat : platform) (dir rest : string) :
  components plat (dir +:+ String slash rest) = components plat dir ++ components plat rest.
Proof. apply components_from_app_sep, is_sep_slash. Qed.

Lemma lookup_path_nonempty (f : gmap (list string) node) (p : list string) :
  p <> [] -> lookup_path f p = f !! p.
Proof. by destruct p. Qed.

Lemma append_not_empty (s : string) (c : ascii) (t : string) : s +:+ String c t <> "".
Proof. by destruct s. Qed.

Lemma well_formedb_sound (f : gmap (list string) node) :
  well_formedb f = true -> well_formed f.
Proof.
  unfold well_formedb, well_formed. intros Hall p q n Hlook Hp Hq.
  rewrite forallb_forall in Hall.
  assert (In (p ++ q, n) (map_to_list f)) as Hin.
  { apply list_elem_of_In, elem_of_map_to_list, Hlook. }
  specialize (Hall _ Hin). simpl in Hall.
  unfold well_formed_entry in Hall. rewrite forallb_forall in Hall.
  specialize (Hall (length p)).
  rewrite take_app_length in Hall.
  destruct p as [|x p]; [done|].
  destruct (f !! (x :: p)) as [[c|]|]; [|done|].
  - exfalso. assert (false = true) as Habs; [|done].
    apply Hall, in_seq. rewrite length_app. destruct q; [done|]. simpl. lia.
  - exfalso. assert (false = true) as Habs; [|done].
    apply Hall, in_seq. rewrite length_app. destruct q; [done|]. simpl. lia.
Qed.

Section Disk.

Variable plat : platform.

Lemma stat_file_lookup (f : gmap (list string) node) (path content : string) :
  stat plat f path = Some (File content) ->
  f !! components plat path = Some (File content).
Proof.
  unfold stat. destruct (String.eqb path ""); [done|].
  destruct (components plat path) as [|x p]; simpl; [done|].
  destruct (f !! (x :: p)) as [[c|]|]; [|done..].
  by destruct (ends_with_sep plat path).
Qed.

Lemma stat_dir (f : gmap (list string) node) (path : string) :
  path <> "" -> components plat path <> [] ->
  f !! components plat path = Some Dir ->
  stat plat f path = Some Dir.
Proof.
  intros Hne Hcomp Hdir. unfold stat.
  apply String.eqb_neq in Hne. rewrite Hne.
  rewrite lookup_path_nonempty by done. by rewrite Hdir.
Qed.

(** A file somewhere inside [dir] on a disk in good shape: [dir] is a
    directory. *)
Lemma directory_above_file (s : state) (dir rest : string) :
  well_formed (files s) ->
  components plat dir <> [] ->
  components plat rest <> [] ->
  FileExists plat (dir +:+ String slash rest) s = true ->
  DirectoryExists plat dir s = true.
Proof.
  intros Hwf Hdir Hrest Hfile. unfold FileExists in Hfile. unfold DirectoryExists.
  destruct (stat plat (files s) (dir +:+ String slash rest)) as [[content|]|] eqn:Hstat; try done.
  apply stat_file_lookup in Hstat. rewrite components_app_slash in Hstat.
  pose proof (Hwf _ _ _ Hstat Hdir Hrest) as Habove.
  assert (dir <> "") as Hne by (intros ->; by apply Hdir).
  by rewrite (stat_dir (files s) dir Hne Hdir Habove).
Qed.

End Disk.

(** ** Running the acquisition again *)

Section Acquisition.

Variable plat : platform.
Variable net : string -> string.
Variable programDirectory version : string.

Local Abbreviation libBase := (libBase programDirectory version).
Local Abbreviation settled := (settled plat programDirectory version).
Local Abbreviation populated := (populated plat programDirectory version).

Lemma libraryStep_file_on_disk (lib : json) (path : string) (s : state) :
  artifactPath lib = Some path ->
  FileExists plat (libBase +:+ path) s = true ->
  final (libraryStep plat net programDirectory version lib s) = s.
Proof.
  intros Hpath Hfile. unfold libraryStep. unfold_run. rewrite Hpath. simpl.
  destruct (artifactUrl lib); simpl; [|reflexivity].
  by rewrite Hfile, andb_false_r.
Qed.

Lemma libraryStep_settled (lib : json) (s : state) :
  settled lib s -> libraryStep plat net programDirectory version lib s = Done tt s.
Proof.
  intros (path & url & Hpath & Hurl & [Hnull | [Hfile | Hno]]).
  - eapply libraryStep_skipped; eauto.
  - eapply libraryStep_skipped; eauto.
  - unfold libraryStep. unfold_run. rewrite Hpath, Hurl. simpl.
    destruct (_ && _); [|reflexivity]. by rewrite Hno.
Qed.

Lemma libraryPassFrom_settled (libs : list json) (s : state) :
  (forall lib, In lib libs -> settled lib s) ->
  libraryPassFrom plat net programDirectory version libs s = Done tt s.
Proof.
  induction libs as [|lib libs IH]; intros Hall; [reflexivity|].
  cbn [libraryPassFrom]. unfold mbind, M_bind, bind.
  rewrite libraryStep_settled by (apply Hall; simpl; auto).
  apply IH. intros lib' Hin. apply Hall. simpl. auto.
Qed.

Lemma objFile_inside_assets (objHash : string) :
  objFile programDirectory objHash
  = (programDirectory +:+ "/assets")
      +:+ String slash ("objects" +:+ String slash (substr objHash 0 2 +:+ "/" +:+ objHash)).
Proof.
  unfold objFile, objFolder. rewrite !append_assoc. reflexivity.
Qed.

Lemma assets_components :
  components plat (programDirectory +:+ "/assets")
  = components plat programDirectory ++ ["assets"].
Proof.
  change "/assets" with (String slash "assets").
  rewrite components_app_slash. by destruct plat.
Qed.

(** The file of an asset object lies inside the assets directory. *)
Lemma assets_above_object (objHash : string) (s : state) :
  well_formed (files s) ->
  FileExists plat (objFile programDirectory objHash) s = true ->
  DirectoryExists plat (programDirectory +:+ "/assets") s = true.
Proof.
  intros Hwf Hfile. rewrite objFile_inside_assets in Hfile.
  eapply directory_above_file; [exact Hwf| | |exact Hfile].
  - rewrite assets_components. by destruct (components plat programDirectory).
  - rewrite components_app_slash. by destruct plat.
Qed.

Lemma assetPass_skipped (assetJson : json) (s : state) :
  DirectoryExists plat (programDirectory +:+ "/assets") s = true ->
  assetPass plat net programDirectory assetJson s = Done tt s.
Proof.
  intros Hdir. unfold assetPass. unfold_run. by rewrite Hdir.
Qed.

Lemma assetPass_no_objects (assetJson : json) (s : state) :
  (forall objects, object_at "objects" assetJson = Some objects -> objects = []) ->
  fetched (final (assetPass plat net programDirectory assetJson s)) = fetched s.
Proof.
  intros Hnone. unfold assetPass. unfold_run.
  destruct (DirectoryExists _ _ s); simpl; [reflexivity|].
  pose proof (CreateDirectoryIfNotExists_fetched plat (programDirectory +:+ "/assets") s) as Hf.
  destruct (CreateDirectoryIfNotExists _ _ s) as [[] s1|s1]; simpl in *; [|exact Hf].
  destruct (object_at "objects" assetJson) as [objects|] eqn:Hobj; simpl; [|exact Hf].
  by rewrite (Hnone objects eq_refl).
Qed.

Lemma acquire_populated (versionJson assetJson : json) (s : state) :
  populated versionJson assetJson s ->
  fetched (final (acquire plat net programDirectory version versionJson assetJson s))
  = fetched s.
Proof.
  intros (Hwf & Hlibs & Hobjs). unfold acquire, libraryPass. unfold_run.
  destruct (array_at "libraries" versionJson) as [libs|] eqn:Harr; simpl; [|reflexivity].
  rewrite libraryPassFrom_settled by (intros lib Hin; eapply Hlibs; eauto).
  destruct (object_at "objects" assetJson) as [[|[name obj] objects]|] eqn:Hobj.
  - apply assetPass_no_objects. rewrite Hobj. congruence.
  - destruct (Hobjs _ name obj eq_refl) as (objHash & _ & Hfile); [simpl; auto|].
    by rewrite assetPass_skipped by (eapply assets_above_object; eauto).
  - apply assetPass_no_objects. rewrite Hobj. congruence.
Qed.

End Acquisition.

(** C4. Acquisition does not fetch what is on disk.  A library whose
    target is a regular file is passed over: the step leaves disk and
    network as they are.  When the file of an asset object of the index is
    on disk (a disk in good shape), the asset pass does nothing.  On a
    fully populated tree the two passes together request nothing from the
    network.  And with the marker file of the version on disk the
    descriptor is read from its cache: the whole download branch is left
    out and nothing is requested. *)
Theorem acquisition_idempotent
    (plat : platform) (net : string -> string) (parse : string -> json)
    (serialize : json -> string) (programDirectory version : string) :
  (forall lib path s,
      artifactPath lib = Some path ->
      FileExists plat (libBase programDirectory version +:+ path) s = true ->
      final (libraryStep plat net programDirectory version lib s) = s)
  /\ (forall assetJson objects name obj objHash s,
         well_formed (files s) ->
         object_at "objects" assetJson = Some objects ->
         In (name, obj) objects ->
         string_at ["hash"] obj = Some objHash ->
         FileExists plat (objFile programDirectory objHash) s = true ->
         assetPass plat net programDirectory assetJson s = Done tt s)
  /\ (forall versionJson assetJson s,
         populated plat programDirectory version versionJson assetJson s ->
         fetched (final (acquire plat net programDirectory version versionJson assetJson s))
         = fetched s)
  /\ (forall document s,
         FileExists plat (markerFile programDirectory version) s = true ->
         exists versionJson,
           loadVersion plat net parse serialize programDirectory version document s
           = Done versionJson s).
Proof.
  split; [|split; [|split]].
  - intros lib path s. apply libraryStep_file_on_disk.
  - intros assetJson objects name obj objHash s Hwf _ _ _ Hfile.
    apply assetPass_skipped. eapply assets_above_object; eauto.
  - intros versionJson assetJson s. apply acquire_populated.
  - intros document s Hmarker. unfold loadVersion, readFileContents. unfold_run.
    rewrite Hmarker. destruct (stat _ _ _) as [[content|]|]; eauto.
Qed.

Lemma acquisition_idempotent_witness :
  final (libraryStep Linux Scenario.net "/opt/ql" "1.19.4" Scenario.library Scenario.complete)
  = Scenario.complete
  /\ assetPass Linux Scenario.net "/opt/ql" Scenario.assetIndex Scenario.complete
     = Done tt Scenario.complete
  /\ fetched (final (acquire Linux Scenario.net "/opt/ql" "1.19.4"
                       Scenario.descriptor Scenario.assetIndex Scenario.complete))
     = fetched Scenario.complete
  /\ exists versionJson,
       loadVersion Linux Scenario.net Scenario.parse Scenario.serialize "/opt/ql" "1.19.4"
         Scenario.manifest Scenario.complete
       = Done versionJson Scenario.complete.
Proof.
  pose proof (acquisition_idempotent Linux Scenario.net Scenario.parse Scenario.serialize
                "/opt/ql" "1.19.4") as (Hlib & Hasset & Hall & Hmarker).
  assert (well_formed (files Scenario.complete)) as Hwf
    by (apply well_formedb_sound; vm_compute; reflexivity).
  split; [|split; [|split]].
  - apply (Hlib _ "com/example/lib.jar"); vm_compute; reflexivity.
  - apply (Hasset _ [("icons/icon.png", JObject [("hash", JString "aa11bb22"); ("size", JNumber 10)])]
             "icons/icon.png" (JObject [("hash", JString "aa11bb22"); ("size", JNumber 10)])
             "aa11bb22");
      [exact Hwf|reflexivity|simpl; auto|reflexivity|vm_compute; reflexivity].
  - apply Hall. split; [exact Hwf|split].
    + intros libs lib Hlibs Hin. injection Hlibs as <-.
      destruct Hin as [<-|[]].
      exists "com/example/lib.jar", "https://libs/com/example/lib.jar".
      split; [reflexivity|split; [reflexivity|]].
      right; left. vm_compute. reflexivity.
    + intros objects name obj Hobjs Hin. injection Hobjs as <-.
      destruct Hin as [Heq|[]]. injection Heq as <- <-.
      exists "aa11bb22". split; [reflexivity|]. vm_compute. reflexivity.
  - apply Hmarker. vm_compute. reflexivity.
Defined.

(** ** A version that the manifest does not list *)

Section MissingVersion.

Variable plat : platform.
Variable net : string -> string.
Variable parse : string -> json.
Variable serialize : json -> string.
Variable programDirectory version : string.

(** The loop over the entries of the manifest, when no id is the
    version: it ends the run on an entry without an id, and otherwise
    hands back the null document it started with, having fetched nothing. *)
Lemma findVersionFrom_no_match (entries : list json) (s : state) :
  (forall entry, In entry entries -> string_at ["id"] entry <> Some version) ->
  findVersionFrom net parse version entries s = Done JNull s
  \/ findVersionFrom net parse version entries s = Crash s.
Proof.
  induction entries as [|entry entries IH]; intros Hnone; [by left|].
  cbn [findVersionFrom]. unfold_run.
  destruct (string_at ["id"] entry) as [id|] eqn:Hid; simpl; [|by right].
  destruct (String.eqb_spec id version) as [->|Hne].
  - exfalso. by apply (Hnone entry); [left|].
  - apply IH. intros entry' Hin. apply Hnone. by right.
Qed.

Lemma findVersion_no_match (document : json) (s : state) :
  (forall entries entry,
      array_at "versions" document = Some entries -> In entry entries ->
      string_at ["id"] entry <> Some version) ->
  findVersion net parse version document s = Done JNull s
  \/ findVersion net parse version document s = Crash s.
Proof.
  intros Hnone. unfold findVersion. unfold_run.
  destruct (array_at "versions" document) as [entries|] eqn:Harr; simpl; [|by right].
  apply findVersionFrom_no_match. intros entry Hin. by apply (Hnone entries).
Qed.

Lemma prepareVersion_no_match (document : json) (s : state) :
  (forall entries entry,
      array_at "versions" document = Some entries -> In entry entries ->
      string_at ["id"] entry <> Some version) ->
  prepareVersion plat net parse serialize programDirectory version document s
  = Crash (final (CreateFileIfNotExists plat (markerFile programDirectory version) s)).
Proof.
  intros Hnone. unfold prepareVersion. unfold mbind at 1. unfold M_bind, bind.
  destruct (CreateFileIfNotExists_fetched plat (markerFile programDirectory version) s)
    as (s1 & -> & _). simpl.
  unfold mbind at 1. unfold M_bind, bind.
  by destruct (findVersion_no_match document s1 Hnone) as [-> | ->].
Qed.

Lemma downloadVersion_no_match (document : json) (s : state) :
  (forall entries entry,
      array_at "versions" document = Some entries -> In entry entries ->
      string_at ["id"] entry <> Some version) ->
  downloadVersion plat net parse serialize programDirectory version document s
  = Crash (final (CreateFileIfNotExists plat (markerFile programDirectory version) s)).
Proof.
  intros Hnone. unfold downloadVersion. unfold mbind at 1. unfold M_bind, bind.
  by rewrite prepareVersion_no_match.
Qed.

End MissingVersion.

(** C3, as the code has it.  When no entry of the manifest has the
    requested id, the download branch does not come back: the loop leaves
    the descriptor the null document and the next statement reads
    ["assetIndex"] from it.  The marker file of the version has been
    created by then.  [main], which asks for "1.19.4", ends this way on a
    manifest without that version, and so does the run after it, which
    finds the marker file and parses a descriptor file that is not there. *)
Theorem unlisted_version_ends_the_run
    (plat : platform) (net : string -> string) (parse : string -> json)
    (serialize : json -> string) (programDirectory version : string)
    (document : json) (s : state) :
  (forall entries entry,
      array_at "versions" document = Some entries -> In entry entries ->
      string_at ["id"] entry <> Some version) ->
  downloadVersion plat net parse serialize programDirectory version document s
  = Crash (final (CreateFileIfNotExists plat (markerFile programDirectory version) s))
  /\ (exists s1, Unlisted.run Scenario.fresh = Crash s1
                 /\ FileExists Linux "/opt/ql/versions/1.19.4/1.19.4.config" s1 = true
                 /\ exists s2, Unlisted.run s1 = Crash s2).
Proof.
  intros Hnone. split; [by apply downloadVersion_no_match|].
  eexists. split; [vm_compute; reflexivity|].
  split; [vm_compute; reflexivity|].
  eexists. vm_compute. reflexivity.
Qed.

Lemma unlisted_version_ends_the_run_witness :
  downloadVersion Linux Unlisted.net Unlisted.parse Scenario.serialize "/opt/ql" "1.19.4"
    Unlisted.manifest Scenario.fresh
  = Crash (final (CreateFileIfNotExists Linux (markerFile "/opt/ql" "1.19.4") Scenario.fresh)).
Proof.
  apply (unlisted_version_ends_the_run Linux Unlisted.net Unlisted.parse Scenario.serialize
           "/opt/ql" "1.19.4" Unlisted.manifest Scenario.fresh).
  intros entries entry Hentries Hin. injection Hentries as <-.
  destruct Hin as [<-|[<-|[]]]; discriminate.
Defined.

(** ** The "null" artifact *)

(** C7, as the code has it.  The library pass compares the name of the
    library file with [libBase +:+ "/null"], and [libBase] ends in a
    separator already: the library passed over is the one whose path is
    "/null".  A library whose path is "null" is not passed over.  Its rules
    are evaluated (a first rule without a platform ends the run there),
    and when it has none (and its file is not on disk yet) its directory
    is made and its URL is fetched; the answer is stored in
    libraries/null. *)
Theorem null_artifact_is_not_skipped
    (plat : platform) (net : string -> string) (programDirectory version : string)
    (lib : json) (url : string) (s s1 : state) :
  artifactPath lib = Some "null" ->
  artifactUrl lib = Some url ->
  HasMember "rules" lib = Some false ->
  FileExists plat (libBase programDirectory version +:+ "null") s = false ->
  CreateDirectoryIfNotExists plat
    (parent_path plat (libBase programDirectory version +:+ "null")) s = Done tt s1 ->
  (exists s', libraryStep plat net programDirectory version lib s = Done tt s'
              /\ fetched s' = fetched s ++ [url])
  /\ (let s' := final (libraryStep Linux NullArtifact.net "/opt/ql" "1.19.4"
                         NullArtifact.library NullArtifact.disk) in
      fetched s' = ["https://libs/null"]
      /\ files s' !! ["opt"; "ql"; "versions"; "1.19.4"; "libraries"; "null"]
         = Some (File "NOTHING"))
  /\ libraryStep Linux NullArtifact.net "/opt/ql" "1.19.4" NullArtifact.ruled NullArtifact.disk
     = Crash NullArtifact.disk
  /\ (forall lib' url' s0,
         artifactPath lib' = Some "/null" -> artifactUrl lib' = Some url' ->
         libraryStep plat net programDirectory version lib' s0 = Done tt s0).
Proof.
  intros Hpath Hurl Hrules Hmissing Hdir. split; [|split; [|split]].
  - eapply libraryStep_fetches; eauto.
    + intros Heq. apply (inj (String.app _)) in Heq. discriminate.
    + unfold allowed. by rewrite Hrules.
  - vm_compute. auto.
  - vm_compute. reflexivity.
  - intros lib' url' s0 Hpath' Hurl'. eapply libraryStep_skipped; eauto.
Qed.

Lemma null_artifact_is_not_skipped_witness :
  exists s', libraryStep Linux NullArtifact.net "/opt/ql" "1.19.4"
               NullArtifact.library NullArtifact.disk = Done tt s'
             /\ fetched s' = fetched NullArtifact.disk ++ ["https://libs/null"].
Proof.
  apply (null_artifact_is_not_skipped Linux NullArtifact.net "/opt/ql" "1.19.4"
           NullArtifact.library "https://libs/null" NullArtifact.disk NullArtifact.disk);
    vm_compute; reflexivity.
Defined.

(** ** Placeholders *)

Section Placeholders.

Import Regex.

Lemma compile_escaped (d : ascii) (rest : string) :
  occurs d special_chars = true ->
  compile (String backslash (String d rest)) = cons (Lit d) <$> compile rest.
Proof.
  intros Hd. cbn [compile]. rewrite ascii_eqb_refl. by rewrite Hd.
Qed.

Lemma compile_plain (t rest : string) :
  plain t = true ->
  compile (t +:+ rest) = app (lits t) <$> compile rest.
Proof.
  induction t as [|c t IH]; intros Hplain.
  - rewrite append_nil_l. by destruct (compile rest).
  - cbn [plain] in Hplain. apply andb_true_iff in Hplain as [Hc Ht].
    apply negb_true_iff in Hc.
    rewrite append_cons. cbn [compile].
    assert (ascii_eqb c backslash = false) as ->.
    { destruct (ascii_eqb c backslash) eqn:E; [|done].
      apply ascii_eqb_eq in E as ->. done. }
    assert (ascii_eqb c "."%char = false) as ->.
    { destruct (ascii_eqb c "."%char) eqn:E; [|done].
      apply ascii_eqb_eq in E as ->. done. }
    rewrite Hc, (IH Ht). by destruct (compile rest).
Qed.

(** The pattern built for a plain placeholder is the token itself. *)
Lemma compile_placeholder (placeholder : string) :
  plain placeholder = true ->
  compile ("\$\{" +:+ placeholder +:+ "\}") = Some (lits ("${" +:+ placeholder +:+ "}")).
Proof.
  intros Hplain.
  change ("\$\{" +:+ placeholder +:+ "\}")
    with (String backslash (String "$" (String backslash (String "{" (placeholder +:+ "\}"))))).
  rewrite compile_escaped by reflexivity.
  rewrite compile_escaped by reflexivity.
  rewrite (compile_plain _ _ Hplain).
  change (compile "\}") with (Some [Lit "}"%char]). simpl.
  do 3 f_equal. clear Hplain.
  induction placeholder as [|c t IH]; [reflexivity|].
  rewrite append_cons. simpl. by rewrite IH.
Qed.

Lemma match_here_lits (t s : string) :
  match_here (lits t) s
  = if String.prefix t s then Some (t, drop_chars (String.length t) s) else None.
Proof.
  revert s. induction t as [|a t IH]; intros s.
  - by destruct s.
  - destruct s as [|c s]; [reflexivity|].
    cbn [lits match_here atom_matches String.prefix String.length drop_chars].
    destruct (Ascii.ascii_dec a c) as [->|Hne].
    + rewrite ascii_eqb_refl, IH. by destruct (String.prefix t s).
    + destruct (ascii_eqb c a) eqn:E; [|reflexivity].
      apply ascii_eqb_eq in E. congruence.
Qed.

Lemma format_without_dollar (fmt pre m suf : string) :
  occurs dollar fmt = false -> format fmt pre m suf = Some fmt.
Proof.
  induction fmt as [|c fmt IH]; intros Hno; [reflexivity|].
  cbn [occurs] in Hno. apply orb_false_iff in Hno as [Hc Hrest].
  cbn [format]. unfold ascii_eqb in *. rewrite Ascii.eqb_sym in Hc. rewrite Hc.
  by rewrite (IH Hrest).
Qed.

Lemma replace_from_lits (token value : string) (s gap : string) (skip : nat) :
  occurs dollar value = false ->
  replace_from (lits token) value gap skip s = Some (replace_all_from token value skip s).
Proof.
  intros Hvalue. revert gap skip.
  induction s as [|c s IH]; intros gap skip; [reflexivity|].
  cbn [replace_from replace_all_from]. destruct skip as [|k]; [|apply IH].
  rewrite match_here_lits. destruct (String.prefix token (String c s)).
  - rewrite (format_without_dollar _ _ _ _ Hvalue). simpl. by rewrite IH.
  - by rewrite IH.
Qed.

Lemma regex_replace_lits (token value s : string) :
  token <> "" ->
  occurs dollar value = false ->
  regex_replace s (lits token) value = Some (replace_all_from token value 0 s).
Proof.
  intros Htoken Hvalue. rewrite <- (replace_from_lits token value s "" 0 Hvalue).
  by destruct token.
Qed.

End Placeholders.

(** C6, amended.  [replacePlaceholders] hands the placeholder to
    std::regex as part of a pattern and the value to [regex_replace] as a
    replacement format.  For every template, every placeholder none of
    whose characters has a meaning in a pattern (letters, digits and the
    underscore among them) and every value without a dollar sign, the
    result is the template with every occurrence of the token
    "${placeholder}" replaced by the value, with no regard to what stands
    around the token; "--username ${auth_player_name}" with
    "auth_player_name" and "alice" gives "--username alice". *)
Theorem replacePlaceholders_on_plain_text (template placeholder value : string) :
  Regex.plain placeholder = true ->
  occurs dollar value = false ->
  replacePlaceholders template placeholder value
  = Some (substitute_spec template placeholder value)
  /\ replacePlaceholders "--username ${auth_player_name}" "auth_player_name" "alice"
     = Some "--username alice"
  /\ replacePlaceholders "${version_name} is ${version_name}1 in a${version_name}"
       "version_name" "1.19.4"
     = Some "1.19.4 is 1.19.41 in a1.19.4".
Proof.
  intros Hplain Hvalue. split; [|split; reflexivity].
  unfold replacePlaceholders, substitute_spec.
  rewrite (compile_placeholder _ Hplain).
  change (Some (Regex.lits ("${" +:+ placeholder +:+ "}")) ≫= ?f)
    with (f (Regex.lits ("${" +:+ placeholder +:+ "}"))).
  by apply regex_replace_lits.
Qed.

Lemma replacePlaceholders_on_plain_text_witness :
  replacePlaceholders "--username ${auth_player_name} --uuid ${auth_uuid}"
    "auth_player_name" "humanitymanu"
  = Some (substitute_spec "--username ${auth_player_name} --uuid ${auth_uuid}"
            "auth_player_name" "humanitymanu").
Proof.
  apply (replacePlaceholders_on_plain_text
           "--username ${auth_player_name} --uuid ${auth_uuid}"
           "auth_player_name" "humanitymanu"); reflexivity.
Defined.

(** C6 fails as it is written: a value with "$$" in it comes out with one
    dollar sign, "$&" in a value brings the token back, and a dot in the
    placeholder stands for any character, so that a second token gives way
    too. *)
Lemma replacePlaceholders_is_not_textual :
  replacePlaceholders "--username ${auth_player_name}" "auth_player_name" "a$$b"
  = Some "--username a$b"
  /\ substitute_spec "--username ${auth_player_name}" "auth_player_name" "a$$b"
     = "--username a$$b"
  /\ replacePlaceholders "--username ${auth_player_name}" "auth_player_name" "<$&>"
     = Some "--username <${auth_player_name}>"
  /\ replacePlaceholders "${a.b} ${axb}" "a.b" "V" = Some "V V"
  /\ substitute_spec "${a.b} ${axb}" "a.b" "V" = "V ${axb}"
  /\ ~ (forall template key value,
          replacePlaceholders template key value = Some (substitute_spec template key value)).
Proof.
  repeat (split; [reflexivity|]).
  intros Hall.
  specialize (Hall "--username ${auth_player_name}" "auth_player_name" "a$$b").
  discriminate Hall.
Qed.

(** ** Writing a file and reading it back *)

Section SaveAndRead.

Variable plat : platform.

Lemma ends_with_sep_app (s t : string) :
  t <> "" -> ends_with_sep plat (s +:+ t) = ends_with_sep plat t.
Proof.
  intros Ht. induction s as [|c s IH]; [reflexivity|].
  rewrite append_cons. cbn [ends_with_sep].
  destruct (s +:+ t) eqn:E; [|exact IH].
  destruct s; [by rewrite append_nil_l in E|discriminate].
Qed.

Lemma stat_dir_lookup (f : gmap (list string) node) (path : string) :
  stat plat f path = Some Dir -> lookup_path f (components plat path) = Some Dir.
Proof.
  unfold stat. destruct (String.eqb path ""); [done|].
  destruct (lookup_path f (components plat path)) as [[c|]|]; [|done..].
  by destruct (ends_with_sep plat path).
Qed.

Local Abbreviation file_name := (file_name plat).

Lemma open_in_directory (f : gmap (list string) node) (dir name : string) :
  file_name name ->
  lookup_path f (components plat dir) = Some Dir ->
  f !! (components plat dir ++ [name]) <> Some Dir ->
  open_for_writing plat f (dir +:+ String slash name)
  = Some (components plat dir ++ [name]).
Proof.
  intros [Hname Hend] Hdir Hfile. unfold open_for_writing.
  assert (name <> "") as Hne by (intros ->; discriminate Hname).
  rewrite components_app_slash, Hname.
  assert (String.eqb (dir +:+ String slash name) "" = false) as ->
    by apply String.eqb_neq, append_not_empty.
  rewrite (ends_with_sep_app dir (String slash name)) by done.
  cbn [ends_with_sep]. destruct name as [|c name]; [done|]. rewrite Hend. simpl.
  rewrite removelast_last, Hdir.
  destruct (components plat dir ++ [String c name]) eqn:E.
  { by destruct (components plat dir). }
  rewrite <- E in *.
  destruct (f !! (components plat dir ++ [String c name])) as [[content|]|]; done.
Qed.

Lemma lookup_path_insert_file (f : gmap (list string) node) (p q : list string)
    (content : string) :
  lookup_path f q = Some Dir -> p <> q ->
  lookup_path (<[p := File content]> f) q = Some Dir.
Proof.
  intros Hq Hne. destruct q as [|x q]; [done|]. simpl in *.
  by rewrite lookup_insert_ne.
Qed.

(** After [saveJsonToFile] into a directory that exists the file is
    there and holds the document. *)
Lemma saveJsonToFile_then_read (serialize : json -> string) (savedJson : json)
    (dir name : string) (s : state) :
  file_name name ->
  DirectoryExists plat dir s = true ->
  DirectoryExists plat (dir +:+ String slash name) s = false ->
  exists s',
    saveJsonToFile plat serialize savedJson (dir +:+ String slash name) s = Done tt s'
    /\ fetched s' = fetched s
    /\ readFileContents plat (dir +:+ String slash name) s' = Done (serialize savedJson) s'.
Proof.
  intros Hname Hdir Hnodir.
  set (path := dir +:+ String slash name).
  set (p := components plat dir ++ [name]).
  assert (components plat path = p) as Hcomp
    by (unfold path, p; rewrite components_app_slash; by destruct Hname as [-> _]).
  assert (path <> "") as Hpath by apply append_not_empty.
  assert (p <> []) as Hp by (unfold p; by destruct (components plat dir)).
  assert (p <> components plat dir) as Hpdir.
  { unfold p. intros Heq. apply (f_equal length) in Heq.
    rewrite length_app in Heq. simpl in Heq. lia. }
  assert (lookup_path (files s) (components plat dir) = Some Dir) as Hdirlook.
  { unfold DirectoryExists in Hdir. apply stat_dir_lookup.
    by destruct (stat plat (files s) dir) as [[c|]|]. }
  assert (files s !! p <> Some Dir) as Hnot.
  { intros Hd. unfold DirectoryExists in Hnodir. fold path in Hnodir.
    rewrite (stat_dir plat (files s) path Hpath) in Hnodir; [done| |];
      rewrite Hcomp; done. }
  assert (ends_with_sep plat path = false) as Hend.
  { unfold path. rewrite ends_with_sep_app by done.
    destruct Hname as [Hc He]. cbn [ends_with_sep].
    destruct name; [discriminate Hc|exact He]. }
  assert (forall f content, f !! p = Some (File content) ->
                            stat plat f path = Some (File content)) as Hstat.
  { intros f content Hf. unfold stat. apply String.eqb_neq in Hpath. rewrite Hpath.
    rewrite Hcomp, lookup_path_nonempty, Hf, Hend by done. reflexivity. }
  (* the file after CreateFileIfNotExists *)
  assert (exists s1 c1, CreateFileIfNotExists plat path s = Done tt s1
                        /\ fetched s1 = fetched s
                        /\ files s1 !! p = Some (File c1)
                        /\ lookup_path (files s1) (components plat dir) = Some Dir)
    as (s1 & c1 & Hcreate & Hf1 & Hfile1 & Hdir1).
  { unfold CreateFileIfNotExists, FileExists.
    destruct (stat plat (files s) path) as [[c|]|] eqn:Hst.
    - exists s, c. repeat split; try done. rewrite <- Hcomp. by apply stat_file_lookup.
    - unfold write_file, path. rewrite (open_in_directory _ _ _ Hname Hdirlook Hnot).
      fold p. eexists _, "". repeat split; simpl.
      + by rewrite lookup_insert_eq.
      + by apply lookup_path_insert_file.
    - unfold write_file, path. rewrite (open_in_directory _ _ _ Hname Hdirlook Hnot).
      fold p. eexists _, "". repeat split; simpl.
      + by rewrite lookup_insert_eq.
      + by apply lookup_path_insert_file. }
  unfold saveJsonToFile. unfold_run. fold path. rewrite Hcreate.
  unfold write_file, path. rewrite (open_in_directory _ _ _ Hname Hdir1); fold p.
  - eexists. split; [reflexivity|]. split; [exact Hf1|].
    unfold readFileContents. fold path. simpl.
    by rewrite (Hstat _ (serialize savedJson)) by apply lookup_insert_eq.
  - by rewrite Hfile1.
Qed.

End SaveAndRead.

(** ** Directories stay *)

Section DirectoriesStay.

Variable plat : platform.

Lemma DirectoryExists_lookup (d : string) (s : state) :
  DirectoryExists plat d s = true
  <-> d <> "" /\ lookup_path (files s) (components plat d) = Some Dir.
Proof.
  unfold DirectoryExists, stat. split.
  - destruct (String.eqb_spec d ""); [done|]. intros H. split; [done|].
    destruct (lookup_path (files s) (components plat d)) as [[c|]|]; [|done..].
    by destruct (ends_with_sep plat d).
  - intros [Hne Hlook]. apply String.eqb_neq in Hne. by rewrite Hne, Hlook.
Qed.

Lemma create_directories_from_keeps (rest pre : list string)
    (f f' : gmap (list string) node) (p : list string) (n : node) :
  create_directories_from pre rest f = Some f' ->
  f !! p = Some n -> f' !! p = Some n.
Proof.
  revert pre f. induction rest as [|c rest IH]; intros pre f Hmk Hp; simpl in Hmk.
  - by injection Hmk as <-.
  - destruct (f !! (pre ++ [c])) as [[content|]|] eqn:Hq; [done| |].
    + eapply IH; eauto.
    + eapply IH; [exact Hmk|]. rewrite lookup_insert_ne; [done|]. congruence.
Qed.

(** Every path above the one asked for is a directory afterwards. *)
Lemma create_directories_from_above (rest pre : list string)
    (f f' : gmap (list string) node) (a b : list string) :
  create_directories_from pre rest f = Some f' ->
  rest = a ++ b -> a <> [] ->
  f' !! (pre ++ a) = Some Dir.
Proof.
  revert pre f a. induction rest as [|c rest IH]; intros pre f a Hmk Hsplit Ha.
  - by destruct a.
  - destruct a as [|x a]; [done|]. injection Hsplit as <- ->.
    simpl in Hmk.
    destruct (f !! (pre ++ [c])) as [[content|]|] eqn:Hq; [done| |].
    + destruct a as [|y a].
      * eapply create_directories_from_keeps; eauto.
      * change (pre ++ c :: y :: a) with (pre ++ [c] ++ y :: a).
        rewrite (assoc_L (++)). eapply IH; eauto.
    + destruct a as [|y a].
      * eapply create_directories_from_keeps; [exact Hmk|]. by rewrite lookup_insert_eq.
      * change (pre ++ c :: y :: a) with (pre ++ [c] ++ y :: a).
        rewrite (assoc_L (++)). eapply IH; eauto.
Qed.

Lemma lookup_path_keeps_dir (f f' : gmap (list string) node) (q : list string) :
  (forall p, f !! p = Some Dir -> f' !! p = Some Dir) ->
  lookup_path f q = Some Dir -> lookup_path f' q = Some Dir.
Proof. intros Hkeep. destruct q; [done|]. apply Hkeep. Qed.

Lemma keeps_DirectoryExists {A : Type} (c : M A) (d : string) (s : state) :
  keeps_directories c ->
  DirectoryExists plat d s = true ->
  DirectoryExists plat d (final (c s)) = true.
Proof.
  intros Hkeep Hd. apply DirectoryExists_lookup in Hd as [Hne Hlook].
  apply DirectoryExists_lookup. split; [done|].
  eapply lookup_path_keeps_dir; [|exact Hlook]. intros p. apply Hkeep.
Qed.

Lemma keeps_ret {A : Type} (a : A) : keeps_directories (mret a).
Proof. by intros s p. Qed.

Lemma keeps_checked {A : Type} (o : option A) : keeps_directories (checked o).
Proof. intros s p. by destruct o. Qed.

Lemma keeps_read {A : Type} (f : state -> A) : keeps_directories (read f).
Proof. by intros s p. Qed.

Lemma keeps_bind {A B : Type} (c : M A) (k : A -> M B) :
  keeps_directories c -> (forall a, keeps_directories (k a)) ->
  keeps_directories (c ≫= k).
Proof.
  intros Hc Hk s p Hp. unfold mbind, M_bind, bind.
  specialize (Hc s p Hp). destruct (c s) as [a s1|s1]; simpl in *; [|done].
  by apply Hk.
Qed.

(** What is opened for writing is not a directory. *)
Lemma open_for_writing_not_directory (f : gmap (list string) node) (path : string)
    (q : list string) :
  open_for_writing plat f path = Some q -> f !! q <> Some Dir.
Proof.
  unfold open_for_writing. destruct (_ || _); [done|].
  destruct (components plat path) as [|x p]; [done|].
  destruct (lookup_path f (removelast (x :: p))) as [[c|]|]; [done| |done].
  destruct (f !! (x :: p)) as [[c|]|] eqn:Hq; [|done|]; intros [= <-]; by rewrite Hq.
Qed.

Lemma keeps_write_file (content path : string) :
  keeps_directories (write_file plat content path).
Proof.
  intros s p Hp. unfold write_file.
  destruct (open_for_writing plat (files s) path) as [q|] eqn:Hopen; simpl; [|done].
  apply open_for_writing_not_directory in Hopen.
  rewrite lookup_insert_ne; [done|]. congruence.
Qed.

Lemma keeps_CreateFileIfNotExists (path : string) :
  keeps_directories (CreateFileIfNotExists plat path).
Proof.
  intros s p Hp. unfold CreateFileIfNotExists.
  destruct (FileExists plat path s); [done|]. by apply keeps_write_file.
Qed.

Lemma keeps_CreateDirectoryIfNotExists (path : string) :
  keeps_directories (CreateDirectoryIfNotExists plat path).
Proof.
  intros s p Hp. unfold CreateDirectoryIfNotExists.
  destruct (DirectoryExists plat path s); [done|].
  destruct (String.eqb path ""); [done|].
  destruct (create_directories _ _) as [f'|] eqn:Hmk; simpl; [|done].
  eapply create_directories_from_keeps; eauto.
Qed.

Lemma keeps_curlGet (net : string -> string) (url : string) :
  keeps_directories (curlGet net url).
Proof. by intros s p. Qed.

Lemma keeps_libraryStep (net : string -> string) (programDirectory version : string)
    (lib : json) :
  keeps_directories (libraryStep plat net programDirectory version lib).
Proof.
  unfold libraryStep.
  apply keeps_bind; [apply keeps_checked|intros path].
  apply keeps_bind; [apply keeps_checked|intros url].
  apply keeps_bind; [apply keeps_read|intros present].
  destruct (_ && _); [|apply keeps_ret].
  apply keeps_bind; [apply keeps_checked|intros [|]]; [|apply keeps_ret].
  apply keeps_bind; [apply keeps_CreateDirectoryIfNotExists|intros _].
  apply keeps_bind; [apply keeps_CreateFileIfNotExists|intros _].
  apply keeps_bind; [apply keeps_curlGet|intros body].
  apply keeps_write_file.
Qed.

Lemma keeps_libraryPass (net : string -> string) (programDirectory version : string)
    (versionJson : json) :
  keeps_directories (libraryPass plat net programDirectory version versionJson).
Proof.
  unfold libraryPass. apply keeps_bind; [apply keeps_checked|intros libs].
  induction libs as [|lib libs IH]; [apply keeps_ret|].
  cbn [libraryPassFrom]. apply keeps_bind; [apply keeps_libraryStep|by intros _].
Qed.

(** Making [dir/rest] leaves [dir] a directory. *)
Lemma CreateDirectoryIfNotExists_above (dir rest : string) (s s' : state) :
  well_formed (files s) ->
  components plat dir <> [] -> components plat rest <> [] ->
  CreateDirectoryIfNotExists plat (dir +:+ String slash rest) s = Done tt s' ->
  DirectoryExists plat dir s' = true.
Proof.
  intros Hwf Hdir Hrest. unfold CreateDirectoryIfNotExists.
  assert (dir <> "") as Hne by (intros ->; by apply Hdir).
  destruct (DirectoryExists plat (dir +:+ String slash rest) s) eqn:Hthere.
  - intros [= <-]. apply DirectoryExists_lookup in Hthere as [_ Hlook].
    rewrite components_app_slash in Hlook.
    rewrite lookup_path_nonempty in Hlook by (by destruct (components plat dir)).
    apply DirectoryExists_lookup. split; [done|].
    rewrite lookup_path_nonempty by done. eapply Hwf; eauto.
  - destruct (String.eqb _ ""); [done|].
    destruct (create_directories _ _) as [f'|] eqn:Hmk; [|done].
    intros [= <-]. apply DirectoryExists_lookup. split; [done|].
    rewrite lookup_path_nonempty by done. simpl.
    unfold create_directories in Hmk. rewrite components_app_slash in Hmk.
    by apply (create_directories_from_above _ [] _ _ _ _ Hmk eq_refl).
Qed.

End DirectoriesStay.

(** ** The assets directory and the asset pass *)

Lemma bind_run {A B : Type} (c : M A) (k : A -> M B) (s : state) :
  (c ≫= k) s = match c s with
                | Done a s' => k a s'
                | Crash s' => Crash s'
                end.
Proof. reflexivity. Qed.

Section AssetsRoot.

Variable plat : platform.

Lemma insert_dir_well_formed (f : gmap (list string) node) (pre : list string) (c : string) :
  well_formed f ->
  (pre <> [] -> f !! pre = Some Dir) ->
  f !! (pre ++ [c]) = None ->
  well_formed (<[pre ++ [c] := Dir]> f).
Proof.
  intros Hwf Hpre Hnew p q n Hlook Hp Hq.
  assert (f !! p = Some Dir) as Hdir.
  { destruct (decide (p ++ q = pre ++ [c])) as [Heq|Hne].
    - destruct (exists_last Hq) as (r & x & ->).
      rewrite (assoc_L (++)) in Heq. apply app_inj_tail in Heq as [<- <-].
      destruct r as [|y r].
      + rewrite List.app_nil_r in Hpre. by apply Hpre.
      + eapply Hwf; [apply Hpre; by destruct p|done..].
    - rewrite lookup_insert_ne in Hlook by done. eapply Hwf; eauto. }
  rewrite lookup_insert_ne; [done|]. congruence.
Qed.

Lemma create_directories_from_well_formed (rest pre : list string)
    (f f' : gmap (list string) node) :
  well_formed f ->
  (pre <> [] -> f !! pre = Some Dir) ->
  create_directories_from pre rest f = Some f' ->
  well_formed f'.
Proof.
  revert pre f. induction rest as [|c rest IH]; intros pre f Hwf Hpre Hmk; simpl in Hmk.
  - by injection Hmk as <-.
  - destruct (f !! (pre ++ [c])) as [[content|]|] eqn:Hq; [done| |].
    + eapply IH; [exact Hwf|intros _; exact Hq|exact Hmk].
    + eapply IH; [|intros _; apply lookup_insert_eq|exact Hmk].
      by apply insert_dir_well_formed.
Qed.

Lemma CreateDirectoryIfNotExists_well_formed (path : string) (s s' : state) :
  well_formed (files s) ->
  CreateDirectoryIfNotExists plat path s = Done tt s' ->
  well_formed (files s').
Proof.
  intros Hwf. unfold CreateDirectoryIfNotExists.
  destruct (DirectoryExists plat path s); [by intros [= <-]|].
  destruct (String.eqb path ""); [done|].
  destruct (create_directories _ _) as [f'|] eqn:Hmk; [|done].
  intros [= <-]. simpl. eapply create_directories_from_well_formed; eauto. done.
Qed.

Variable net : string -> string.
Variable parse : string -> json.
Variable serialize : json -> string.
Variable programDirectory version : string.

(** After the directories of the program are made, the assets directory
    is among them. *)
Lemma setup_makes_assets (s s' : state) :
  well_formed (files s) ->
  setup plat programDirectory version s = Done tt s' ->
  DirectoryExists plat (programDirectory +:+ "/assets") s' = true.
Proof.
  intros Hwf. unfold setup.
  unfold mbind at 1. unfold M_bind, bind.
  destruct (CreateDirectoryIfNotExists plat (programDirectory +:+ "/profiles") s)
    as [[] s1|s1] eqn:H1; [|done].
  apply (CreateDirectoryIfNotExists_well_formed _ _ _ Hwf) in H1.
  unfold mbind at 1. unfold M_bind, bind.
  destruct (CreateDirectoryIfNotExists plat (programDirectory +:+ "/assets/indexes") s1)
    as [[] s2|s2] eqn:H2; [|done].
  assert (DirectoryExists plat (programDirectory +:+ "/assets") s2 = true) as Hassets.
  { apply (CreateDirectoryIfNotExists_above plat _ "indexes" s1 s2 H1).
    - rewrite assets_components. by destruct (components plat programDirectory).
    - by destruct plat.
    - rewrite <- H2. f_equal. by rewrite append_assoc. }
  clear H1 H2 Hwf s s1. revert Hassets. generalize s2. clear s2.
  intros s Hassets Hrest.
  match type of Hrest with
  | ?c s = _ =>
      assert (keeps_directories c) as Hkeep;
      [|pose proof (keeps_DirectoryExists plat c _ s Hkeep Hassets) as Hend;
        by rewrite Hrest in Hend]
  end.
  repeat (apply keeps_bind; [apply keeps_CreateDirectoryIfNotExists|intros _]).
  apply keeps_CreateDirectoryIfNotExists.
Qed.

Lemma keeps_saveJsonToFile (savedJson : json) (path : string) :
  keeps_directories (saveJsonToFile plat serialize savedJson path).
Proof.
  unfold saveJsonToFile.
  apply keeps_bind; [apply keeps_CreateFileIfNotExists|intros _]. apply keeps_write_file.
Qed.

Lemma keeps_findVersion (document : json) :
  keeps_directories (findVersion net parse version document).
Proof.
  unfold findVersion. apply keeps_bind; [apply keeps_checked|intros entries].
  induction entries as [|entry entries IH]; [apply keeps_ret|].
  cbn [findVersionFrom]. apply keeps_bind; [apply keeps_checked|intros id].
  destruct (String.eqb id version); [|exact IH].
  apply keeps_bind; [apply keeps_checked|intros url].
  apply keeps_bind; [apply keeps_curlGet|intros body]. apply keeps_ret.
Qed.

Lemma keeps_prepareVersion (document : json) :
  keeps_directories (prepareVersion plat net parse serialize programDirectory version document).
Proof.
  unfold prepareVersion.
  repeat first
    [ apply keeps_ret
    | apply keeps_write_file
    | apply keeps_bind;
      [ first [ apply keeps_CreateFileIfNotExists | apply keeps_findVersion
              | apply keeps_checked | apply keeps_curlGet | apply keeps_saveJsonToFile
              | apply keeps_write_file ]
      | intros ? ] ].
Qed.

(** With the assets directory on disk the two passes are the library
    pass alone. *)
Lemma acquire_with_assets (versionJson assetJson : json) (s : state) :
  DirectoryExists plat (programDirectory +:+ "/assets") s = true ->
  acquire plat net programDirectory version versionJson assetJson s
  = libraryPass plat net programDirectory version versionJson s.
Proof.
  intros Hassets. unfold acquire. unfold mbind at 1. unfold M_bind, bind.
  pose proof (keeps_DirectoryExists plat _ _ s
                (keeps_libraryPass plat net programDirectory version versionJson) Hassets)
    as Hafter.
  destruct (libraryPass plat net programDirectory version versionJson s) as [[] s1|s1];
    [|reflexivity].
  by apply assetPass_skipped.
Qed.

Lemma downloadVersion_with_assets (document : json) (s : state) :
  DirectoryExists plat (programDirectory +:+ "/assets") s = true ->
  downloadVersion plat net parse serialize programDirectory version document s
  = (documents ← prepareVersion plat net parse serialize programDirectory version document;
     libraryPass plat net programDirectory version (fst documents);;
     mret (fst documents)) s.
Proof.
  intros Hassets. unfold downloadVersion. rewrite !bind_run.
  pose proof (keeps_DirectoryExists plat _ _ s (keeps_prepareVersion document) Hassets)
    as Hafter.
  destruct (prepareVersion _ _ _ _ _ _ document s) as [documents s1|s1]; [|reflexivity].
  rewrite !bind_run. by rewrite acquire_with_assets.
Qed.

End AssetsRoot.

(** ** The manifest: no fallback, and the cache file *)

(** C8, as the code has it.  When the answer for the manifest is empty
    the branch that should read manifest_cache.json holds a comment and
    nothing else: the document stays null, and reading
    ["latest"]["release"] from it ends the run, whatever is on disk;
    nothing but the manifest has been requested.  With the cache file of
    an earlier run on disk the run ends the same way.  The other half of
    the claim holds: a manifest that is fetched is written to
    manifest_cache.json in the program directory before anything is read
    from it. *)
Theorem manifest_fallback_is_missing
    (plat : platform) (net : string -> string) (parse : string -> json)
    (serialize : json -> string) (HOME : option string)
    (programDirectory version : string) (s : state) :
  (net manifestUrl = "" ->
   fetchManifest plat net parse serialize programDirectory s
   = Done JNull {| files := files s; fetched := fetched s ++ [manifestUrl] |}
   /\ exists s', launcher plat net parse serialize HOME programDirectory version s = Crash s'
                 /\ fetched s' = fetched s ++ [manifestUrl])
  /\ (net manifestUrl <> "" ->
      DirectoryExists plat programDirectory s = true ->
      DirectoryExists plat (programDirectory +:+ "/manifest_cache.json") s = false ->
      exists s',
        fetchManifest plat net parse serialize programDirectory s
        = Done (parse (net manifestUrl)) s'
        /\ readFileContents plat (programDirectory +:+ "/manifest_cache.json") s'
           = Done (serialize (parse (net manifestUrl))) s')
  /\ (exists s', Offline.run Offline.disk = Crash s').
Proof.
  split; [|split].
  - intros Hempty.
    assert (fetchManifest plat net parse serialize programDirectory s
            = Done JNull {| files := files s; fetched := fetched s ++ [manifestUrl] |})
      as Hfetch.
    { unfold fetchManifest, curlGet. unfold_run. by rewrite Hempty. }
    split; [exact Hfetch|].
    unfold launcher. rewrite bind_run, Hfetch, bind_run.
    destruct (String.eqb (os plat) "linux").
    + destruct HOME as [home|]; unfold_run; simpl; [|eauto].
      match goal with
      | |- context [CreateFileIfNotExists plat ?p ?st] =>
          destruct (CreateFileIfNotExists_fetched plat p st) as (s1 & -> & Hf)
      end.
      simpl. eauto.
    + unfold_run. simpl. eauto.
  - intros Hbody Hdir Hnodir.
    unfold fetchManifest. rewrite bind_run. unfold curlGet.
    apply String.eqb_neq in Hbody. rewrite Hbody.
    set (s0 := {| files := files s; fetched := fetched s ++ [manifestUrl] |}).
    destruct (saveJsonToFile_then_read plat serialize (parse (net manifestUrl))
                programDirectory "manifest_cache.json" s0)
      as (s' & Hsave & _ & Hread); [|exact Hdir|exact Hnodir|].
    { by destruct plat. }
    exists s'. rewrite bind_run.
    change (programDirectory +:+ "/manifest_cache.json")
      with (programDirectory +:+ String slash "manifest_cache.json").
    by rewrite Hsave.
  - eexists. vm_compute. reflexivity.
Qed.

Lemma manifest_fallback_is_missing_witness :
  (exists s', launcher Linux Offline.net Scenario.parse Scenario.serialize Scenario.home
                "/opt/ql" "1.19.4" Offline.disk = Crash s'
              /\ fetched s' = fetched Offline.disk ++ [manifestUrl])
  /\ (exists s',
        fetchManifest Linux Scenario.net Scenario.parse Scenario.serialize "/opt/ql"
          Scenario.fresh
        = Done (Scenario.parse (Scenario.net manifestUrl)) s'
        /\ readFileContents Linux "/opt/ql/manifest_cache.json" s'
           = Done (Scenario.serialize (Scenario.parse (Scenario.net manifestUrl))) s').
Proof.
  split.
  - apply (manifest_fallback_is_missing Linux Offline.net Scenario.parse Scenario.serialize
             Scenario.home "/opt/ql" "1.19.4" Offline.disk).
    reflexivity.
  - apply (manifest_fallback_is_missing Linux Scenario.net Scenario.parse Scenario.serialize
             Scenario.home "/opt/ql" "1.19.4" Scenario.fresh).
    + vm_compute. discriminate.
    + vm_compute. reflexivity.
    + vm_compute. reflexivity.
Defined.

(** ** The first run, end to end *)

(** C2, as the code has it.  On the first installation the run comes
    back with the classpath clause; the library file and the asset index
    file are on disk afterwards, but the file of the asset object is not,
    and its URL was never requested.  [main] makes assets/indexes and
    assets/objects before it downloads anything, so that on every disk in
    good shape the assets directory is there once the directories of the
    program are made; directories stay, and with the assets directory on
    disk the download branch is the branch without the asset pass.  The
    pass itself, started on the disk of the first installation before any
    directory is made, does fetch and store the object. *)
Theorem first_run_leaves_asset_objects_out :
  (let s' := final (Scenario.run Scenario.fresh) in
   Scenario.run Scenario.fresh
   = Done (Some (" -cp " +:+ dquote
                   +:+ "/opt/ql/versions/1.19.4/libraries/com/example/lib.jar:/opt/ql/versions/1.19.4/1.19.4.jar"
                   +:+ dquote +:+ " ")) s'
   /\ files s' !! ["opt"; "ql"; "versions"; "1.19.4"; "libraries"; "com"; "example"; "lib.jar"]
      = Some (File "LIBRARY")
   /\ files s' !! ["opt"; "ql"; "assets"; "indexes"; "3.json"] = Some (File "ASSETINDEX")
   /\ files s' !! ["opt"; "ql"; "assets"] = Some Dir
   /\ files s' !! ["opt"; "ql"; "assets"; "objects"; "aa"; "aa11bb22"] = None
   /\ fetched s' = [manifestUrl; "https://meta/1.19.4.json"; "https://meta/assets/3.json";
                    "https://meta/log4j.xml"; "https://meta/client.jar";
                    "https://libs/com/example/lib.jar"])
  /\ (DirectoryExists Linux "/opt/ql/assets" Scenario.fresh = false
      /\ let s'' := final (assetPass Linux Scenario.net "/opt/ql" Scenario.assetIndex
                             Scenario.fresh) in
         files s'' !! ["opt"; "ql"; "assets"; "objects"; "aa"; "aa11bb22"] = Some (File "ASSET")
         /\ fetched s'' = [Scenario.assetUrl])
  /\ (forall plat programDirectory version s s',
         well_formed (files s) ->
         setup plat programDirectory version s = Done tt s' ->
         DirectoryExists plat (programDirectory +:+ "/assets") s' = true)
  /\ (forall plat net parse serialize programDirectory version document s,
         DirectoryExists plat (programDirectory +:+ "/assets") s = true ->
         downloadVersion plat net parse serialize programDirectory version document s
         = (documents ← prepareVersion plat net parse serialize programDirectory version
                          document;
            libraryPass plat net programDirectory version (fst documents);;
            mret (fst documents)) s).
Proof.
  split; [vm_compute; auto 10|].
  split; [vm_compute; auto|].
  split.
  - intros plat programDirectory version s s'. apply setup_makes_assets.
  - intros plat net parse serialize programDirectory version document s.
    apply downloadVersion_with_assets.
Qed.

Lemma first_run_leaves_asset_objects_out_witness :
  let s' := final (setup Linux "/opt/ql" "1.19.4" Scenario.fresh) in
  DirectoryExists Linux "/opt/ql/assets" s' = true
  /\ downloadVersion Linux Scenario.net Scenario.parse Scenario.serialize "/opt/ql" "1.19.4"
       Scenario.manifest s'
     = (documents ← prepareVersion Linux Scenario.net Scenario.parse Scenario.serialize
                      "/opt/ql" "1.19.4" Scenario.manifest;
        libraryPass Linux Scenario.net "/opt/ql" "1.19.4" (fst documents);;
        mret (fst documents)) s'.
Proof.
  pose proof first_run_leaves_asset_objects_out as (_ & _ & Hsetup & Hdownload).
  assert (DirectoryExists Linux ("/opt/ql" +:+ "/assets")
            (final (setup Linux "/opt/ql" "1.19.4" Scenario.fresh)) = true) as Hassets.
  { apply (Hsetup Linux "/opt/ql" "1.19.4" Scenario.fresh).
    - apply well_formedb_sound. vm_compute. reflexivity.
    - vm_compute. reflexivity. }
  split; [exact Hassets|].
  by apply Hdownload.
Defined.

(** * Further properties of main.cpp *)

(** ** The program directory *)

Lemma before_last_slash_none (path : string) :
  before_last_slash path = None <-> occurs slash path = false.
Proof.
  induction path as [|c rest IH]; [done|].
  cbn [before_last_slash occurs].
  destruct (before_last_slash rest) as [dir|].
  - split; [done|]. intros H. apply orb_false_iff in H as [_ H].
    apply IH in H. done.
  - unfold ascii_eqb. rewrite (Ascii.eqb_sym slash c).
    destruct (Ascii.eqb c slash); [done|]. simpl. by rewrite <- IH.
Qed.

Lemma before_last_slash_split (dir name : string) :
  occurs slash name = false ->
  before_last_slash (dir +:+ String slash name) = Some dir.
Proof.
  intros Hname. apply before_last_slash_none in Hname.
  induction dir as [|c dir IH].
  - rewrite append_nil_l. cbn [before_last_slash]. rewrite Hname.
    by rewrite ascii_eqb_refl.
  - rewrite append_cons. cbn [before_last_slash]. by rewrite IH.
Qed.

Lemma before_last_slash_some (path dir : string) :
  before_last_slash path = Some dir ->
  exists name, path = dir +:+ String slash name /\ occurs slash name = false.
Proof.
  revert dir. induction path as [|c rest IH]; intros dir; [done|].
  cbn [before_last_slash].
  destruct (before_last_slash rest) as [dir'|] eqn:Hrest.
  - intros [= <-]. destruct (IH dir' eq_refl) as (name & -> & Hname).
    exists name. by rewrite append_cons.
  - destruct (ascii_eqb c slash) eqn:Hc; [|done]. intros [= <-].
    apply ascii_eqb_eq in Hc as ->. exists rest. split; [done|].
    by apply before_last_slash_none.
Qed.

(** X1. [GetProgramDirectory] gives the directory of the executable: for
    a link text [dir/name] shorter than the buffer, where [name] holds no
    slash, the result is [dir], and every result other than the empty
    text comes about this way.  The result is empty when [readlink] fails,
    when the text holds no slash, and also for an executable that lies in
    the root directory ("/name").  A link text that fills the buffer makes
    the function write past it. *)
Theorem GetProgramDirectory_splits (PATH_MAX : nat) :
  (forall dir name,
      String.length (dir +:+ String slash name) < PATH_MAX ->
      occurs slash name = false ->
      GetProgramDirectory PATH_MAX (Some (dir +:+ String slash name)) = Some dir)
  /\ (forall target dir,
         GetProgramDirectory PATH_MAX (Some target) = Some dir -> dir <> "" ->
         exists name, target = dir +:+ String slash name /\ occurs slash name = false)
  /\ (forall name,
         String.length (String slash name) < PATH_MAX -> occurs slash name = false ->
         GetProgramDirectory PATH_MAX (Some (String slash name)) = Some "")
  /\ (forall target,
         String.length target < PATH_MAX -> occurs slash target = false ->
         GetProgramDirectory PATH_MAX (Some target) = Some "")
  /\ (forall target,
         PATH_MAX <= String.length target ->
         GetProgramDirectory PATH_MAX (Some target) = None)
  /\ GetProgramDirectory PATH_MAX None = Some "".
Proof.
  assert (forall target, String.length target < PATH_MAX ->
            Nat.eqb (Nat.min (String.length target) PATH_MAX) PATH_MAX = false) as Hfits.
  { intros target Hlen. apply Nat.eqb_neq. lia. }
  split; [|split; [|split; [|split; [|split; [|reflexivity]]]]].
  - intros dir name Hlen Hname. unfold GetProgramDirectory.
    by rewrite (Hfits _ Hlen), before_last_slash_split.
  - intros target dir. unfold GetProgramDirectory.
    destruct (Nat.eqb _ _); [done|].
    destruct (before_last_slash target) as [dir'|] eqn:Hsplit.
    + intros [= <-] _. by apply before_last_slash_some.
    + by intros [= <-].
  - intros name Hlen Hname. unfold GetProgramDirectory.
    rewrite (Hfits _ Hlen). change (String slash name) with ("" +:+ String slash name).
    by rewrite before_last_slash_split.
  - intros target Hlen Hname. unfold GetProgramDirectory.
    rewrite (Hfits _ Hlen). apply before_last_slash_none in Hname. by rewrite Hname.
  - intros target Hlen. unfold GetProgramDirectory.
    assert (Nat.eqb (Nat.min (String.length target) PATH_MAX) PATH_MAX = true) as ->; [|done].
    apply Nat.eqb_eq. lia.
Qed.

Lemma GetProgramDirectory_splits_witness :
  GetProgramDirectory 4096 (Some "/opt/ql/launcher") = Some "/opt/ql"
  /\ (exists name, "/opt/ql/launcher" = "/opt/ql" +:+ String slash name
                   /\ occurs slash name = false)
  /\ GetProgramDirectory 4096 (Some "/launcher") = Some ""
  /\ GetProgramDirectory 4096 (Some "launcher") = Some ""
  /\ GetProgramDirectory 8 (Some "/opt/ql/launcher") = None.
Proof.
  pose proof (GetProgramDirectory_splits 4096) as (Hdir & Hback & Hroot & Hnone & _ & _).
  pose proof (GetProgramDirectory_splits 8) as (_ & _ & _ & _ & Hfull & _).
  split; [|split; [|split; [|split]]].
  - apply (Hdir "/opt/ql" "launcher"); [vm_compute; lia|reflexivity].
  - apply (Hback "/opt/ql/launcher" "/opt/ql"); [reflexivity|discriminate].
  - apply (Hroot "launcher"); [vm_compute; lia|reflexivity].
  - apply (Hnone "launcher"); [vm_compute; lia|reflexivity].
  - apply Hfull. vm_compute. lia.
Defined.

(** ** The start of main *)

Section StartOfMain.

Variable plat : platform.
Variable net : string -> string.
Variable parse : string -> json.
Variable serialize : json -> string.

Lemma write_file_effect (content path : string) (s : state) :
  exists s', write_file plat content path s = Done tt s'
             /\ fetched s' = fetched s
             /\ (forall p, files s' !! p = Some Dir -> files s !! p = Some Dir).
Proof.
  unfold write_file. destruct (open_for_writing plat (files s) path) as [q|]; [|eauto].
  eexists. split; [reflexivity|]. split; [reflexivity|].
  intros p. simpl. rewrite lookup_insert. by case_decide.
Qed.

Lemma CreateFileIfNotExists_effect (path : string) (s : state) :
  exists s', CreateFileIfNotExists plat path s = Done tt s'
             /\ fetched s' = fetched s
             /\ (forall p, files s' !! p = Some Dir -> files s !! p = Some Dir).
Proof.
  unfold CreateFileIfNotExists. destruct (FileExists plat path s); [eauto|].
  apply write_file_effect.
Qed.

Lemma saveJsonToFile_effect (savedJson : json) (path : string) (s : state) :
  exists s', saveJsonToFile plat serialize savedJson path s = Done tt s'
             /\ fetched s' = fetched s
             /\ (forall p, files s' !! p = Some Dir -> files s !! p = Some Dir).
Proof.
  unfold saveJsonToFile. rewrite bind_run.
  destruct (CreateFileIfNotExists_effect path s) as (s1 & -> & Hf1 & Hd1).
  destruct (write_file_effect (serialize savedJson) path s1) as (s2 & -> & Hf2 & Hd2).
  exists s2. split; [reflexivity|]. split; [congruence|]. auto.
Qed.

Lemma fetchManifest_effect (programDirectory : string) (s : state) :
  exists s',
    fetchManifest plat net parse serialize programDirectory s
    = Done (if String.eqb (net manifestUrl) "" then JNull else parse (net manifestUrl)) s'
    /\ fetched s' = fetched s ++ [manifestUrl]
    /\ (forall p, files s' !! p = Some Dir -> files s !! p = Some Dir).
Proof.
  unfold fetchManifest. rewrite bind_run. unfold curlGet.
  destruct (String.eqb (net manifestUrl) ""); [eauto|].
  rewrite bind_run.
  match goal with
  | |- context [saveJsonToFile plat serialize ?d ?p ?st] =>
      destruct (saveJsonToFile_effect d p st) as (s1 & -> & Hf & Hd)
  end.
  eauto.
Qed.

(** The statements of lines 46-58, up to the test of the program
    directory. *)
Lemma launcher_start (HOME : option string) (programDirectory version : string) (s : state) :
  exists s0,
    fetched s0 = fetched s ++ [manifestUrl]
    /\ (forall p, files s0 !! p = Some Dir -> files s !! p = Some Dir)
    /\ launcher plat net parse serialize HOME programDirectory version s
       = if String.eqb (os plat) "linux" && negb (bool_decide (is_Some HOME)) then Crash s0
         else match string_at ["latest"; "release"]
                      (if String.eqb (net manifestUrl) "" then JNull
                       else parse (net manifestUrl)) with
              | None => Crash s0
              | Some _ =>
                  if negb (String.eqb programDirectory "")
                  then (setup plat programDirectory version;;
                        versionJson ← loadVersion plat net parse serialize programDirectory
                                        version
                                        (if String.eqb (net manifestUrl) "" then JNull
                                         else parse (net manifestUrl));
                        classPath ← buildClassPath plat programDirectory version versionJson;
                        mret (Some classPath)) s0
                  else Done None s0
              end.
Proof.
  unfold launcher. rewrite bind_run.
  destruct (fetchManifest_effect programDirectory s) as (s1 & -> & Hf1 & Hd1).
  rewrite bind_run.
  destruct (String.eqb (os plat) "linux").
  - destruct HOME as [home|]; simpl.
    + rewrite bind_run. unfold checked at 1. unfold ret.
      destruct (CreateFileIfNotExists_effect (home +:+ "/.config/alsoft.conf") s1)
        as (s2 & -> & Hf2 & Hd2).
      exists s2. split; [congruence|]. split; [auto|].
      rewrite bind_run. destruct (string_at _ _); [by destruct (negb _)|done].
    + exists s1. auto.
  - exists s1. split; [done|]. split; [done|]. simpl.
    rewrite bind_run. destruct (string_at _ _); [by destruct (negb _)|done].
Qed.

End StartOfMain.



(** X3. The statements before the directories are made end the run in two
    cases, whatever the program directory and the disk are: on linux when
    HOME is not set (its value is read to make alsoft.conf), and when the
    document of the manifest has no ["latest"]["release"] text.  In both
    cases the manifest is the only thing requested and no directory has
    been made. *)
Theorem main_ends_before_setup
    (plat : platform) (net : string -> string) (parse : string -> json)
    (serialize : json -> string) (HOME : option string)
    (programDirectory version : string) (s : state) :
  (os plat = "linux" /\ HOME = None)
  \/ (string_at ["latest"; "release"] (parse (net manifestUrl)) = None) ->
  exists s',
    launcher plat net parse serialize HOME programDirectory version s = Crash s'
    /\ fetched s' = fetched s ++ [manifestUrl]
    /\ (forall p, files s' !! p = Some Dir -> files s !! p = Some Dir).
Proof.
  intros Hcase.
  destruct (launcher_start plat net parse serialize HOME programDirectory version s)
    as (s0 & Hf & Hd & ->).
  exists s0. split; [|done].
  destruct Hcase as [[-> ->]|Hnone]; [done|].
  destruct (_ && _); [done|].
  destruct (String.eqb (net manifestUrl) ""); [done|]. by rewrite Hnone.
Qed.

Lemma main_ends_before_setup_witness :
  (exists s',
      launcher Linux Scenario.net Scenario.parse Scenario.serialize None "/opt/ql" "1.19.4"
        Scenario.fresh = Crash s'
      /\ fetched s' = fetched Scenario.fresh ++ [manifestUrl]
      /\ (forall p, files s' !! p = Some Dir -> files Scenario.fresh !! p = Some Dir))
  /\ (exists s',
         launcher Windows Scenario.net (fun _ => JObject []) Scenario.serialize None
           "C:\ql" "1.19.4" Scenario.fresh = Crash s'
         /\ fetched s' = fetched Scenario.fresh ++ [manifestUrl]
         /\ (forall p, files s' !! p = Some Dir -> files Scenario.fresh !! p = Some Dir)).
Proof.
  split.
  - apply (main_ends_before_setup Linux Scenario.net Scenario.parse Scenario.serialize None
             "/opt/ql" "1.19.4" Scenario.fresh).
    left. split; reflexivity.
  - apply (main_ends_before_setup Windows Scenario.net (fun _ => JObject [])
             Scenario.serialize None "C:\ql" "1.19.4" Scenario.fresh).
    right. reflexivity.
Defined.

(** ** Backslashes *)

Lemma components_from_slashes (cur path : string) :
  components_from Windows cur (backslashesToForwardslashes path)
  = components_from Windows cur path.
Proof.
  revert cur. induction path as [|c rest IH]; intros cur; [reflexivity|].
  cbn [backslashesToForwardslashes].
  destruct (ascii_eqb c backslash) eqn:Hc.
  - apply ascii_eqb_eq in Hc as ->. cbn [components_from].
    assert (is_sep Windows slash = true) as -> by reflexivity.
    assert (is_sep Windows backslash = true) as -> by reflexivity.
    by rewrite !IH.
  - cbn [components_from]. destruct (is_sep Windows c); by rewrite !IH.
Qed.

Lemma backslashesToForwardslashes_length (input : string) :
  String.length (backslashesToForwardslashes input) = String.length input.
Proof.
  induction input as [|c rest IH]; [reflexivity|].
  cbn [backslashesToForwardslashes].
  destruct (ascii_eqb c backslash); simpl; by rewrite IH.
Qed.

Lemma backslashesToForwardslashes_app (input rest : string) :
  backslashesToForwardslashes (input +:+ rest)
  = backslashesToForwardslashes input +:+ backslashesToForwardslashes rest.
Proof.
  induction input as [|c input IH]; [reflexivity|].
  rewrite append_cons. cbn [backslashesToForwardslashes]. rewrite IH.
  by destruct (ascii_eqb c backslash).
Qed.

(** X4. [backslashesToForwardslashes] leaves no backslash in its result
    and keeps the length; applying it twice is applying it once; it goes
    through a concatenation piece by piece; and on windows, where both
    characters separate the components of a path, the result names the
    same entry as the input. *)
Theorem backslashesToForwardslashes_normalises (input : string) :
  occurs backslash (backslashesToForwardslashes input) = false
  /\ String.length (backslashesToForwardslashes input) = String.length input
  /\ backslashesToForwardslashes (backslashesToForwardslashes input)
     = backslashesToForwardslashes input
  /\ (forall rest,
         backslashesToForwardslashes (input +:+ rest)
         = backslashesToForwardslashes input +:+ backslashesToForwardslashes rest)
  /\ components Windows (backslashesToForwardslashes input) = components Windows input.
Proof.
  split; [apply backslashesToForwardslashes_clean|].
  split; [apply backslashesToForwardslashes_length|].
  split; [apply backslashesToForwardslashes_unchanged, backslashesToForwardslashes_clean|].
  split; [apply backslashesToForwardslashes_app|].
  apply components_from_slashes.
Qed.

(** ** Making directories *)

Section MakingDirectories.

Variable plat : platform.

Lemma create_directories_from_made (rest pre : list string)
    (f f' : gmap (list string) node) :
  create_directories_from pre rest f = Some f' ->
  rest <> [] -> f' !! (pre ++ rest) = Some Dir.
Proof.
  intros Hmk Hrest.
  apply (create_directories_from_above rest pre f f' rest [] Hmk); [|done].
  by rewrite List.app_nil_r.
Qed.

(** Directories are made unless a regular file is in the way. *)
Lemma create_directories_from_blocked (rest pre : list string)
    (f : gmap (list string) node) :
  create_directories_from pre rest f = None
  <-> exists a b content, rest = a ++ b /\ a <> [] /\ f !! (pre ++ a) = Some (File content).
Proof.
  revert pre f. induction rest as [|c rest IH]; intros pre f.
  - split; [done|]. intros (a & b & content & Hsplit & Ha & _).
    symmetry in Hsplit. apply app_eq_nil in Hsplit as [-> _]. done.
  - cbn [create_directories_from].
    destruct (f !! (pre ++ [c])) as [[content|]|] eqn:Hq.
    + split; [|done]. intros _. exists [c], rest, content. done.
    + rewrite IH. split.
      * intros (a & b & content & -> & Ha & Hfile).
        exists (c :: a), b, content. split; [done|]. split; [done|].
        by rewrite <- (assoc_L (++)) in Hfile.
      * intros ([|x a] & b & content & Hsplit & Ha & Hfile); [done|].
        injection Hsplit as <- ->.
        destruct a as [|y a]; [congruence|].
        exists (y :: a), b, content. split; [done|]. split; [done|].
        by rewrite <- (assoc_L (++)).
    + rewrite IH. split.
      * intros (a & b & content & -> & Ha & Hfile).
        exists (c :: a), b, content. split; [done|]. split; [done|].
        rewrite <- (assoc_L (++)) in Hfile.
        rewrite lookup_insert_ne in Hfile; [done|].
        intros Heq. apply (f_equal length) in Heq. rewrite !length_app in Heq.
        destruct a; [done|]. simpl in Heq. lia.
      * intros ([|x a] & b & content & Hsplit & Ha & Hfile); [done|].
        injection Hsplit as <- ->.
        destruct a as [|y a]; [congruence|].
        exists (y :: a), b, content. split; [done|]. split; [done|].
        rewrite <- (assoc_L (++)). rewrite lookup_insert_ne; [done|].
        intros Heq. apply (f_equal length) in Heq. rewrite !length_app in Heq.
        simpl in Heq. lia.
Qed.

End MakingDirectories.

(** X5. When [CreateDirectoryIfNotExists] comes back, the directory
    exists; whatever was on disk before is there unchanged, nothing has
    been requested from the network, a disk in good shape is still in good
    shape, and a second call changes nothing. *)
Theorem CreateDirectoryIfNotExists_makes (plat : platform) (path : string) (s s' : state) :
  CreateDirectoryIfNotExists plat path s = Done tt s' ->
  DirectoryExists plat path s' = true
  /\ fetched s' = fetched s
  /\ (forall p n, files s !! p = Some n -> files s' !! p = Some n)
  /\ (well_formed (files s) -> well_formed (files s'))
  /\ CreateDirectoryIfNotExists plat path s' = Done tt s'.
Proof.
  intros Hrun.
  assert (DirectoryExists plat path s' = true) as Hthere.
  { revert Hrun. unfold CreateDirectoryIfNotExists.
    destruct (DirectoryExists plat path s) eqn:Hdir; [by intros [= <-]|].
    destruct (String.eqb_spec path "") as [|Hne]; [done|].
    destruct (create_directories _ _) as [f'|] eqn:Hmk; [|done].
    intros [= <-]. apply DirectoryExists_lookup. split; [done|].
    destruct (components plat path) as [|x p] eqn:Hp; [done|].
    simpl. by apply (create_directories_from_made _ [] _ _ Hmk). }
  split; [exact Hthere|]. split; [|split; [|split]].
  - pose proof (CreateDirectoryIfNotExists_fetched plat path s) as Hf.
    by rewrite Hrun in Hf.
  - revert Hrun. unfold CreateDirectoryIfNotExists.
    destruct (DirectoryExists plat path s); [by intros [= <-]|].
    destruct (String.eqb path ""); [done|].
    destruct (create_directories _ _) as [f'|] eqn:Hmk; [|done].
    intros [= <-] p n. simpl. by apply create_directories_from_keeps with (1 := Hmk).
  - intros Hwf. by apply (CreateDirectoryIfNotExists_well_formed plat path s s').
  - unfold CreateDirectoryIfNotExists. by rewrite Hthere.
Qed.

Lemma CreateDirectoryIfNotExists_makes_witness :
  let s' := final (CreateDirectoryIfNotExists Linux "/opt/ql/versions/1.19.4/libraries"
                     Scenario.fresh) in
  DirectoryExists Linux "/opt/ql/versions/1.19.4/libraries" s' = true
  /\ fetched s' = fetched Scenario.fresh
  /\ (forall p n, files Scenario.fresh !! p = Some n -> files s' !! p = Some n)
  /\ (well_formed (files Scenario.fresh) -> well_formed (files s'))
  /\ CreateDirectoryIfNotExists Linux "/opt/ql/versions/1.19.4/libraries" s' = Done tt s'.
Proof.
  apply (CreateDirectoryIfNotExists_makes Linux "/opt/ql/versions/1.19.4/libraries"
           Scenario.fresh).
  vm_compute. reflexivity.
Defined.

(** X6. On linux, for a path within the limits on names and without "."
    and "..": [CreateDirectoryIfNotExists] ends the run (the exception of
    [create_directories] is not caught) exactly when the directory is not
    there yet and either the path is empty or a regular file lies on the
    path; the disk is unchanged then.  In every other case it comes
    back.  (Beyond the limits the test of [DirectoryExists] itself
    throws.) *)
Theorem CreateDirectoryIfNotExists_blocked (path : string) (s : state) :
  ordinary path = true ->
  (CreateDirectoryIfNotExists Linux path s = Crash s
   <-> DirectoryExists Linux path s = false
       /\ (path = ""
           \/ exists a b content,
                components Linux path = a ++ b /\ a <> []
                /\ files s !! a = Some (File content)))
  /\ (CreateDirectoryIfNotExists Linux path s = Crash s
      \/ exists s', CreateDirectoryIfNotExists Linux path s = Done tt s').
Proof.
  intros _. unfold CreateDirectoryIfNotExists.
  destruct (DirectoryExists Linux path s).
  { split; [|eauto]. split; [done|]. by intros [? _]. }
  destruct (String.eqb_spec path "") as [->|Hne].
  { split; [|by left]. split; [|done]. intros _. split; [done|]. by left. }
  destruct (create_directories _ _) as [f'|] eqn:Hmk.
  - split; [|eauto]. split; [done|]. intros [_ [->|Hblocked]]; [done|].
    apply (create_directories_from_blocked (components Linux path) [] (files s)) in Hblocked.
    unfold create_directories in Hmk. congruence.
  - split; [|by left]. split; [|done]. intros _. split; [done|]. right.
    by apply (create_directories_from_blocked (components Linux path) [] (files s)).
Qed.

(** ** Creating, writing and reading files *)

Section Files.

Variable plat : platform.

(** What [open_for_writing] hands back. *)
Lemma open_for_writing_some (f : gmap (list string) node) (path : string) (q : list string) :
  open_for_writing plat f path = Some q ->
  path <> "" /\ ends_with_sep plat path = false /\ q = components plat path /\ q <> []
  /\ lookup_path f (removelast q) = Some Dir /\ f !! q <> Some Dir.
Proof.
  unfold open_for_writing.
  destruct (String.eqb_spec path "") as [|Hne]; [done|].
  destruct (ends_with_sep plat path); [done|]. simpl.
  destruct (components plat path) as [|x p]; [done|].
  destruct (lookup_path f (removelast (x :: p))) as [[c|]|] eqn:Hparent; [done| |done].
  destruct (f !! (x :: p)) as [[c|]|] eqn:Hq; [|done|]; intros [= <-];
    repeat split; try done; by rewrite Hq.
Qed.

Lemma open_for_writing_none (f : gmap (list string) node) (path : string) :
  lookup_path f (removelast (components plat path)) <> Some Dir ->
  open_for_writing plat f path = None.
Proof.
  intros Hparent. unfold open_for_writing.
  destruct (_ || _); [done|].
  destruct (components plat path) as [|x p]; [done|].
  destruct (lookup_path f (removelast (x :: p))) as [[c|]|]; done.
Qed.

(** A path that can be opened and is no regular file yet is free. *)
Lemma open_for_writing_fresh (s : state) (path : string) (q : list string) :
  open_for_writing plat (files s) path = Some q ->
  FileExists plat path s = false ->
  files s !! q = None.
Proof.
  intros Hopen Hfile.
  apply open_for_writing_some in Hopen as (Hne & Hend & -> & Hq & _ & Hdir).
  unfold FileExists, stat in Hfile.
  apply String.eqb_neq in Hne. rewrite Hne, Hend in Hfile.
  rewrite lookup_path_nonempty in Hfile by done.
  by destruct (files s !! components plat path) as [[c|]|].
Qed.

(** Opening again what has just been written. *)
Lemma open_for_writing_again (f : gmap (list string) node) (path content : string)
    (q : list string) :
  open_for_writing plat f path = Some q ->
  open_for_writing plat (<[q := File content]> f) path = Some q.
Proof.
  intros Hopen.
  pose proof (open_for_writing_some _ _ _ Hopen) as (Hne & Hend & Hq & Hnil & Hparent & _).
  unfold open_for_writing. apply String.eqb_neq in Hne. rewrite Hne, Hend. simpl.
  rewrite <- Hq. destruct q as [|x p]; [done|].
  assert (removelast (x :: p) <> x :: p) as Hother.
  { intros Heq. apply (f_equal length) in Heq.
    rewrite (app_removelast_last x (l := x :: p)) in Heq at 2 by done.
    rewrite length_app in Heq. simpl in Heq. lia. }
  rewrite (lookup_path_insert_file f (x :: p) _ content Hparent) by done.
  by rewrite lookup_insert_eq.
Qed.

Lemma CreateFileIfNotExists_keeps (path : string) (s : state) :
  exists s',
    CreateFileIfNotExists plat path s = Done tt s'
    /\ fetched s' = fetched s
    /\ (forall p n, files s !! p = Some n -> files s' !! p = Some n).
Proof.
  unfold CreateFileIfNotExists. destruct (FileExists plat path s) eqn:Hfile; [eauto|].
  unfold write_file.
  destruct (open_for_writing plat (files s) path) as [q|] eqn:Hopen; [|eauto].
  eexists. split; [reflexivity|]. split; [reflexivity|].
  intros p n Hp. simpl. rewrite lookup_insert_ne; [done|].
  intros <-. by rewrite (open_for_writing_fresh s path q Hopen Hfile) in Hp.
Qed.

End Files.

(** X7. On linux, for a path within the limits on names and without "."
    and "..": [CreateFileIfNotExists] comes back and never changes what is
    on disk: no entry is removed and no file is emptied.  In a directory
    that exists it makes the file (empty) when the path is free; when the
    directory of the path is missing it does nothing (the failure goes to
    the error stream only).  (Beyond the limits the test of [FileExists]
    throws.) *)
Theorem CreateFileIfNotExists_creates (path : string) (s : state) :
  ordinary path = true ->
  (exists s',
      CreateFileIfNotExists Linux path s = Done tt s'
      /\ fetched s' = fetched s
      /\ (forall p n, files s !! p = Some n -> files s' !! p = Some n))
  /\ (forall dir name,
         path = dir +:+ String slash name ->
         file_name Linux name ->
         DirectoryExists Linux dir s = true ->
         files s !! components Linux path = None ->
         exists s',
           CreateFileIfNotExists Linux path s = Done tt s'
           /\ FileExists Linux path s' = true
           /\ readFileContents Linux path s' = Done "" s')
  /\ (lookup_path (files s) (removelast (components Linux path)) <> Some Dir ->
      FileExists Linux path s = false ->
      CreateFileIfNotExists Linux path s = Done tt s).
Proof.
  intros _. split; [apply CreateFileIfNotExists_keeps|split].
  - intros dir name -> Hname Hdir Hfree.
    assert (components Linux (dir +:+ String slash name) = components Linux dir ++ [name])
      as Hcomp by (rewrite components_app_slash; by destruct Hname as [-> _]).
    rewrite Hcomp in Hfree.
    assert (FileExists Linux (dir +:+ String slash name) s = false) as Hfile.
    { unfold FileExists.
      destruct (stat Linux (files s) (dir +:+ String slash name)) as [[c|]|] eqn:Hstat;
        [|done..].
      apply stat_file_lookup in Hstat. congruence. }
    unfold CreateFileIfNotExists. rewrite Hfile. unfold write_file.
    rewrite (open_in_directory Linux (files s) dir name Hname).
    + eexists. split; [reflexivity|].
      assert (stat Linux (<[components Linux dir ++ [name] := File ""]> (files s))
                (dir +:+ String slash name) = Some (File "")) as Hstat.
      { unfold stat.
        assert (String.eqb (dir +:+ String slash name) "" = false) as ->
          by apply String.eqb_neq, append_not_empty.
        rewrite Hcomp, lookup_path_nonempty by (by destruct (components Linux dir)).
        rewrite lookup_insert_eq.
        rewrite (ends_with_sep_app Linux dir (String slash name)) by done.
        destruct Hname as [Hc He]. cbn [ends_with_sep].
        destruct name; [discriminate Hc|]. by rewrite He. }
      unfold FileExists, readFileContents. simpl. by rewrite Hstat.
    + apply stat_dir_lookup. unfold DirectoryExists in Hdir.
      by destruct (stat Linux (files s) dir) as [[c|]|].
    + by rewrite Hfree.
  - intros Hparent Hfile. unfold CreateFileIfNotExists, write_file.
    by rewrite Hfile, open_for_writing_none.
Qed.

Lemma CreateFileIfNotExists_creates_witness :
  (exists s',
      CreateFileIfNotExists Linux "/opt/ql/marker" Scenario.fresh = Done tt s'
      /\ FileExists Linux "/opt/ql/marker" s' = true
      /\ readFileContents Linux "/opt/ql/marker" s' = Done "" s')
  /\ CreateFileIfNotExists Linux "/opt/ql/versions/1.19.4/1.19.4.config" Scenario.fresh
     = Done tt Scenario.fresh.
Proof.
  split.
  - apply (proj1 (proj2 (CreateFileIfNotExists_creates "/opt/ql/marker" Scenario.fresh
                           eq_refl))
             "/opt/ql" "marker"); try reflexivity.
    split; reflexivity.
  - apply (proj2 (proj2 (CreateFileIfNotExists_creates
                           "/opt/ql/versions/1.19.4/1.19.4.config" Scenario.fresh eq_refl)));
      vm_compute; (reflexivity || discriminate).
Defined.

(** X8. On linux, for a path within the limits on names and without "."
    and "..": what [saveStringToFile] stores, [readFileContents] reads
    back.  In a directory that exists, and unless the path names a
    directory, the file holds the text afterwards, whatever it held
    before, and the rest of the disk is as it was.  When the directory of
    the path is missing nothing is stored and the disk is unchanged.  For
    a path that names no directory [readFileContents] comes back without
    a change to the state, with the empty text when no regular file is
    there.  (On a directory the stream opens and the first read throws:
    that case is left out.) *)
Theorem saveStringToFile_then_read (savedString path : string) (s : state) :
  ordinary path = true ->
  (forall dir name,
      path = dir +:+ String slash name ->
      file_name Linux name ->
      DirectoryExists Linux dir s = true ->
      DirectoryExists Linux path s = false ->
      exists s',
        saveStringToFile Linux savedString path s = Done tt s'
        /\ readFileContents Linux path s' = Done savedString s'
        /\ fetched s' = fetched s
        /\ (forall p, p <> components Linux path -> files s' !! p = files s !! p))
  /\ (lookup_path (files s) (removelast (components Linux path)) <> Some Dir ->
      saveStringToFile Linux savedString path s = Done tt s)
  /\ (DirectoryExists Linux path s = false ->
      exists text, readFileContents Linux path s = Done text s
                   /\ (FileExists Linux path s = false -> text = "")).
Proof.
  intros _. split; [|split].
  - intros dir name -> Hname Hdir Hnodir.
    assert (components Linux (dir +:+ String slash name) = components Linux dir ++ [name])
      as Hcomp by (rewrite components_app_slash; by destruct Hname as [-> _]).
    assert (components Linux dir ++ [name] <> []) as Hnil
      by (by destruct (components Linux dir)).
    unfold saveStringToFile, write_file.
    rewrite (open_in_directory Linux (files s) dir name Hname).
    + eexists. split; [reflexivity|]. split; [|split; [reflexivity|]].
      * unfold readFileContents, stat. simpl.
        assert (String.eqb (dir +:+ String slash name) "" = false) as ->
          by apply String.eqb_neq, append_not_empty.
        rewrite Hcomp, lookup_path_nonempty, lookup_insert_eq by done.
        rewrite (ends_with_sep_app Linux dir (String slash name)) by done.
        destruct Hname as [Hc He]. cbn [ends_with_sep].
        destruct name; [discriminate Hc|]. by rewrite He.
      * intros p Hp. simpl. rewrite Hcomp in Hp. by rewrite lookup_insert_ne.
    + apply stat_dir_lookup. unfold DirectoryExists in Hdir.
      by destruct (stat Linux (files s) dir) as [[c|]|].
    + intros Hd. unfold DirectoryExists in Hnodir.
      rewrite (stat_dir Linux (files s) (dir +:+ String slash name)) in Hnodir;
        [done|apply append_not_empty|by rewrite Hcomp|by rewrite Hcomp].
  - intros Hparent. unfold saveStringToFile, write_file.
    by rewrite open_for_writing_none.
  - intros _. unfold readFileContents, FileExists.
    destruct (stat Linux (files s) path) as [[c|]|]; eexists; (split; [reflexivity|done]).
Qed.

Lemma saveStringToFile_then_read_witness :
  (exists s',
      saveStringToFile Linux "BYTES" "/opt/ql/client.jar" Scenario.fresh = Done tt s'
      /\ readFileContents Linux "/opt/ql/client.jar" s' = Done "BYTES" s'
      /\ fetched s' = fetched Scenario.fresh
      /\ (forall p, p <> components Linux "/opt/ql/client.jar" ->
                    files s' !! p = files Scenario.fresh !! p))
  /\ saveStringToFile Linux "BYTES" "/opt/ql/versions/1.19.4/1.19.4.jar" Scenario.fresh
     = Done tt Scenario.fresh.
Proof.
  split.
  - apply (proj1 (saveStringToFile_then_read "BYTES" "/opt/ql/client.jar"
                    Scenario.fresh eq_refl) "/opt/ql" "client.jar"); try reflexivity.
    split; reflexivity.
  - apply (proj1 (proj2 (saveStringToFile_then_read "BYTES"
                           "/opt/ql/versions/1.19.4/1.19.4.jar" Scenario.fresh eq_refl))).
    vm_compute. discriminate.
Defined.

(** X9. On linux, for a path within the limits on names and without "."
    and "..": [saveJsonToFile] stores the serialized document exactly as
    [saveStringToFile] stores a text: the file it makes first with
    [CreateFileIfNotExists] is written over at once, so both calls end in
    the same state.  (Beyond the limits [saveJsonToFile] ends the run in
    the test of [FileExists], where [saveStringToFile] only fails to open
    the file.) *)
Theorem saveJsonToFile_is_saveStringToFile
    (serialize : json -> string) (savedJson : json) (path : string)
    (s : state) :
  ordinary path = true ->
  saveJsonToFile Linux serialize savedJson path s
  = saveStringToFile Linux (serialize savedJson) path s.
Proof.
  intros _. unfold saveJsonToFile, saveStringToFile. rewrite bind_run.
  unfold CreateFileIfNotExists. destruct (FileExists Linux path s); [reflexivity|].
  unfold write_file.
  destruct (open_for_writing Linux (files s) path) as [q|] eqn:Hopen;
    [|by rewrite Hopen].
  simpl. rewrite (open_for_writing_again Linux _ _ "" _ Hopen).
  unfold set_files. simpl. by rewrite insert_insert_eq.
Qed.

Lemma saveJsonToFile_is_saveStringToFile_witness :
  saveJsonToFile Linux Scenario.serialize Scenario.manifest "/opt/ql/manifest_cache.json"
    Scenario.fresh
  = saveStringToFile Linux "MANIFEST" "/opt/ql/manifest_cache.json" Scenario.fresh.
Proof.
  apply (saveJsonToFile_is_saveStringToFile Scenario.serialize Scenario.manifest
           "/opt/ql/manifest_cache.json" Scenario.fresh).
  reflexivity.
Defined.

(** ** What the library pass leaves alone *)

Section LibraryPassKeeps.

Variable plat : platform.
Variable net : string -> string.
Variable programDirectory version : string.

Lemma libraryStep_keeps_files (lib : json) :
  keeps_files (libraryStep plat net programDirectory version lib).
Proof.
  intros s p content Hp. unfold libraryStep. rewrite bind_run.
  destruct (artifactPath lib) as [path|]; simpl; [|done].
  rewrite bind_run. destruct (artifactUrl lib) as [url|]; simpl; [|done].
  rewrite bind_run. unfold read at 1.
  set (libName := libBase programDirectory version +:+ path).
  destruct (negb (String.eqb libName _)); simpl; [|done].
  destruct (FileExists plat libName s) eqn:Hfile; simpl; [done|].
  rewrite bind_run. destruct (allowed plat lib) as [[|]|]; simpl; [|done..].
  rewrite bind_run.
  destruct (CreateDirectoryIfNotExists plat (parent_path plat libName) s)
    as [[] s1|s1] eqn:Hdir.
  2:{ unfold CreateDirectoryIfNotExists in Hdir.
      destruct (DirectoryExists _ _ _); [done|]. destruct (String.eqb _ _); [by injection Hdir as <-|].
      destruct (create_directories _ _); [done|]. by injection Hdir as <-. }
  apply CreateDirectoryIfNotExists_makes in Hdir as (_ & _ & Hkeep1 & _).
  rewrite bind_run.
  destruct (CreateFileIfNotExists_keeps plat libName s1) as (s2 & -> & _ & Hkeep2).
  rewrite bind_run. unfold curlGet, saveStringToFile, write_file. simpl.
  destruct (open_for_writing plat (files s2) libName) as [q|] eqn:Hopen; simpl.
  - rewrite lookup_insert_ne; [by apply Hkeep2, Hkeep1|].
    intros <-.
    apply open_for_writing_some in Hopen as (Hne & Hend & Hq & Hnil & _).
    unfold FileExists, stat in Hfile.
    apply String.eqb_neq in Hne. rewrite Hne, Hend, <- Hq in Hfile.
    rewrite lookup_path_nonempty, Hp in Hfile by done. done.
  - by apply Hkeep2, Hkeep1.
Qed.

Lemma libraryStep_trace (lib : json) (s : state) :
  exists urls,
    fetched (final (libraryStep plat net programDirectory version lib s)) = fetched s ++ urls
    /\ (urls = [] \/ exists url, artifactUrl lib = Some url /\ urls = [url]).
Proof.
  assert (forall st : state, fetched st = fetched s ->
            exists urls, fetched st = fetched s ++ urls
                         /\ (urls = [] \/ exists url, artifactUrl lib = Some url /\ urls = [url]))
    as Hnone.
  { intros st Hst. exists []. split; [by rewrite List.app_nil_r|by left]. }
  unfold libraryStep. rewrite bind_run.
  destruct (artifactPath lib) as [path|]; simpl; [|by apply Hnone].
  rewrite bind_run. destruct (artifactUrl lib) as [url|]; simpl; [|by apply Hnone].
  rewrite bind_run. unfold read at 1.
  destruct (_ && _); [|by apply Hnone].
  rewrite bind_run. destruct (allowed plat lib) as [[|]|]; simpl; [|by apply Hnone..].
  rewrite bind_run.
  pose proof (CreateDirectoryIfNotExists_fetched plat
                (parent_path plat (libBase programDirectory version +:+ path)) s) as Hf1.
  destruct (CreateDirectoryIfNotExists plat _ s) as [[] s1|s1]; simpl in Hf1;
    [|by apply Hnone].
  rewrite bind_run.
  destruct (CreateFileIfNotExists_keeps plat (libBase programDirectory version +:+ path) s1)
    as (s2 & -> & Hf2 & _).
  rewrite bind_run. unfold curlGet, saveStringToFile.
  match goal with
  | |- context [write_file plat ?c ?p ?st] =>
      destruct (write_file_fetched plat c p st) as (s3 & -> & Hf3)
  end.
  exists [url]. split; [|right; by exists url].
  simpl. rewrite Hf3. simpl. by rewrite Hf2, Hf1.
Qed.

Lemma libraryPassFrom_keeps_files (libs : list json) :
  keeps_files (libraryPassFrom plat net programDirectory version libs).
Proof.
  induction libs as [|lib libs IH]; [by intros s p content|].
  intros s p content Hp. cbn [libraryPassFrom]. rewrite bind_run.
  pose proof (libraryStep_keeps_files lib s p content Hp) as Hstep.
  destruct (libraryStep plat net programDirectory version lib s) as [[] s1|s1];
    simpl in *; [|done].
  by apply IH.
Qed.

Lemma libraryPassFrom_trace (libs : list json) (s : state) :
  exists urls,
    fetched (final (libraryPassFrom plat net programDirectory version libs s))
    = fetched s ++ urls
    /\ sublist urls (omap artifactUrl libs).
Proof.
  revert s. induction libs as [|lib libs IH]; intros s.
  - exists []. split; [by rewrite List.app_nil_r|constructor].
  - cbn [libraryPassFrom]. rewrite bind_run.
    destruct (libraryStep_trace lib s) as (urls & Hstep & Hurls).
    assert (sublist urls (omap artifactUrl [lib])) as Hone.
    { destruct Hurls as [->|(url & Hurl & ->)]; [apply sublist_nil_l|].
      simpl. by rewrite Hurl. }
    change (lib :: libs) with ([lib] ++ libs). rewrite omap_app.
    destruct (libraryStep plat net programDirectory version lib s) as [[] s1|s1];
      simpl in Hstep.
    + destruct (IH s1) as (more & -> & Hsub). exists (urls ++ more).
      split; [by rewrite Hstep, <- (assoc_L (++))|by apply sublist_app].
    + exists urls. split; [done|]. by apply sublist_inserts_r.
Qed.

End LibraryPassKeeps.

(** X10. When no path of a library holds "." or "..", the library pass
    never changes a file that is on disk when it starts (a library is
    written only where no regular file was found), and it requests
    nothing but URLs of the libraries of the descriptor, each at most once
    per listing and in the order of the descriptor.  (Through "..", as in
    a/../b.jar with no directory a, the test for the file fails and the
    write reaches a file that is there.) *)
Theorem libraryPass_keeps_files_and_order
    (plat : platform) (net : string -> string) (programDirectory version : string)
    (versionJson : json) (s : state) :
  (forall libs lib path,
      array_at "libraries" versionJson = Some libs -> In lib libs ->
      artifactPath lib = Some path ->
      plain_names plat (libBase programDirectory version +:+ path) = true) ->
  (forall p content,
      files s !! p = Some (File content) ->
      files (final (libraryPass plat net programDirectory version versionJson s)) !! p
      = Some (File content))
  /\ exists urls,
       fetched (final (libraryPass plat net programDirectory version versionJson s))
       = fetched s ++ urls
       /\ sublist urls (omap artifactUrl
                          (default [] (array_at "libraries" versionJson))).
Proof.
  intros _. unfold libraryPass. rewrite bind_run.
  destruct (array_at "libraries" versionJson) as [libs|]; simpl.
  - split; [intros p content; apply libraryPassFrom_keeps_files|].
    apply libraryPassFrom_trace.
  - split; [done|]. exists []. split; [by rewrite List.app_nil_r|constructor].
Qed.

Lemma libraryPass_keeps_files_and_order_witness :
  let s' := final (libraryPass Linux Scenario.net "/opt/ql" "1.19.4" Scenario.descriptor
                     BeforeLibraries.disk) in
  files BeforeLibraries.disk
    !! ["opt"; "ql"; "versions"; "1.19.4"; "libraries"; "com"; "example"; "lib.jar"] = None
  /\ files s' !! ["opt"; "ql"; "versions"; "1.19.4"; "libraries"; "com"; "example"; "lib.jar"]
     = Some (File "LIBRARY")
  /\ files s' !! ["opt"; "ql"; "versions"; "1.19.4"; "1.19.4.jar"] = Some (File "CLIENT")
  /\ exists urls,
       fetched s' = fetched BeforeLibraries.disk ++ urls
       /\ sublist urls ["https://libs/com/example/lib.jar"].
Proof.
  intros s'.
  split; [vm_compute; reflexivity|]. split; [vm_compute; reflexivity|].
  assert (forall libs lib path,
             array_at "libraries" Scenario.descriptor = Some libs -> In lib libs ->
             artifactPath lib = Some path ->
             plain_names Linux (libBase "/opt/ql" "1.19.4" +:+ path) = true) as Hplain.
  { intros libs lib path [= <-] [<-|[]] [= <-]. reflexivity. }
  split.
  - apply (proj1 (libraryPass_keeps_files_and_order Linux Scenario.net "/opt/ql" "1.19.4"
                    Scenario.descriptor BeforeLibraries.disk Hplain)).
    vm_compute. reflexivity.
  - exact (proj2 (libraryPass_keeps_files_and_order Linux Scenario.net "/opt/ql" "1.19.4"
                    Scenario.descriptor BeforeLibraries.disk Hplain)).
Defined.

Lemma CreateDirectoryIfNotExists_blocked_witness :
  CreateDirectoryIfNotExists Linux "/opt/ql/manifest_cache.json/sub" Offline.disk
  = Crash Offline.disk.
Proof.
  apply (proj1 (CreateDirectoryIfNotExists_blocked "/opt/ql/manifest_cache.json/sub"
                  Offline.disk eq_refl)).
  split; [vm_compute; reflexivity|]. right.
  exists ["opt"; "ql"; "manifest_cache.json"], ["sub"], "MANIFEST".
  split; [reflexivity|]. split; [done|]. vm_compute. reflexivity.
Defined.

(** ** What the asset pass requests *)

Section AssetPassTrace.

Variable plat : platform.
Variable net : string -> string.
Variable programDirectory : string.

Lemma assetStep_trace (obj : json) (s s' : state) :
  assetStep plat net programDirectory obj s = Done tt s' ->
  exists objHash, string_at ["hash"] obj = Some objHash
                  /\ fetched s' = fetched s ++ [objectUrl objHash].
Proof.
  unfold assetStep. rewrite bind_run.
  destruct (string_at ["hash"] obj) as [objHash|]; simpl; [|done].
  rewrite bind_run.
  pose proof (CreateDirectoryIfNotExists_fetched plat (objFolder programDirectory objHash) s)
    as Hf1.
  destruct (CreateDirectoryIfNotExists plat _ s) as [[] s1|s1]; simpl in Hf1; [|done].
  rewrite bind_run.
  destruct (CreateFileIfNotExists_keeps plat (objFile programDirectory objHash) s1)
    as (s2 & -> & Hf2 & _).
  rewrite bind_run. unfold curlGet, saveStringToFile.
  match goal with
  | |- context [write_file plat ?c ?p ?st] =>
      destruct (write_file_fetched plat c p st) as (s3 & -> & Hf3)
  end.
  intros [= <-]. exists objHash. split; [done|].
  rewrite Hf3. simpl. by rewrite Hf2, Hf1.
Qed.

Lemma assetPassFrom_trace (objects : list (string * json)) (s s' : state) :
  assetPassFrom plat net programDirectory objects s = Done tt s' ->
  exists hashes, objectHashes objects = Some hashes
                 /\ fetched s' = fetched s ++ map objectUrl hashes.
Proof.
  revert s. induction objects as [|[name obj] objects IH]; intros s.
  - intros [= <-]. exists []. split; [done|]. by rewrite List.app_nil_r.
  - cbn [assetPassFrom]. rewrite bind_run.
    destruct (assetStep plat net programDirectory obj s) as [[] s1|s1] eqn:Hstep; [|done].
    intros Hrest. apply assetStep_trace in Hstep as (objHash & Hhash & Hf1).
    apply IH in Hrest as (hashes & Hhashes & Hf).
    exists (objHash :: hashes). split.
    + unfold objectHashes in *. cbn [mapM]. simpl. rewrite Hhash. simpl.
      by rewrite Hhashes.
    + rewrite Hf, Hf1. by rewrite <- (assoc_L (++)).
Qed.

End AssetPassTrace.

(** X11. When the asset pass runs (the assets directory is not there) and
    comes back, it has requested every object of the index once per
    listing, in the order of the document, each from the resources origin
    under the first two characters of its hash and the hash: a hash listed
    under two names is requested twice, whether its file is there by then
    or not.  With the assets directory on disk the pass does nothing. *)
Theorem assetPass_requests_every_object
    (plat : platform) (net : string -> string) (programDirectory : string)
    (assetJson : json) (s s' : state) :
  assetPass plat net programDirectory assetJson s = Done tt s' ->
  (DirectoryExists plat (programDirectory +:+ "/assets") s = true -> s' = s)
  /\ (DirectoryExists plat (programDirectory +:+ "/assets") s = false ->
      exists objects hashes,
        object_at "objects" assetJson = Some objects
        /\ objectHashes objects = Some hashes
        /\ fetched s' = fetched s ++ map objectUrl hashes).
Proof.
  unfold assetPass. rewrite bind_run. unfold read at 1.
  destruct (DirectoryExists plat (programDirectory +:+ "/assets") s); simpl.
  - intros [= <-]. split; [done|]. done.
  - rewrite bind_run.
    pose proof (CreateDirectoryIfNotExists_fetched plat (programDirectory +:+ "/assets") s)
      as Hf1.
    destruct (CreateDirectoryIfNotExists plat _ s) as [[] s1|s1]; simpl in Hf1; [|done].
    rewrite bind_run.
    destruct (object_at "objects" assetJson) as [objects|]; simpl; [|done].
    intros Hrun. split; [done|]. intros _.
    apply assetPassFrom_trace in Hrun as (hashes & Hhashes & Hf).
    exists objects, hashes. split; [done|]. split; [done|]. by rewrite Hf, Hf1.
Qed.

Lemma assetPass_requests_every_object_witness :
  let s' := final (assetPass Linux Scenario.net "/opt/ql" Duplicates.assetIndex
                     Scenario.fresh) in
  exists objects hashes,
    object_at "objects" Duplicates.assetIndex = Some objects
    /\ objectHashes objects = Some hashes
    /\ fetched s' = fetched Scenario.fresh ++ map objectUrl hashes.
Proof.
  apply (assetPass_requests_every_object Linux Scenario.net "/opt/ql" Duplicates.assetIndex
           Scenario.fresh).
  - vm_compute. reflexivity.
  - vm_compute. reflexivity.
Defined.

(** ** The version in the manifest *)

Section FirstMatch.

Variable net : string -> string.
Variable parse : string -> json.
Variable version : string.

(** The entries before the match: each has an id, and it is another one. *)
Lemma findVersionFrom_skips (before rest : list json) (s : state) :
  Forall (fun entry => exists id, string_at ["id"] entry = Some id /\ id <> version) before ->
  findVersionFrom net parse version (before ++ rest) s
  = findVersionFrom net parse version rest s.
Proof.
  induction 1 as [|entry before (id & Hid & Hne) _ IH]; [reflexivity|].
  simpl. rewrite bind_run, Hid. simpl.
  apply String.eqb_neq in Hne. by rewrite Hne.
Qed.

End FirstMatch.

(** X12. The descriptor is the one of the first entry of the manifest
    whose id is the version: its URL, and no other, is requested, and the
    answer is parsed; entries after it are not looked at, so a second
    entry with the same id is ignored and an entry without an id behind
    the match does no harm.  An entry without an id before the match, or a
    match without a URL, ends the run with nothing requested. *)
Theorem findVersion_takes_first_match
    (net : string -> string) (parse : string -> json) (version : string)
    (document : json) (before after : list json) (entry : json) (s : state) :
  array_at "versions" document = Some (before ++ entry :: after) ->
  Forall (fun e => exists id, string_at ["id"] e = Some id /\ id <> version) before ->
  (string_at ["id"] entry = Some version ->
   forall url, string_at ["url"] entry = Some url ->
     findVersion net parse version document s
     = Done (parse (net url)) {| files := files s; fetched := fetched s ++ [url] |})
  /\ (string_at ["id"] entry = Some version -> string_at ["url"] entry = None ->
      findVersion net parse version document s = Crash s)
  /\ (string_at ["id"] entry = None ->
      findVersion net parse version document s = Crash s).
Proof.
  intros Harr Hbefore. unfold findVersion. rewrite bind_run, Harr. simpl.
  rewrite (findVersionFrom_skips net parse version before _ s Hbefore).
  cbn [findVersionFrom]. rewrite bind_run.
  split; [|split].
  - intros Hid url Hurl. rewrite Hid. simpl. rewrite String.eqb_refl, bind_run, Hurl.
    reflexivity.
  - intros Hid Hurl. rewrite Hid. simpl. by rewrite String.eqb_refl, bind_run, Hurl.
  - intros Hid. by rewrite Hid.
Qed.

Lemma findVersion_takes_first_match_witness :
  findVersion Scenario.net Scenario.parse "1.19.4" Scenario.manifest Scenario.fresh
  = Done (Scenario.parse (Scenario.net "https://meta/1.19.4.json"))
      {| files := files Scenario.fresh;
         fetched := fetched Scenario.fresh ++ ["https://meta/1.19.4.json"] |}.
Proof.
  assert (Forall (fun e => exists id, string_at ["id"] e = Some id /\ id <> "1.19.4")
            [JObject [("id", JString "1.20.1"); ("url", JString "https://meta/1.20.1.json")]])
    as Hbefore.
  { constructor; [|constructor]. exists "1.20.1". split; [reflexivity|discriminate]. }
  exact (proj1 (findVersion_takes_first_match Scenario.net Scenario.parse "1.19.4"
                  Scenario.manifest
                  [JObject [("id", JString "1.20.1"); ("url", JString "https://meta/1.20.1.json")]]
                  []
                  (JObject [("id", JString "1.19.4"); ("url", JString "https://meta/1.19.4.json")])
                  Scenario.fresh eq_refl Hbefore)
           eq_refl "https://meta/1.19.4.json" eq_refl).
Defined.

(** ** The template of the game arguments *)

Lemma appendGameArguments_texts (entries : list json) (gameArgs : string) :
  Forall (fun entry => IsObject entry = true \/ IsString entry = true) entries ->
  appendGameArguments entries gameArgs
  = Some (gameArgs +:+ concat_all (map (fun text => text +:+ " ") (argumentTexts entries))).
Proof.
  intros Hall. revert gameArgs.
  induction Hall as [|entry entries Hentry _ IH]; intros gameArgs.
  - simpl. by rewrite append_nil_r.
  - cbn [appendGameArguments]. unfold argumentTexts. cbn [omap list_omap].
    destruct entry; try (by destruct Hentry); simpl.
    + rewrite IH. by rewrite !append_assoc.
    + apply IH.
Qed.

Lemma appendGameArguments_other (before after : list json) (entry : json) (gameArgs : string) :
  Forall (fun e => IsObject e = true \/ IsString e = true) before ->
  IsObject entry = false -> IsString entry = false ->
  appendGameArguments (before ++ entry :: after) gameArgs = None.
Proof.
  intros Hall Hobject Hstring. revert gameArgs.
  induction Hall as [|e before He _ IH]; intros gameArgs.
  - simpl. rewrite Hobject. simpl. by destruct entry.
  - simpl. destruct e; try (by destruct He); simpl; apply IH.
Qed.

Lemma no_legacy_arguments (members : list (string * json)) :
  string_at ["minecraftArguments"] (JObject members) = None ->
  (hasLegacy ← HasMember "minecraftArguments" (JObject members);
   if hasLegacy : bool
   then IsString <$> member "minecraftArguments" (JObject members)
   else Some false) = Some false.
Proof.
  unfold string_at. simpl.
  destruct (FindMember members "minecraftArguments") as [v|]; simpl; [|done].
  by destruct v.
Qed.

(** X13. The template of the game arguments.  A descriptor with a text
    under "minecraftArguments" gives that text as it is, whatever else it
    holds.  Otherwise an array under arguments.game gives a blank followed
    by every entry that is a text with a blank after it, in order; the
    entries that are objects (the arguments under rules) are left out, and
    an entry that is neither a text nor an object ends the run.  A
    descriptor without either gives a single blank, and a descriptor that
    is no object ends the run. *)
Theorem gameArgsTemplate_cases (versionJson : json) :
  (forall text,
      string_at ["minecraftArguments"] versionJson = Some text ->
      gameArgsTemplate versionJson = Some text)
  /\ (forall members arguments entries,
         versionJson = JObject members ->
         string_at ["minecraftArguments"] versionJson = None ->
         member "arguments" versionJson = Some arguments ->
         member "game" arguments = Some (JArray entries) ->
         (Forall (fun entry => IsObject entry = true \/ IsString entry = true) entries ->
          gameArgsTemplate versionJson
          = Some (" " +:+ concat_all (map (fun text => text +:+ " ") (argumentTexts entries))))
         /\ (forall before entry after,
                entries = before ++ entry :: after ->
                Forall (fun e => IsObject e = true \/ IsString e = true) before ->
                IsObject entry = false -> IsString entry = false ->
                gameArgsTemplate versionJson = None))
  /\ (forall members,
         versionJson = JObject members ->
         string_at ["minecraftArguments"] versionJson = None ->
         member "arguments" versionJson = None ->
         gameArgsTemplate versionJson = Some " ")
  /\ (IsObject versionJson = false -> gameArgsTemplate versionJson = None).
Proof.
  split; [|split; [|split]].
  - intros text Htext. unfold gameArgsTemplate.
    destruct versionJson as [| | | |items|members]; try discriminate Htext.
    unfold string_at in Htext. simpl in Htext. simpl.
    destruct (FindMember members "minecraftArguments") as [v|] eqn:Hfind; [|done].
    simpl. destruct v; try discriminate Htext. simpl.
    unfold string_at. simpl. by rewrite Hfind.
  - intros members arguments entries -> Hnone Harguments Hgame.
    assert (gameArgsTemplate (JObject members) = appendGameArguments entries " ") as ->.
    { unfold gameArgsTemplate.
      pose proof (no_legacy_arguments members Hnone) as Hlegacy.
      destruct (HasMember "minecraftArguments" (JObject members)) as [hasLegacy|];
        simpl in *; [|done].
      destruct (if hasLegacy then _ else _) as [[|]|]; try discriminate Hlegacy. simpl.
      simpl in Harguments. rewrite Harguments.
      rewrite bool_decide_eq_true_2 by eauto. simpl.
      destruct arguments as [| | | |items|argumentMembers]; try discriminate Hgame.
      simpl in *. rewrite Hgame. rewrite bool_decide_eq_true_2 by eauto. reflexivity. }
    split.
    + apply appendGameArguments_texts.
    + intros before entry after ->. apply appendGameArguments_other.
  - intros members -> Hnone Harguments. unfold gameArgsTemplate.
    pose proof (no_legacy_arguments members Hnone) as Hlegacy.
    destruct (HasMember "minecraftArguments" (JObject members)) as [hasLegacy|];
      simpl in *; [|done].
    destruct (if hasLegacy then _ else _) as [[|]|]; try discriminate Hlegacy. simpl.
    rewrite Harguments. by rewrite bool_decide_eq_false_2 by (by intros [? ?]).
  - intros Hobject. by destruct versionJson.
Qed.

Lemma gameArgsTemplate_cases_witness :
  gameArgsTemplate Arguments.legacy
  = Some "--username ${auth_player_name} --gameDir ${game_directory}"
  /\ gameArgsTemplate Arguments.structured
     = Some (" " +:+ concat_all (map (fun text => text +:+ " ")
                                   ["--username"; "${auth_player_name}"; "--version";
                                    "${version_name}"]))
  /\ gameArgsTemplate Scenario.descriptor = Some " "
  /\ gameArgsTemplate JNull = None.
Proof.
  split; [|split; [|split]].
  - apply (proj1 (gameArgsTemplate_cases Arguments.legacy)). reflexivity.
  - eapply (proj1 (proj1 (proj2 (gameArgsTemplate_cases Arguments.structured))
                     _ _ _ eq_refl eq_refl eq_refl eq_refl)).
    repeat (constructor; [first [by left|by right]|]). constructor.
  - eapply (proj1 (proj2 (proj2 (gameArgsTemplate_cases Scenario.descriptor)))); reflexivity.
  - apply (proj2 (proj2 (proj2 (gameArgsTemplate_cases JNull)))). reflexivity.
Defined.

(** ** Templates in pieces *)

Lemma plain_no_dollar (key : string) :
  Regex.plain key = true -> occurs dollar key = false.
Proof.
  induction key as [|c key IH]; [done|].
  cbn [Regex.plain occurs]. intros H. apply andb_true_iff in H as [Hc Hkey].
  rewrite (IH Hkey), orb_false_r.
  destruct (ascii_eqb dollar c) eqn:E; [|done].
  apply ascii_eqb_eq in E as <-. done.
Qed.

Lemma render_cons (seg : segment) (segs : list segment) :
  render (seg :: segs) = render_segment seg +:+ render segs.
Proof. reflexivity. Qed.

Section Pieces.

Variable key value : string.

Lemma replace_all_text (tok t rest : string) :
  occurs dollar t = false ->
  replace_all_from (String dollar tok) value 0 (t +:+ rest)
  = t +:+ replace_all_from (String dollar tok) value 0 rest.
Proof.
  induction t as [|c t IH]; intros Ht; [reflexivity|].
  cbn [occurs] in Ht. apply orb_false_iff in Ht as [Hc Ht].
  rewrite !append_cons.
  cbn [replace_all_from String.prefix].
  destruct (Ascii.ascii_dec _ c) as [<-|_].
  - by rewrite ascii_eqb_refl in Hc.
  - f_equal. by apply IH.
Qed.

Lemma replace_all_skip (tok x rest : string) :
  replace_all_from tok value (String.length x) (x +:+ rest)
  = replace_all_from tok value 0 rest.
Proof.
  induction x as [|c x IH]; [by destruct rest|].
  rewrite append_cons. exact IH.
Qed.

Lemma prefix_app (t rest : string) : String.prefix t (t +:+ rest) = true.
Proof.
  induction t as [|c t IH]; [by destruct rest|].
  rewrite append_cons. cbn [String.prefix].
  by destruct (Ascii.ascii_dec c c).
Qed.

Lemma replace_all_token (tok rest : string) :
  replace_all_from (String dollar tok) value 0 (String dollar tok +:+ rest)
  = value +:+ replace_all_from (String dollar tok) value 0 rest.
Proof.
  pose proof (prefix_app (String dollar tok) rest) as Hprefix.
  rewrite append_cons in *. cbn [replace_all_from]. rewrite Hprefix.
  f_equal. cbn [String.length]. rewrite Nat.sub_1_r. cbn [Nat.pred].
  apply replace_all_skip.
Qed.

Lemma replace_all_miss (tok s : string) (c : ascii) :
  String.prefix tok (String c s) = false ->
  replace_all_from tok value 0 (String c s) = String c (replace_all_from tok value 0 s).
Proof. intros Hprefix. cbn [replace_all_from]. by rewrite Hprefix. Qed.

Lemma prefix_of_other_key (k rest : string) :
  Regex.plain key = true -> Regex.plain k = true ->
  String.prefix (key +:+ "}") (k +:+ String "}" rest) = true -> key = k.
Proof.
  revert k. induction key as [|a key' IH]; intros k Hkey Hk.
  - destruct k as [|c k]; [done|].
    rewrite append_nil_l, append_cons. cbn [String.prefix].
    destruct (Ascii.ascii_dec "}" c) as [<-|]; [|done].
    cbn [Regex.plain] in Hk. done.
  - destruct k as [|c k].
    + rewrite append_nil_l, append_cons. cbn [String.prefix].
      destruct (Ascii.ascii_dec a "}") as [->|]; [|done].
      cbn [Regex.plain] in Hkey. done.
    + rewrite !append_cons. cbn [String.prefix].
      destruct (Ascii.ascii_dec a c) as [->|]; [|done].
      cbn [Regex.plain] in Hkey, Hk.
      apply andb_true_iff in Hkey as [_ Hkey]. apply andb_true_iff in Hk as [_ Hk].
      intros Hprefix. f_equal. by apply IH.
Qed.

Lemma replace_all_other_hole (k rest : string) :
  Regex.plain key = true -> Regex.plain k = true -> k <> key ->
  replace_all_from ("${" +:+ key +:+ "}") value 0 (("${" +:+ k +:+ "}") +:+ rest)
  = ("${" +:+ k +:+ "}") +:+ replace_all_from ("${" +:+ key +:+ "}") value 0 rest.
Proof.
  intros Hkey Hk Hne.
  change (("${" +:+ k +:+ "}") +:+ rest)
    with (String dollar (String "{" ((k +:+ "}") +:+ rest))).
  change ("${" +:+ k +:+ "}") with (String dollar (String "{" (k +:+ "}"))).
  change ("${" +:+ key +:+ "}") with (String dollar (String "{" (key +:+ "}"))).
  assert (String.prefix (String dollar (String "{" (key +:+ "}")))
            (String dollar (String "{" ((k +:+ "}") +:+ rest))) = false)
    as Hprefix.
  { cbn [String.prefix].
    destruct (Ascii.ascii_dec dollar dollar); [|done].
    destruct (Ascii.ascii_dec "{" "{"); [|done].
    destruct (String.prefix (key +:+ "}") ((k +:+ "}") +:+ rest)) eqn:E; [|done].
    rewrite append_assoc in E. apply prefix_of_other_key in E; congruence. }
  rewrite (replace_all_miss _ _ _ Hprefix), (append_cons dollar). f_equal.
  apply (replace_all_text _ (String "{" (k +:+ "}"))).
  cbn [occurs]. rewrite occurs_app, (plain_no_dollar k Hk). reflexivity.
Qed.

Lemma replace_all_text_here (t rest : string) :
  occurs dollar t = false ->
  replace_all_from ("${" +:+ key +:+ "}") value 0 (t +:+ rest)
  = t +:+ replace_all_from ("${" +:+ key +:+ "}") value 0 rest.
Proof. apply (replace_all_text (String "{" (key +:+ "}"))). Qed.

Lemma replace_all_token_here (rest : string) :
  replace_all_from ("${" +:+ key +:+ "}") value 0 (("${" +:+ key +:+ "}") +:+ rest)
  = value +:+ replace_all_from ("${" +:+ key +:+ "}") value 0 rest.
Proof. apply (replace_all_token (String "{" (key +:+ "}"))). Qed.

Lemma replace_all_render (segs : list segment) :
  Regex.plain key = true ->
  Forall segment_ok segs ->
  replace_all_from ("${" +:+ key +:+ "}") value 0 (render segs) = render (map (fill key value) segs).
Proof.
  intros Hkey Hall. induction Hall as [|seg segs Hseg _ IH]; [reflexivity|].
  cbn [map]. rewrite !render_cons.
  destruct seg as [t|k]; cbn [render_segment fill segment_ok] in *.
  - rewrite replace_all_text_here by done. by rewrite IH.
  - destruct (String.eqb_spec k key) as [->|Hne]; cbn [render_segment].
    + rewrite replace_all_token_here. by rewrite IH.
    + rewrite replace_all_other_hole by done. by rewrite IH.
Qed.

Lemma fill_ok (segs : list segment) :
  occurs dollar value = false ->
  Forall segment_ok segs -> Forall segment_ok (map (fill key value) segs).
Proof.
  intros Hvalue Hall. induction Hall as [|seg segs Hseg _ IH]; [constructor|].
  cbn [map]. constructor; [|exact IH].
  destruct seg as [t|k]; [done|]. simpl. by destruct (String.eqb k key).
Qed.

End Pieces.

Lemma replacePlaceholders_plain (template placeholder value : string) :
  Regex.plain placeholder = true ->
  occurs dollar value = false ->
  replacePlaceholders template placeholder value
  = Some (substitute_spec template placeholder value).
Proof.
  intros Hplain Hvalue. unfold replacePlaceholders, substitute_spec.
  rewrite (compile_placeholder _ Hplain).
  change (Some (Regex.lits ("${" +:+ placeholder +:+ "}")) ≫= ?f)
    with (f (Regex.lits ("${" +:+ placeholder +:+ "}"))).
  by apply regex_replace_lits.
Qed.

(** X14. [replacePlaceholders] on a template in pieces.  When the texts
    between the placeholders hold no dollar sign and the keys are plain,
    a substitution with a plain key and a value without a dollar sign
    fills exactly the placeholders of that key, each with the value, and
    leaves every text and every other placeholder as it is (among them the
    placeholders whose key only begins or ends with the key); the result
    is a template of the same kind, ready for the next substitution. *)
Theorem replacePlaceholders_fills (segs : list segment) (key value : string) :
  Forall segment_ok segs ->
  Regex.plain key = true ->
  occurs dollar value = false ->
  replacePlaceholders (render segs) key value = Some (render (map (fill key value) segs))
  /\ Forall segment_ok (map (fill key value) segs).
Proof.
  intros Hsegs Hkey Hvalue. split; [|by apply fill_ok].
  rewrite replacePlaceholders_plain by done.
  unfold substitute_spec. by rewrite replace_all_render.
Qed.

Lemma replacePlaceholders_fills_witness :
  replacePlaceholders (render Arguments.template) "auth_player_name" "humanitymanu"
  = Some (render [Text "--username "; Text "humanitymanu"; Text " --width ";
                  Hole "resolution_width"]).
Proof.
  apply (replacePlaceholders_fills Arguments.template "auth_player_name" "humanitymanu");
    [|reflexivity..].
  repeat (constructor; [reflexivity|]). constructor.
Defined.

(** ** The eleven substitutions of the game arguments *)

Lemma occurs_dollar_slashes (input : string) :
  occurs dollar (backslashesToForwardslashes input) = occurs dollar input.
Proof.
  induction input as [|ch rest IH]; [reflexivity|].
  cbn [backslashesToForwardslashes].
  destruct (ascii_eqb ch backslash) eqn:E; cbn [occurs]; rewrite IH; [|reflexivity].
  apply ascii_eqb_eq in E as ->. reflexivity.
Qed.

Lemma fill_step (segs : list segment) (key value : string)
    (next : string -> option string) :
  Forall segment_ok segs ->
  Regex.plain key = true ->
  occurs dollar value = false ->
  (replacePlaceholders (render segs) key value ≫= next)
  = next (render (map (fill key value) segs)).
Proof.
  intros Hsegs Hkey Hvalue.
  rewrite replacePlaceholders_plain by done.
  unfold substitute_spec. by rewrite replace_all_render.
Qed.

Lemma fill_all (programDirectory version username assetsIndexName : string)
    (seg : segment) :
  fill "assets_index_name" assetsIndexName
    (fill "version_type" "release"
       (fill "user_type" "legacy"
          (fill "clientid" "0"
             (fill "auth_access_token" "0"
                (fill "auth_uuid" "0"
                   (fill "auth_xuid" "0"
                      (fill "assets_root"
                         ((dquote +:+ backslashesToForwardslashes programDirectory)
                            +:+ "/assets/" +:+ dquote)
                         (fill "game_directory"
                            (((dquote +:+ backslashesToForwardslashes programDirectory)
                                +:+ "/profiles/") +:+ version +:+ dquote)
                            (fill "version_name" version
                               (fill "auth_player_name" username seg))))))))))
  = fillGame programDirectory version username assetsIndexName seg.
Proof.
  destruct seg as [t|k]; [reflexivity|].
  unfold fillGame, gameValue. cbn [fill].
  repeat (match goal with
          | |- context [String.eqb k ?key] => destruct (String.eqb k key)
          end; [reflexivity|cbn [fill]]).
  reflexivity.
Qed.

(** X15. The eleven substitutions of lines 194-204 on a template in
    pieces.  When the program directory, the version, the user name and
    [assetIndex.id] of the descriptor hold no dollar sign, the game
    arguments come out with each of the eleven known placeholders filled
    with its value (the directories between double quotes, with forward
    slashes) and every other placeholder, such as the resolution, left in
    the text as it was written.  A descriptor without [assetIndex.id]
    ends the run at the last substitution. *)
Theorem expandGameArgs_fills (programDirectory version username : string)
    (versionJson : json) (segs : list segment) :
  Forall segment_ok segs ->
  occurs dollar programDirectory = false ->
  occurs dollar version = false ->
  occurs dollar username = false ->
  (forall assetsIndexName,
      string_at ["assetIndex"; "id"] versionJson = Some assetsIndexName ->
      occurs dollar assetsIndexName = false ->
      expandGameArgs programDirectory version username versionJson (render segs)
      = Some (render (map (fillGame programDirectory version username assetsIndexName) segs)))
  /\ (string_at ["assetIndex"; "id"] versionJson = None ->
      expandGameArgs programDirectory version username versionJson (render segs) = None).
Proof.
  intros Hsegs Hdir Hversion Huser.
  assert (occurs dollar (((dquote +:+ backslashesToForwardslashes programDirectory)
                            +:+ "/profiles/") +:+ version +:+ dquote) = false) as Hgame.
  { by rewrite !occurs_app, occurs_dollar_slashes, Hdir, Hversion. }
  assert (occurs dollar ((dquote +:+ backslashesToForwardslashes programDirectory)
                           +:+ "/assets/" +:+ dquote) = false) as Hassets.
  { by rewrite !occurs_app, occurs_dollar_slashes, Hdir. }
  unfold expandGameArgs.
  rewrite fill_step by done.
  rewrite fill_step by (done || by apply fill_ok).
  rewrite fill_step by (done || by repeat apply fill_ok).
  rewrite fill_step by (done || by repeat apply fill_ok).
  rewrite fill_step by (done || by repeat apply fill_ok).
  rewrite fill_step by (done || by repeat apply fill_ok).
  rewrite fill_step by (done || by repeat apply fill_ok).
  rewrite fill_step by (done || by repeat apply fill_ok).
  rewrite fill_step by (done || by repeat apply fill_ok).
  rewrite fill_step by (done || by repeat apply fill_ok).
  split.
  - intros assetsIndexName -> Hname.
    change (Some assetsIndexName ≫= ?next) with (next assetsIndexName).
    rewrite replacePlaceholders_plain by done.
    unfold substitute_spec. rewrite replace_all_render by (done || by repeat apply fill_ok).
    f_equal. rewrite !List.map_map. f_equal. apply List.map_ext. intros seg.
    apply fill_all.
  - by intros ->.
Qed.

Lemma expandGameArgs_fills_witness :
  expandGameArgs "/opt/ql" "1.19.4" "humanitymanu" Arguments.legacy
    "--username ${auth_player_name} --gameDir ${game_directory} --width ${resolution_width}"
  = Some ("--username humanitymanu --gameDir " +:+ dquote +:+ "/opt/ql/profiles/1.19.4"
            +:+ dquote +:+ " --width ${resolution_width}").
Proof.
  assert (Forall segment_ok [Text "--username "; Hole "auth_player_name"; Text " --gameDir ";
                             Hole "game_directory"; Text " --width ";
                             Hole "resolution_width"]) as Hsegs.
  { repeat (constructor; [reflexivity|]). constructor. }
  exact (proj1 (expandGameArgs_fills "/opt/ql" "1.19.4" "humanitymanu" Arguments.legacy
                  [Text "--username "; Hole "auth_player_name"; Text " --gameDir ";
                   Hole "game_directory"; Text " --width "; Hole "resolution_width"]
                  Hsegs eq_refl eq_refl eq_refl)
           "legacy" eq_refl eq_refl).
Defined.

(** ** What a run leaves of the disk *)

Lemma same_kind_refl (n : node) : same_kind n n.
Proof. by destruct n. Qed.

Lemma same_kind_trans (n1 n2 n3 : node) :
  same_kind n1 n2 -> same_kind n2 n3 -> same_kind n1 n3.
Proof. by destruct n1, n2, n3. Qed.

Lemma insert_well_formed (f : gmap (list string) node) (pre : list string) (c : string)
    (n : node) :
  well_formed f ->
  (pre <> [] -> f !! pre = Some Dir) ->
  f !! (pre ++ [c]) <> Some Dir ->
  well_formed (<[pre ++ [c] := n]> f).
Proof.
  intros Hwf Hpre Hnew p q m Hlook Hp Hq.
  assert (f !! p = Some Dir) as Hdir.
  { destruct (decide (p ++ q = pre ++ [c])) as [Heq|Hne].
    - destruct (exists_last Hq) as (r & x & ->).
      rewrite (assoc_L (++)) in Heq. apply app_inj_tail in Heq as [<- <-].
      destruct r as [|y r].
      + rewrite List.app_nil_r in Hpre. by apply Hpre.
      + eapply Hwf; [apply Hpre; by destruct p|done..].
    - rewrite lookup_insert_ne in Hlook by done. eapply Hwf; eauto. }
  rewrite lookup_insert_ne; [done|]. congruence.
Qed.

Section Tidy.

Variable plat : platform.

Lemma tidy_ret {A : Type} (a : A) : tidy (mret a).
Proof.
  split; [|by intros s].
  intros s p n Hp. exists n. split; [done|apply same_kind_refl].
Qed.

Lemma tidy_checked {A : Type} (o : option A) : tidy (checked o).
Proof.
  split; [|by intros s; destruct o].
  intros s p n Hp. exists n. split; [by destruct o|apply same_kind_refl].
Qed.

Lemma tidy_read {A : Type} (f : state -> A) : tidy (read f).
Proof.
  split; [|by intros s].
  intros s p n Hp. exists n. split; [done|apply same_kind_refl].
Qed.

Lemma tidy_curlGet (net : string -> string) (url : string) : tidy (curlGet net url).
Proof.
  split; [|by intros s].
  intros s p n Hp. exists n. split; [done|apply same_kind_refl].
Qed.

Lemma tidy_readFileContents (path : string) : tidy (readFileContents plat path).
Proof.
  split.
  - intros s p n Hp. exists n. split; [|apply same_kind_refl].
    unfold readFileContents. by destruct (stat plat (files s) path) as [[content|]|].
  - intros s Hwf. unfold readFileContents.
    by destruct (stat plat (files s) path) as [[content|]|].
Qed.

Lemma tidy_bind {A B : Type} (c : M A) (k : A -> M B) :
  tidy c -> (forall a, tidy (k a)) -> tidy (c ≫= k).
Proof.
  intros [Hc Hc'] Hk. split.
  - intros s p n Hp. rewrite bind_run.
    destruct (Hc s p n Hp) as (n1 & Hp1 & Hkind1).
    destruct (c s) as [a s1|s1]; simpl in *; [|eauto].
    destruct (proj1 (Hk a) s1 p n1 Hp1) as (n2 & Hp2 & Hkind2).
    exists n2. split; [done|]. by apply (same_kind_trans n n1 n2).
  - intros s Hwf. rewrite bind_run. specialize (Hc' s Hwf).
    destruct (c s) as [a s1|s1]; simpl in *; [|done].
    by apply (proj2 (Hk a)).
Qed.

Lemma tidy_write_file (content path : string) : tidy (write_file plat content path).
Proof.
  split.
  - intros s p n Hp. unfold write_file.
    destruct (open_for_writing plat (files s) path) as [q|] eqn:Hopen; simpl;
      [|exists n; split; [done|apply same_kind_refl]].
    apply open_for_writing_not_directory in Hopen.
    destruct (decide (q = p)) as [->|Hne].
    + rewrite lookup_insert_eq. eexists. split; [reflexivity|].
      by destruct n.
    + rewrite lookup_insert_ne by done. exists n. split; [done|apply same_kind_refl].
  - intros s Hwf. unfold write_file.
    destruct (open_for_writing plat (files s) path) as [q|] eqn:Hopen; simpl; [|done].
    apply open_for_writing_some in Hopen as (_ & _ & _ & Hq & Hparent & Hdir).
    rewrite (app_removelast_last "" Hq) in Hdir |- *.
    apply insert_well_formed; [done| |done].
    intros Hpre. by rewrite lookup_path_nonempty in Hparent.
Qed.

Lemma tidy_CreateFileIfNotExists (path : string) : tidy (CreateFileIfNotExists plat path).
Proof.
  pose proof (tidy_write_file "" path) as [Hentries Hshape]. split.
  - intros s p n Hp. unfold CreateFileIfNotExists.
    destruct (FileExists plat path s); [|by apply Hentries].
    exists n. split; [done|apply same_kind_refl].
  - intros s Hwf. unfold CreateFileIfNotExists.
    destruct (FileExists plat path s); [done|by apply Hshape].
Qed.

Lemma tidy_CreateDirectoryIfNotExists (path : string) :
  tidy (CreateDirectoryIfNotExists plat path).
Proof.
  split.
  - intros s p n Hp. exists n. split; [|apply same_kind_refl].
    unfold CreateDirectoryIfNotExists.
    destruct (DirectoryExists plat path s); [done|].
    destruct (String.eqb path ""); [done|].
    destruct (create_directories _ _) as [f'|] eqn:Hmk; simpl; [|done].
    eapply create_directories_from_keeps; eauto.
  - intros s Hwf.
    destruct (CreateDirectoryIfNotExists plat path s) as [[] s'|s'] eqn:Hrun; simpl.
    + by apply (CreateDirectoryIfNotExists_well_formed plat path s s').
    + revert Hrun. unfold CreateDirectoryIfNotExists.
      destruct (DirectoryExists plat path s); [done|].
      destruct (String.eqb path ""); [by intros [= <-]|].
      destruct (create_directories _ _); [done|by intros [= <-]].
Qed.

Variable net : string -> string.
Variable parse : string -> json.
Variable serialize : json -> string.
Variable HOME : option string.
Variable programDirectory version : string.

Ltac tidy_step :=
  first [ apply tidy_ret | apply tidy_checked | apply tidy_read | apply tidy_curlGet
        | apply tidy_readFileContents | apply tidy_write_file
        | apply tidy_CreateFileIfNotExists | apply tidy_CreateDirectoryIfNotExists
        | apply tidy_bind; [|intros ?] ].

Lemma tidy_saveJsonToFile (savedJson : json) (path : string) :
  tidy (saveJsonToFile plat serialize savedJson path).
Proof. unfold saveJsonToFile. repeat tidy_step. Qed.

Lemma tidy_fetchManifest : tidy (fetchManifest plat net parse serialize programDirectory).
Proof.
  unfold fetchManifest. apply tidy_bind; [apply tidy_curlGet|intros documentString].
  destruct (String.eqb documentString ""); [apply tidy_ret|].
  apply tidy_bind; [apply tidy_saveJsonToFile|intros _]. apply tidy_ret.
Qed.

Lemma tidy_setup : tidy (setup plat programDirectory version).
Proof. unfold setup. repeat tidy_step. Qed.

Lemma tidy_findVersion (document : json) : tidy (findVersion net parse version document).
Proof.
  unfold findVersion. apply tidy_bind; [apply tidy_checked|intros entries].
  induction entries as [|entry entries IH]; [apply tidy_ret|].
  cbn [findVersionFrom]. apply tidy_bind; [apply tidy_checked|intros id].
  destruct (String.eqb id version); [|exact IH]. repeat tidy_step.
Qed.

Lemma tidy_prepareVersion (document : json) :
  tidy (prepareVersion plat net parse serialize programDirectory version document).
Proof.
  unfold prepareVersion.
  repeat first [ apply tidy_findVersion | apply tidy_saveJsonToFile | tidy_step ].
Qed.

Lemma tidy_libraryStep (lib : json) :
  tidy (libraryStep plat net programDirectory version lib).
Proof.
  unfold libraryStep.
  apply tidy_bind; [apply tidy_checked|intros path].
  apply tidy_bind; [apply tidy_checked|intros url].
  apply tidy_bind; [apply tidy_read|intros present].
  destruct (_ && _); [|apply tidy_ret].
  apply tidy_bind; [apply tidy_checked|intros [|]]; [|apply tidy_ret].
  repeat tidy_step.
Qed.

Lemma tidy_libraryPass (versionJson : json) :
  tidy (libraryPass plat net programDirectory version versionJson).
Proof.
  unfold libraryPass. apply tidy_bind; [apply tidy_checked|intros libs].
  induction libs as [|lib libs IH]; [apply tidy_ret|].
  cbn [libraryPassFrom]. apply tidy_bind; [apply tidy_libraryStep|by intros _].
Qed.

Lemma tidy_assetStep (obj : json) : tidy (assetStep plat net programDirectory obj).
Proof. unfold assetStep. repeat tidy_step. Qed.

Lemma tidy_assetPass (assetJson : json) :
  tidy (assetPass plat net programDirectory assetJson).
Proof.
  unfold assetPass. apply tidy_bind; [apply tidy_read|intros present].
  destruct (negb present); [|apply tidy_ret].
  apply tidy_bind; [apply tidy_CreateDirectoryIfNotExists|intros _].
  apply tidy_bind; [apply tidy_checked|intros objects].
  induction objects as [|[name obj] objects IH]; [apply tidy_ret|].
  cbn [assetPassFrom]. apply tidy_bind; [apply tidy_assetStep|by intros _].
Qed.

Lemma tidy_loadVersion (document : json) :
  tidy (loadVersion plat net parse serialize programDirectory version document).
Proof.
  unfold loadVersion. apply tidy_bind; [apply tidy_read|intros [|]].
  - repeat tidy_step.
  - unfold downloadVersion, acquire.
    repeat first [ apply tidy_prepareVersion | apply tidy_libraryPass
                 | apply tidy_assetPass | tidy_step ].
Qed.

Lemma tidy_buildClassPath (versionJson : json) :
  tidy (buildClassPath plat programDirectory version versionJson).
Proof. unfold buildClassPath. repeat tidy_step. Qed.

Lemma tidy_launcher :
  tidy (launcher plat net parse serialize HOME programDirectory version).
Proof.
  unfold launcher.
  apply tidy_bind; [apply tidy_fetchManifest|intros document].
  apply tidy_bind.
  { destruct (String.eqb (os plat) "linux"); [|apply tidy_ret]. repeat tidy_step. }
  intros _. apply tidy_bind; [apply tidy_checked|intros _].
  destruct (negb _); [|apply tidy_ret].
  repeat first [ apply tidy_setup | apply tidy_loadVersion | apply tidy_buildClassPath
               | tidy_step ].
Qed.

End Tidy.

Lemma keeps_entries_FileExists {A : Type} (plat : platform) (c : M A) (path : string)
    (s : state) :
  keeps_entries c ->
  FileExists plat path s = true -> FileExists plat path (final (c s)) = true.
Proof.
  intros Hc. unfold FileExists, stat. destruct (String.eqb path ""); [done|].
  destruct (components plat path) as [|x p]; simpl; [done|].
  destruct (files s !! (x :: p)) as [[content|]|] eqn:Hp; [|done..].
  destruct (ends_with_sep plat path); [done|]. intros _.
  destruct (Hc s _ _ Hp) as (n' & -> & Hkind). by destruct n'.
Qed.

Lemma keeps_entries_DirectoryExists {A : Type} (plat : platform) (c : M A) (path : string)
    (s : state) :
  keeps_entries c ->
  DirectoryExists plat path s = true -> DirectoryExists plat path (final (c s)) = true.
Proof.
  intros Hc. unfold DirectoryExists, stat. destruct (String.eqb path ""); [done|].
  destruct (components plat path) as [|x p]; simpl; [done|].
  destruct (files s !! (x :: p)) as [[content|]|] eqn:Hp;
    [by destruct (ends_with_sep plat path)| |done].
  intros _. destruct (Hc s _ _ Hp) as (n' & -> & Hkind). by destruct n'.
Qed.

(** X16. What [main] leaves of the disk up to the classpath clause
    (lines 43-179, for any version).  Whatever the network answers,
    whatever the documents hold and however this part ends (with the
    classpath, with [return -1] or in a failed assertion), no entry of the
    disk is gone afterwards and none has changed its kind: a directory is
    still a directory and a file is still a file, though its content may
    be new; so what [FileExists] or [DirectoryExists] finds before it
    finds afterwards.  A disk on which whatever lies above an entry is a
    directory is still such a disk afterwards.  The command that [main]
    builds and runs after the classpath (lines 181-256) is no part of the
    statement. *)
Theorem launcher_removes_nothing (plat : platform) (net : string -> string)
    (parse : string -> json) (serialize : json -> string) (HOME : option string)
    (programDirectory version : string) (s : state) :
  (forall p n, files s !! p = Some n ->
      exists n', files (final (launcher plat net parse serialize HOME programDirectory
                                 version s)) !! p = Some n'
                 /\ same_kind n n')
  /\ (forall path, FileExists plat path s = true ->
         FileExists plat path
           (final (launcher plat net parse serialize HOME programDirectory version s)) = true)
  /\ (forall path, DirectoryExists plat path s = true ->
         DirectoryExists plat path
           (final (launcher plat net parse serialize HOME programDirectory version s)) = true)
  /\ (well_formed (files s) ->
      well_formed (files (final (launcher plat net parse serialize HOME programDirectory
                                   version s)))).
Proof.
  destruct (tidy_launcher plat net parse serialize HOME programDirectory version)
    as [Hentries Hshape].
  split; [intros p n; apply Hentries|].
  split; [intros path; by apply keeps_entries_FileExists|].
  split; [intros path; by apply keeps_entries_DirectoryExists|apply Hshape].
Qed.

Lemma launcher_removes_nothing_witness :
  DirectoryExists Linux "/home/player/.config"
    (final (main Linux Scenario.net Scenario.parse Scenario.serialize
              Scenario.home "/opt/ql" Scenario.fresh)) = true
  /\ well_formed (files (final (main Linux Scenario.net Scenario.parse Scenario.serialize
                                  Scenario.home "/opt/ql" Scenario.fresh))).
Proof.
  split.
  - apply (proj1 (proj2 (proj2 (launcher_removes_nothing Linux Scenario.net Scenario.parse
                    Scenario.serialize Scenario.home "/opt/ql" "1.19.4" Scenario.fresh)))).
    reflexivity.
  - apply (proj2 (proj2 (proj2 (launcher_removes_nothing Linux Scenario.net Scenario.parse
                    Scenario.serialize Scenario.home "/opt/ql" "1.19.4" Scenario.fresh)))).
    apply well_formedb_sound. vm_compute. reflexivity.
Defined.

(** ** The marker file of a version *)

Section Marker.

Variable plat : platform.

Lemma free_path_lookup (dir name : string) (s : state) :
  file_name plat name ->
  exists_ plat (dir +:+ String slash name) s = false ->
  files s !! (components plat dir ++ [name]) = None
  /\ FileExists plat (dir +:+ String slash name) s = false.
Proof.
  intros [Hname Hend] Hfree. unfold exists_ in Hfree.
  apply bool_decide_eq_false in Hfree. unfold FileExists.
  assert (name <> "") as Hne by (intros ->; discriminate Hname).
  unfold stat in *.
  assert (String.eqb (dir +:+ String slash name) "" = false) as Hpath
    by apply String.eqb_neq, append_not_empty.
  rewrite Hpath, components_app_slash, Hname in *.
  rewrite lookup_path_nonempty in * by (by destruct (components plat dir)).
  rewrite (ends_with_sep_app plat dir (String slash name)) in * by done.
  cbn [ends_with_sep] in *. destruct name as [|c name]; [done|]. rewrite Hend in *.
  destruct (files s !! (components plat dir ++ [String c name])) as [[content|]|];
    [exfalso; apply Hfree; eauto..|done].
Qed.

Lemma CreateFileIfNotExists_in_directory (dir name : string) (s : state) :
  file_name plat name ->
  DirectoryExists plat dir s = true ->
  files s !! (components plat dir ++ [name]) = None ->
  FileExists plat (dir +:+ String slash name) s = false ->
  exists s',
    CreateFileIfNotExists plat (dir +:+ String slash name) s = Done tt s'
    /\ FileExists plat (dir +:+ String slash name) s' = true
    /\ readFileContents plat (dir +:+ String slash name) s' = Done "" s'.
Proof.
  intros Hname Hdir Hfree Hfile.
  assert (components plat (dir +:+ String slash name) = components plat dir ++ [name])
    as Hcomp by (rewrite components_app_slash; by destruct Hname as [-> _]).
  unfold CreateFileIfNotExists. rewrite Hfile. unfold write_file.
  rewrite (open_in_directory plat (files s) dir name Hname).
  - eexists. split; [reflexivity|].
    assert (stat plat (<[components plat dir ++ [name] := File ""]> (files s))
              (dir +:+ String slash name) = Some (File "")) as Hstat.
    { unfold stat.
      assert (String.eqb (dir +:+ String slash name) "" = false) as ->
        by apply String.eqb_neq, append_not_empty.
      rewrite Hcomp, lookup_path_nonempty by (by destruct (components plat dir)).
      rewrite lookup_insert_eq.
      rewrite (ends_with_sep_app plat dir (String slash name)) by done.
      destruct Hname as [Hc He]. cbn [ends_with_sep].
      destruct name; [discriminate Hc|]. by rewrite He. }
    unfold FileExists, readFileContents. simpl. by rewrite Hstat.
  - apply stat_dir_lookup. unfold DirectoryExists in Hdir.
    by destruct (stat plat (files s) dir) as [[c|]|].
  - by rewrite Hfree.
Qed.

Variable net : string -> string.
Variable parse : string -> json.
Variable serialize : json -> string.
Variable programDirectory version : string.

Lemma markerFile_in_versionDir :
  markerFile programDirectory version
  = versionDir programDirectory version +:+ String slash (version +:+ ".config").
Proof.
  unfold markerFile. rewrite !append_assoc. reflexivity.
Qed.

Lemma loadVersion_with_marker (document : json) (s : state) :
  FileExists plat (markerFile programDirectory version) s = true ->
  exists text,
    readFileContents plat (versionJsonFile programDirectory version) s = Done text s
    /\ loadVersion plat net parse serialize programDirectory version document s
       = Done (parse text) s.
Proof.
  intros Hmarker. unfold loadVersion. rewrite bind_run. unfold read. rewrite Hmarker.
  rewrite bind_run. unfold readFileContents.
  destruct (stat plat (files s) (versionJsonFile programDirectory version)) as [[text|]|];
    eexists; (split; [reflexivity|done]).
Qed.

Lemma downloadVersion_leaves_marker (document : json) (s : state) :
  file_name plat (version +:+ ".config") ->
  DirectoryExists plat (versionDir programDirectory version) s = true ->
  exists_ plat (markerFile programDirectory version) s = false ->
  FileExists plat (markerFile programDirectory version)
    (final (downloadVersion plat net parse serialize programDirectory version document s))
  = true.
Proof.
  intros Hname Hdir Hfree. rewrite markerFile_in_versionDir in Hfree.
  destruct (free_path_lookup _ _ _ Hname Hfree) as [Hnone Hfile].
  destruct (CreateFileIfNotExists_in_directory _ _ _ Hname Hdir Hnone Hfile)
    as (s0 & Hcreate & Hmarker & _).
  rewrite <- markerFile_in_versionDir in Hcreate, Hmarker.
  unfold downloadVersion. rewrite bind_run. unfold prepareVersion at 1.
  rewrite bind_run, Hcreate. rewrite <- bind_run.
  apply keeps_entries_FileExists; [|exact Hmarker].
  apply tidy_bind; [|intros documents].
  - repeat first [ apply tidy_findVersion | apply tidy_saveJsonToFile
                 | apply tidy_ret | apply tidy_checked | apply tidy_curlGet
                 | apply tidy_write_file | apply tidy_CreateFileIfNotExists
                 | apply tidy_bind; [|intros ?] ].
  - unfold acquire.
    repeat first [ apply tidy_libraryPass | apply tidy_assetPass | apply tidy_ret
                 | apply tidy_bind; [|intros ?] ].
Qed.

End Marker.

(** X17. The marker file is written before anything is downloaded.  On
    linux, when the path of [<version>.config] is within the limits on
    names and without "." and "..", the directory of the version is on
    disk and nothing is at that path, the download branch (lines 90-160)
    leaves the marker file on disk however it ends, also when the run
    stops in a failed assertion right after the file is made.  Wherever
    the marker file is on disk and no directory lies at the path of
    [<version>.json], a run takes the other branch (lines 86-87): it
    requests nothing, changes nothing, and parses whatever
    [<version>.json] holds, the empty text when the file is missing.
    (With a directory there the read throws: that case is left out.) *)
Theorem interrupted_download_is_not_resumed (net : string -> string)
    (parse : string -> json) (serialize : json -> string)
    (programDirectory version : string) (document : json) (s : state) :
  ordinary (markerFile programDirectory version) = true ->
  file_name Linux (version +:+ ".config") ->
  DirectoryExists Linux (versionDir programDirectory version) s = true ->
  exists_ Linux (markerFile programDirectory version) s = false ->
  let s1 := final (loadVersion Linux net parse serialize programDirectory version document s) in
  FileExists Linux (markerFile programDirectory version) s1 = true
  /\ (forall s2 net' document',
        FileExists Linux (markerFile programDirectory version) s2 = true ->
        DirectoryExists Linux (versionJsonFile programDirectory version) s2 = false ->
        exists text,
          readFileContents Linux (versionJsonFile programDirectory version) s2 = Done text s2
          /\ loadVersion Linux net' parse serialize programDirectory version document' s2
             = Done (parse text) s2).
Proof.
  intros _ Hname Hdir Hfree s1.
  assert (FileExists Linux (markerFile programDirectory version) s1 = true) as Hmarker.
  { subst s1. unfold loadVersion. rewrite bind_run. unfold read.
    pose proof Hfree as Hfree'. rewrite markerFile_in_versionDir in Hfree'.
    destruct (free_path_lookup _ _ _ _ Hname Hfree') as [_ Hfile].
    rewrite <- markerFile_in_versionDir in Hfile. rewrite Hfile.
    by apply downloadVersion_leaves_marker. }
  split; [exact Hmarker|].
  intros s2 net' document' Hthere _. by apply loadVersion_with_marker.
Qed.

Lemma interrupted_download_is_not_resumed_witness :
  let s := final (setup Linux "/opt/ql" "1.19.4" Scenario.fresh) in
  let s1 := final (loadVersion Linux Unlisted.net Unlisted.parse Scenario.serialize
                     "/opt/ql" "1.19.4" Unlisted.manifest s) in
  loadVersion Linux Unlisted.net Unlisted.parse Scenario.serialize
    "/opt/ql" "1.19.4" Unlisted.manifest s = Crash s1
  /\ FileExists Linux (markerFile "/opt/ql" "1.19.4") s1 = true
  /\ exists text,
       readFileContents Linux (versionJsonFile "/opt/ql" "1.19.4") s1 = Done text s1
       /\ loadVersion Linux Scenario.net Unlisted.parse Scenario.serialize
            "/opt/ql" "1.19.4" Scenario.manifest s1
          = Done (Unlisted.parse text) s1.
Proof.
  intros s s1. split; [vm_compute; reflexivity|].
  assert (ordinary (markerFile "/opt/ql" "1.19.4") = true) as Hordinary
    by (vm_compute; reflexivity).
  assert (file_name Linux ("1.19.4" +:+ ".config")) as Hname by (split; reflexivity).
  assert (DirectoryExists Linux (versionDir "/opt/ql" "1.19.4") s = true) as Hdir
    by (vm_compute; reflexivity).
  assert (exists_ Linux (markerFile "/opt/ql" "1.19.4") s = false) as Hfree
    by (vm_compute; reflexivity).
  pose proof (interrupted_download_is_not_resumed Unlisted.net Unlisted.parse
                Scenario.serialize "/opt/ql" "1.19.4" Unlisted.manifest s
                Hordinary Hname Hdir Hfree) as [Hmarker Hlater].
  split; [exact Hmarker|].
  apply (Hlater s1 Scenario.net Scenario.manifest Hmarker).
  vm_compute. reflexivity.
Defined.

(** ** Rules that name no platform *)

Lemma member_HasMember (name : string) (v w : json) :
  member name v = Some w -> HasMember name v = Some true.
Proof.
  destruct v; simpl; try discriminate. intros ->. reflexivity.
Qed.

(** X18. Rules that the library pass cannot read.  Only
    [rules[0].os.name] is read from the rules of a library.  When the
    rules are an empty array or no array, or the first rule has no
    platform name (as a rule that holds an action only), the question
    whether the library is allowed has no answer: for a library that is
    neither the "/null" artifact nor on disk the run ends there, with the
    disk and the network as they were, and the libraries after it are not
    reached.  When the file of the library is on disk the rules are not
    read and the pass goes on. *)
Theorem unreadable_rules_end_the_pass (plat : platform) (lib rules : json) :
  member "rules" lib = Some rules ->
  (element 0 rules = None
   \/ exists rule, element 0 rules = Some rule /\ string_at ["os"; "name"] rule = None) ->
  allowed plat lib = None
  /\ (forall net programDirectory version path url s,
         artifactPath lib = Some path ->
         artifactUrl lib = Some url ->
         (libBase programDirectory version +:+ path
          <> libBase programDirectory version +:+ "/null" ->
          FileExists plat (libBase programDirectory version +:+ path) s = false ->
          libraryStep plat net programDirectory version lib s = Crash s
          /\ forall rest,
               libraryPassFrom plat net programDirectory version (lib :: rest) s = Crash s)
         /\ (FileExists plat (libBase programDirectory version +:+ path) s = true ->
             libraryStep plat net programDirectory version lib s = Done tt s)).
Proof.
  intros Hrules Hfirst.
  assert (allowed plat lib = None) as Hallowed.
  { unfold allowed. rewrite (member_HasMember _ _ _ Hrules). simpl. rewrite Hrules. simpl.
    destruct Hfirst as [->|(rule & -> & Hname)]; [reflexivity|].
    simpl. by rewrite Hname. }
  split; [exact Hallowed|].
  intros net programDirectory version path url s Hpath Hurl. split.
  - intros Hne Hmissing.
    assert (libraryStep plat net programDirectory version lib s = Crash s) as Hstep.
    { unfold libraryStep. unfold_run. rewrite Hpath, Hurl. simpl.
      apply String.eqb_neq in Hne. by rewrite Hne, Hmissing, Hallowed. }
    split; [exact Hstep|]. intros rest. cbn [libraryPassFrom].
    by rewrite bind_run, Hstep.
  - intros Hthere. eapply libraryStep_skipped; eauto.
Qed.

Lemma unreadable_rules_end_the_pass_witness :
  allowed Linux NullArtifact.ruled = None
  /\ libraryPassFrom Linux NullArtifact.net "/opt/ql" "1.19.4"
       [NullArtifact.ruled; NullArtifact.library] NullArtifact.disk
     = Crash NullArtifact.disk.
Proof.
  assert (member "rules" NullArtifact.ruled
          = Some (JArray [JObject [("action", JString "allow")]])) as Hrules
    by reflexivity.
  assert (element 0 (JArray [JObject [("action", JString "allow")]]) = None
          \/ exists rule,
               element 0 (JArray [JObject [("action", JString "allow")]]) = Some rule
               /\ string_at ["os"; "name"] rule = None) as Hfirst
    by (right; eexists; split; reflexivity).
  split.
  - exact (proj1 (unreadable_rules_end_the_pass Linux NullArtifact.ruled _ Hrules Hfirst)).
  - refine (proj2 (proj1 (proj2 (unreadable_rules_end_the_pass Linux NullArtifact.ruled _
                                   Hrules Hfirst)
                            NullArtifact.net "/opt/ql" "1.19.4" "null" "https://libs/null"
                            NullArtifact.disk eq_refl eq_refl) _ _) _).
    + vm_compute. discriminate.
    + vm_compute. reflexivity.
Defined.

(** ** The directories that main makes *)

Section Setup.

Variable plat : platform.

Lemma CreateDirectoryIfNotExists_step (path : string) (s s' : state) :
  CreateDirectoryIfNotExists plat path s = Done tt s' ->
  DirectoryExists plat path s' = true
  /\ (forall d, DirectoryExists plat d s = true -> DirectoryExists plat d s' = true)
  /\ fetched s' = fetched s
  /\ (forall p n, files s !! p = Some n -> files s' !! p = Some n).
Proof.
  intros Hrun. split; [|split; [|split]].
  - revert Hrun. unfold CreateDirectoryIfNotExists.
    destruct (DirectoryExists plat path s) eqn:Hdir; [by intros [= <-]|].
    destruct (String.eqb_spec path "") as [|Hne]; [done|].
    destruct (create_directories _ _) as [f'|] eqn:Hmk; [|done].
    intros [= <-]. apply DirectoryExists_lookup. split; [done|].
    destruct (components plat path) as [|x p] eqn:Hp; [done|].
    simpl. by apply (create_directories_from_made _ [] _ _ Hmk).
  - intros d Hd.
    pose proof (keeps_DirectoryExists plat _ d s
                  (keeps_CreateDirectoryIfNotExists plat path) Hd) as Hafter.
    by rewrite Hrun in Hafter.
  - pose proof (CreateDirectoryIfNotExists_fetched plat path s) as Hf.
    by rewrite Hrun in Hf.
  - revert Hrun. unfold CreateDirectoryIfNotExists.
    destruct (DirectoryExists plat path s); [by intros [= <-]|].
    destruct (String.eqb path ""); [done|].
    destruct (create_directories _ _) as [f'|] eqn:Hmk; [|done].
    intros [= <-] p n. simpl. by apply create_directories_from_keeps with (1 := Hmk).
Qed.

End Setup.

(** X19. The directories of lines 62-65 and 81-83.  When the seven calls
    come back, the seven directories exist together at the end: profiles,
    assets/indexes, assets/objects, versions, versions/<version>,
    versions/<version>/libraries and profiles/<version>, all below the
    program directory; on a disk in good shape the assets directory
    exists as well.  Every directory that was there before is still
    there, every entry of the disk is unchanged and nothing has been
    requested from the network. *)
Theorem setup_makes_the_tree (plat : platform) (programDirectory version : string)
    (s s' : state) :
  setup plat programDirectory version s = Done tt s' ->
  Forall (fun d => DirectoryExists plat d s' = true)
    [programDirectory +:+ "/profiles";
     programDirectory +:+ "/assets/indexes";
     programDirectory +:+ "/assets/objects";
     programDirectory +:+ "/versions";
     (programDirectory +:+ "/versions/") +:+ version;
     ((programDirectory +:+ "/versions/") +:+ version) +:+ "/libraries";
     (programDirectory +:+ "/profiles/") +:+ version]
  /\ (well_formed (files s) -> DirectoryExists plat (programDirectory +:+ "/assets") s' = true)
  /\ (forall d, DirectoryExists plat d s = true -> DirectoryExists plat d s' = true)
  /\ (forall p n, files s !! p = Some n -> files s' !! p = Some n)
  /\ fetched s' = fetched s.
Proof.
  intros Hrun. pose proof Hrun as Hsetup. unfold setup, versionDir in Hrun.
  rewrite bind_run in Hrun.
  destruct (CreateDirectoryIfNotExists plat (programDirectory +:+ "/profiles") s)
    as [[] s1|] eqn:H1; [|done].
  rewrite bind_run in Hrun.
  destruct (CreateDirectoryIfNotExists plat (programDirectory +:+ "/assets/indexes") s1)
    as [[] s2|] eqn:H2; [|done].
  rewrite bind_run in Hrun.
  destruct (CreateDirectoryIfNotExists plat (programDirectory +:+ "/assets/objects") s2)
    as [[] s3|] eqn:H3; [|done].
  rewrite bind_run in Hrun.
  destruct (CreateDirectoryIfNotExists plat (programDirectory +:+ "/versions") s3)
    as [[] s4|] eqn:H4; [|done].
  rewrite bind_run in Hrun.
  destruct (CreateDirectoryIfNotExists plat ((programDirectory +:+ "/versions/") +:+ version) s4)
    as [[] s5|] eqn:H5; [|done].
  rewrite bind_run in Hrun.
  destruct (CreateDirectoryIfNotExists plat
              (((programDirectory +:+ "/versions/") +:+ version) +:+ "/libraries") s5)
    as [[] s6|] eqn:H6; [|done].
  apply CreateDirectoryIfNotExists_step in H1 as (D1 & K1 & F1 & E1).
  apply CreateDirectoryIfNotExists_step in H2 as (D2 & K2 & F2 & E2).
  apply CreateDirectoryIfNotExists_step in H3 as (D3 & K3 & F3 & E3).
  apply CreateDirectoryIfNotExists_step in H4 as (D4 & K4 & F4 & E4).
  apply CreateDirectoryIfNotExists_step in H5 as (D5 & K5 & F5 & E5).
  apply CreateDirectoryIfNotExists_step in H6 as (D6 & K6 & F6 & E6).
  apply CreateDirectoryIfNotExists_step in Hrun as (D7 & K7 & F7 & E7).
  split; [|split; [|split; [|split]]].
  - repeat (constructor; [auto 10|]). constructor.
  - intros Hwf. by apply (setup_makes_assets plat programDirectory version s s').
  - auto 10.
  - auto 10.
  - congruence.
Qed.

Lemma setup_makes_the_tree_witness :
  let s' := final (setup Linux "/opt/ql" "1.19.4" Scenario.fresh) in
  DirectoryExists Linux "/opt/ql/versions/1.19.4/libraries" s' = true
  /\ DirectoryExists Linux "/opt/ql/profiles/1.19.4" s' = true
  /\ DirectoryExists Linux "/opt/ql/assets" s' = true.
Proof.
  intros s'.
  destruct (setup_makes_the_tree Linux "/opt/ql" "1.19.4" Scenario.fresh s')
    as (Hall & Hassets & _); [vm_compute; reflexivity|].
  split; [|split].
  - exact (Forall_lookup_1 _ _ 5 _ Hall eq_refl).
  - exact (Forall_lookup_1 _ _ 6 _ Hall eq_refl).
  - apply Hassets. apply well_formedb_sound. vm_compute. reflexivity.
Defined.

(** ** The options of the virtual machine *)

(** X20. The logging option of the command.  With
    [logging.client.argument] in pieces and no dollar sign in the program
    directory, the version and [logging.client.file.id], the options are
    the fixed texts of line 220-229 around the argument, in which every
    [${path}] has become, between double quotes, the path
    [<program directory>/versions/<version>/logging-<id>]: the very path
    under which the download branch (line 109) stores the logging
    configuration.  The separators of the program directory are left as
    they are here.  A descriptor without [logging.client.argument] or
    without [logging.client.file.id] has no options: the run ends. *)
Theorem cmdOpts_names_the_logging_file (programDirectory version : string)
    (versionJson : json) :
  (forall segs loggingId,
      string_at ["logging"; "client"; "argument"] versionJson = Some (render segs) ->
      string_at ["logging"; "client"; "file"; "id"] versionJson = Some loggingId ->
      Forall segment_ok segs ->
      occurs dollar programDirectory = false ->
      occurs dollar version = false ->
      occurs dollar loggingId = false ->
      cmdOpts programDirectory version versionJson
      = Some ((((((" -Xss1M -Djava.library.path=" +:+ version) +:+ "-natives")
                   +:+ " -Dminecraft.launcher.brand=minecraft-launcher")
                  +:+ " -Dminecraft.launcher.version=2.1.1349 ")
                 +:+ render (map (fill "path"
                                    ((dquote
                                        +:+ (((versionDir programDirectory version +:+ "/")
                                                +:+ "logging-") +:+ loggingId))
                                       +:+ dquote))
                               segs))
                +:+ " -Xmx2G -XX:+UnlockExperimentalVMOptions -XX:+UseG1GC -XX:G1NewSizePercent=20 -XX:G1ReservePercent=20 -XX:MaxGCPauseMillis=50 -XX:G1HeapRegionSize=32M"))
  /\ (string_at ["logging"; "client"; "argument"] versionJson = None
      \/ string_at ["logging"; "client"; "file"; "id"] versionJson = None ->
      cmdOpts programDirectory version versionJson = None).
Proof.
  split.
  - intros segs loggingId Hargument Hid Hsegs Hdir Hversion Hlogging.
    unfold cmdOpts. rewrite Hargument, Hid.
    change (Some (render segs) ≫= ?next) with (next (render segs)). cbv beta.
    change (Some loggingId ≫= ?next) with (next loggingId). cbv beta.
    assert ((((((dquote +:+ programDirectory) +:+ "/versions/") +:+ version)
                +:+ "/logging-") +:+ loggingId) +:+ dquote
            = (dquote +:+ (((versionDir programDirectory version +:+ "/")
                              +:+ "logging-") +:+ loggingId)) +:+ dquote) as ->.
    { unfold versionDir. rewrite !append_assoc. reflexivity. }
    rewrite fill_step; [reflexivity|exact Hsegs|reflexivity|].
    unfold versionDir. by rewrite !occurs_app, Hdir, Hversion, Hlogging.
  - unfold cmdOpts. intros [->| ->]; [reflexivity|].
    by destruct (string_at ["logging"; "client"; "argument"] versionJson).
Qed.

Lemma cmdOpts_names_the_logging_file_witness :
  exists before after,
    cmdOpts "/opt/ql" "1.19.4" Scenario.descriptor
    = Some ((before +:+ "-Dlog4j.configurationFile="
               +:+ dquote +:+ "/opt/ql/versions/1.19.4/logging-client-1.12.xml" +:+ dquote)
              +:+ after).
Proof.
  assert (Forall segment_ok [Text "-Dlog4j.configurationFile="; Hole "path"]) as Hsegs.
  { repeat (constructor; [reflexivity|]). constructor. }
  eexists _, _.
  exact (proj1 (cmdOpts_names_the_logging_file "/opt/ql" "1.19.4" Scenario.descriptor)
           [Text "-Dlog4j.configurationFile="; Hole "path"] "client-1.12.xml"
           eq_refl eq_refl Hsegs eq_refl eq_refl eq_refl).
Defined.
